(** * OpenMediaTrust: manifest integrity and trust engine

    A shallow embedding of the signing service ([src/core/signer.py]),
    the data model ([src/core/models.py]), the manifest validator
    ([src/verification/validator.py]) and the policy engine
    ([src/verification/policy_engine.py]), with the properties the
    specification states about them.

    Conventions of the embedding.
    - Python [str] is [string], read as a sequence of code points below 256;
      [bytes] is [list byte].
    - Code that may raise returns a [result]; only subclasses of
      [Exception] are modelled, which is what [except Exception] catches.
    - Dynamically typed payloads ([Any]) are values of [pyval].  Floats and
      cyclic object graphs are left out.
    - Objects mutated in place live in a store indexed by references. *)

From Stdlib Require Import ZArith NArith List String Ascii Lia Bool DecimalString Sorted.
From Stdlib.Strings Require Import Byte.
From stdpp Require Import base gmap strings list.

Set Default Proof Using "Type".
Set Warnings "-register-all".

(** ** Exceptions and results *)

Inductive exn :=
| TypeError (msg : string)
| ValueError (msg : string)
| AttributeError (msg : string)
| OverflowError (msg : string)
| OtherException (class_name msg : string).

(** [str(e)] for an exception built from a single message. *)
Definition exn_str (e : exn) : string :=
  match e with
  | TypeError m | ValueError m | AttributeError m | OverflowError m => m
  | OtherException _ m => m
  end.

Inductive result (A : Type) :=
| Ok (a : A)
| Raise (e : exn).
Arguments Ok {A} a.
Arguments Raise {A} e.

#[global] Instance result_ret : MRet result := fun A a => Ok a.
#[global] Instance result_bind : MBind result := fun A B f r =>
  match r with
  | Ok a => f a
  | Raise e => Raise e
  end.

Definition is_ok {A} (r : result A) : bool :=
  match r with Ok _ => true | Raise _ => false end.

(** ** Bytes *)

Abbreviation bytes := (list byte).

#[global] Instance byte_eq_decision : EqDecision byte := Byte.byte_eq_dec.

Definition byte_of_N (n : N) : byte :=
  default "000"%byte (Byte.of_N (n mod 256)).

(** [int.from_bytes(b, "big")]. *)
Definition int_from_bytes_big (b : bytes) : N :=
  fold_left (fun acc x => (acc * 256 + Byte.to_N x)%N) b 0%N.

(** [n.to_bytes(4, "big")]; Python raises [OverflowError] when [n] does
    not fit. *)
Definition int_to_bytes4_big (n : N) : result bytes :=
  if (n <? 2 ^ 32)%N then
    Ok [byte_of_N (n / 2 ^ 24); byte_of_N (n / 2 ^ 16);
        byte_of_N (n / 2 ^ 8); byte_of_N n]
  else Raise (OverflowError "int too big to convert").

(** Byte string literals such as [b"demo_key"]. *)
Definition b_lit (s : string) : bytes := list_byte_of_string s.

(** [str.encode("utf-8")] on code points below 256. *)
Definition utf8_char (c : ascii) : bytes :=
  let n := N_of_ascii c in
  if (n <? 128)%N then [byte_of_N n]
  else [byte_of_N (192 + n / 64); byte_of_N (128 + n mod 64)].

Fixpoint encode_utf8 (s : string) : bytes :=
  match s with
  | EmptyString => []
  | String c s' => utf8_char c ++ encode_utf8 s'
  end.

(** ** Dynamically typed values *)

Inductive datetime := Datetime (microseconds : Z).

Inductive pyval :=
| PNone
| PBool (b : bool)
| PInt (z : Z)
| PStr (s : string)
| PBytes (b : bytes)
| PDatetime (t : datetime)
| PList (l : list pyval)
| PDict (d : list (string * pyval)).

(** Truth value of an object, as [if x] and [not x] test it. *)
Definition py_truthy (v : pyval) : bool :=
  match v with
  | PNone => false
  | PBool b => b
  | PInt z => negb (z =? 0)%Z
  | PStr s => negb (String.eqb s "")
  | PBytes b => negb (bool_decide (b = []))
  | PDatetime _ => true
  | PList l => match l with [] => false | _ => true end
  | PDict d => match d with [] => false | _ => true end
  end.

Definition type_name (v : pyval) : string :=
  match v with
  | PNone => "NoneType"
  | PBool _ => "bool"
  | PInt _ => "int"
  | PStr _ => "str"
  | PBytes _ => "bytes"
  | PDatetime _ => "datetime"
  | PList _ => "list"
  | PDict _ => "dict"
  end.

(** [len(x)]. *)
Definition py_len (v : pyval) : result nat :=
  match v with
  | PStr s => Ok (String.length s)
  | PBytes b => Ok (length b)
  | PList l => Ok (length l)
  | PDict d => Ok (length d)
  | _ => Raise (TypeError ("object of type '" +:+ type_name v +:+ "' has no len()"))
  end.

(** [d.get(k)] on a dict kept as an association list with distinct keys. *)
Fixpoint dict_get {A} (k : string) (d : list (string * A)) : option A :=
  match d with
  | [] => None
  | (k', v) :: d' => if String.eqb k k' then Some v else dict_get k d'
  end.

(** [d.pop(k, None)], for its effect on the dict. *)
Definition dict_pop {A} (k : string) (d : list (string * A)) : list (string * A) :=
  filter (fun kv => k ≠ kv.1) d.

(** [x.get(k, dflt)] on an arbitrary object: only a dict has the method. *)
Definition py_get (v : pyval) (k : string) (dflt : pyval) : result pyval :=
  match v with
  | PDict d => Ok (default dflt (dict_get k d))
  | _ => Raise (AttributeError ("'" +:+ type_name v +:+ "' object has no attribute 'get'"))
  end.

(** ** [json.dumps(obj, sort_keys=True, separators=(",", ":"))]

    The encoder of the standard library with its defaults otherwise:
    [ensure_ascii=True], no [default] hook.  An object of a type the
    encoder does not know ([bytes], [datetime]) raises [TypeError]. *)

Definition dquote : string := String (ascii_of_nat 34) EmptyString.
Definition backslash : string := String (ascii_of_nat 92) EmptyString.

Definition hex_digit (n : N) : ascii :=
  match String.get (N.to_nat n) "0123456789abcdef" with
  | Some c => c
  | None => "0"%char
  end.

(** One character of a string literal: [ESCAPE_DCT] for the short escapes,
    [\u00xx] for every other character outside [' '..'~']. *)
Definition escape_char (c : ascii) : string :=
  let n := N_of_ascii c in
  if (n =? 34)%N then backslash +:+ dquote
  else if (n =? 92)%N then backslash +:+ backslash
  else if (n =? 10)%N then backslash +:+ "n"
  else if (n =? 13)%N then backslash +:+ "r"
  else if (n =? 9)%N then backslash +:+ "t"
  else if (n =? 8)%N then backslash +:+ "b"
  else if (n =? 12)%N then backslash +:+ "f"
  else if ((n <? 32) || (126 <? n))%N then
    backslash +:+ "u00" +:+ String (hex_digit (n / 16)) (String (hex_digit (n mod 16)) EmptyString)
  else String c EmptyString.

Fixpoint escape_string (s : string) : string :=
  match s with
  | EmptyString => EmptyString
  | String c s' => escape_char c +:+ escape_string s'
  end.

Definition encode_basestring_ascii (s : string) : string :=
  dquote +:+ escape_string s +:+ dquote.

(** [int.__repr__]. *)
Definition int_repr (z : Z) : string := NilZero.string_of_int (Z.to_int z).

(** [sep.join(items)]. *)
Fixpoint join (sep : string) (items : list string) : string :=
  match items with
  | [] => EmptyString
  | [x] => x
  | x :: rest => x +:+ sep +:+ join sep rest
  end.

(** [sorted(dct.items())]: the keys of a dict are distinct, so the order
    is decided by the keys alone, compared code point by code point. *)
Fixpoint insert_item {A} (kv : string * A) (l : list (string * A)) : list (string * A) :=
  match l with
  | [] => [kv]
  | kv' :: l' =>
      if String.leb kv.1 kv'.1 then kv :: l else kv' :: insert_item kv l'
  end.

Definition sort_items {A} (l : list (string * A)) : list (string * A) :=
  foldr insert_item [] l.

(** The first exception of a sequence of encodings, or all the chunks. *)
Fixpoint sequence {A} (l : list (result A)) : result (list A) :=
  match l with
  | [] => Ok []
  | r :: l' => x ← r; xs ← sequence l'; Ok (x :: xs)
  end.

Definition not_serializable {A} (v : pyval) : result A :=
  Raise (TypeError ("Object of type " +:+ type_name v +:+ " is not JSON serializable")).

Definition encode_member (kv : string * result string) : result string :=
  txt ← kv.2; Ok (encode_basestring_ascii kv.1 +:+ ":" +:+ txt).

Definition encode_list_chunks (chunks : list (result string)) : result string :=
  items ← sequence chunks; Ok ("[" +:+ join "," items +:+ "]").

Definition encode_dict_chunks (members : list (string * result string)) : result string :=
  items ← sequence (map encode_member members); Ok ("{" +:+ join "," items +:+ "}").

Fixpoint json_encode (sort_keys : bool) (v : pyval) : result string :=
  match v with
  | PNone => Ok "null"
  | PBool b => Ok (if b then "true" else "false")
  | PInt z => Ok (int_repr z)
  | PStr s => Ok (encode_basestring_ascii s)
  | PBytes _ | PDatetime _ => not_serializable v
  | PList l => encode_list_chunks (map (json_encode sort_keys) l)
  | PDict d =>
      let members := map (fun kv => (kv.1, json_encode sort_keys kv.2)) d in
      encode_dict_chunks (if sort_keys then sort_items members else members)
  end.

Definition json_dumps_sorted (v : pyval) : result string := json_encode true v.

(** ** Data model ([src/core/models.py]) *)

Inductive SignatureAlgorithm :=
| RSA_PSS_SHA256 | RSA_PSS_SHA384 | RSA_PSS_SHA512
| ECDSA_SHA256 | ECDSA_SHA384 | ECDSA_SHA512
| ML_DSA_44 | ML_DSA_65 | ML_DSA_87
| SLH_DSA_SHA2_128S | SLH_DSA_SHA2_256S
| HYBRID_RSA_ML_DSA | HYBRID_ECDSA_ML_DSA.

#[global] Instance SignatureAlgorithm_eq_dec : EqDecision SignatureAlgorithm.
Proof. solve_decision. Defined.

(** The [str] value of each member of the enumeration. *)
Definition SignatureAlgorithm_value (a : SignatureAlgorithm) : string :=
  match a with
  | RSA_PSS_SHA256 => "ps256"
  | RSA_PSS_SHA384 => "ps384"
  | RSA_PSS_SHA512 => "ps512"
  | ECDSA_SHA256 => "es256"
  | ECDSA_SHA384 => "es384"
  | ECDSA_SHA512 => "es512"
  | ML_DSA_44 => "ml-dsa-44"
  | ML_DSA_65 => "ml-dsa-65"
  | ML_DSA_87 => "ml-dsa-87"
  | SLH_DSA_SHA2_128S => "slh-dsa-sha2-128s"
  | SLH_DSA_SHA2_256S => "slh-dsa-sha2-256s"
  | HYBRID_RSA_ML_DSA => "hybrid-rsa-ml-dsa-65"
  | HYBRID_ECDSA_ML_DSA => "hybrid-ecdsa-ml-dsa-65"
  end.

Record ClaimGeneratorInfo := {
  cgi_name : string;
  cgi_version : string;
  cgi_icon : option string;
}.

(** [data: Union[Dict[str, Any], List[Any]]]. *)
Inductive AssertionData :=
| DictData (d : list (string * pyval))
| ListData (l : list pyval).

Definition data_value (d : AssertionData) : pyval :=
  match d with
  | DictData d => PDict d
  | ListData l => PList l
  end.

Record Assertion := {
  label : string;
  data : AssertionData;
  assertion_instance_id : option string;
}.

Record Signature := {
  alg : SignatureAlgorithm;
  certificate_chain : list string;
  timestamp : datetime;
  tsa : option string;
  signature_value : option bytes;
}.

Record Manifest := {
  claim_generator : string;
  format : string;
  instance_id : string;
  claim_generator_info : option (list ClaimGeneratorInfo);
  title : option string;
  assertions : list Assertion;
  signature : option Signature;
  created_at : datetime;
  updated_at : option datetime;
  organization : option string;
  tenant_id : option string;
}.

(** The assignment [manifest.signature = sg]. *)
Definition set_signature (m : Manifest) (sg : option Signature) : Manifest :=
  {| claim_generator := claim_generator m;
     format := format m;
     instance_id := instance_id m;
     claim_generator_info := claim_generator_info m;
     title := title m;
     assertions := assertions m;
     signature := sg;
     created_at := created_at m;
     updated_at := updated_at m;
     organization := organization m;
     tenant_id := tenant_id m |}.

(** [Manifest.get_assertion]: the first assertion with the label. *)
Fixpoint find_assertion (lbl : string) (l : list Assertion) : option Assertion :=
  match l with
  | [] => None
  | assertion :: rest =>
      if String.eqb (label assertion) lbl then Some assertion
      else find_assertion lbl rest
  end.

Definition get_assertion (m : Manifest) (lbl : string) : option Assertion :=
  find_assertion lbl (assertions m).

(** *** [Manifest.to_dict]: [self.dict(exclude_none=True, by_alias=True)]

    Fields come in declaration order; a field whose value is [None] is
    left out, in the manifest and in every nested model.  Nothing else is
    left out or converted: an empty list or string stays, a [datetime]
    stays a [datetime] and [bytes] stay [bytes].  The payload of an
    assertion is a plain container and is copied as it is. *)

Definition opt_field (k : string) (v : option pyval) : list (string * pyval) :=
  match v with
  | Some x => [(k, x)]
  | None => []
  end.

Definition ClaimGeneratorInfo_dict (c : ClaimGeneratorInfo) : pyval :=
  PDict ([("name", PStr (cgi_name c)); ("version", PStr (cgi_version c))]
         ++ opt_field "icon" (PStr <$> cgi_icon c)).

Definition Assertion_dict (a : Assertion) : pyval :=
  PDict ([("label", PStr (label a)); ("data", data_value (data a))]
         ++ opt_field "instance_id" (PStr <$> assertion_instance_id a)).

Definition Signature_dict (sg : Signature) : pyval :=
  PDict ([("alg", PStr (SignatureAlgorithm_value (alg sg)));
          ("certificate_chain", PList (PStr <$> certificate_chain sg));
          ("timestamp", PDatetime (timestamp sg))]
         ++ opt_field "tsa" (PStr <$> tsa sg)
         ++ opt_field "signature_value" (PBytes <$> signature_value sg)).

Definition to_dict (m : Manifest) : list (string * pyval) :=
  [("claim_generator", PStr (claim_generator m));
   ("format", PStr (format m));
   ("instance_id", PStr (instance_id m))]
  ++ opt_field "claim_generator_info"
       ((fun l => PList (ClaimGeneratorInfo_dict <$> l)) <$> claim_generator_info m)
  ++ opt_field "title" (PStr <$> title m)
  ++ [("assertions", PList (Assertion_dict <$> assertions m))]
  ++ opt_field "signature" (Signature_dict <$> signature m)
  ++ [("created_at", PDatetime (created_at m))]
  ++ opt_field "updated_at" (PDatetime <$> updated_at m)
  ++ opt_field "organization" (PStr <$> organization m)
  ++ opt_field "tenant_id" (PStr <$> tenant_id m).

(** ** Signing service ([src/core/signer.py]) *)

(** What [Signer._private_key] holds: raw key bytes for the post-quantum
    and hybrid tags, a loaded [RSAPrivateKey] object (identified by its
    encoding) for the RSA-PSS tags. *)
Inductive key_material :=
| RawKey (key_data : bytes)
| RsaPrivateKey (der : bytes).

Inductive rsa_hash := SHA256 | SHA384 | SHA512.

Record Signer := {
  algorithm : SignatureAlgorithm;
  tsa_url : option string;
  _private_key : option key_material;
  _certificate_chain : list string;
}.

(** [Signer(algorithm=a)]: no key and no certificate are loaded. *)
Definition Signer_new (a : SignatureAlgorithm) : Signer :=
  {| algorithm := a; tsa_url := None; _private_key := None; _certificate_chain := [] |}.

Definition is_rsa_pss (a : SignatureAlgorithm) : bool :=
  match a with RSA_PSS_SHA256 | RSA_PSS_SHA384 | RSA_PSS_SHA512 => true | _ => false end.
Definition is_ml_dsa (a : SignatureAlgorithm) : bool :=
  match a with ML_DSA_44 | ML_DSA_65 | ML_DSA_87 => true | _ => false end.
Definition is_slh_dsa (a : SignatureAlgorithm) : bool :=
  match a with SLH_DSA_SHA2_128S | SLH_DSA_SHA2_256S => true | _ => false end.
Definition is_hybrid (a : SignatureAlgorithm) : bool :=
  match a with HYBRID_RSA_ML_DSA | HYBRID_ECDSA_ML_DSA => true | _ => false end.

(** The tags [_compute_signature] dispatches on. *)
Definition supported (a : SignatureAlgorithm) : bool :=
  is_rsa_pss a || is_ml_dsa a || is_slh_dsa a || is_hybrid a.

(** References to manifests, and the store they point into. *)
Abbreviation ref := nat.
Abbreviation store := (gmap nat Manifest).

Section SignerOps.

(** The primitives of [hashlib] and of the [cryptography] package.  The
    RSA primitive stands for [RSAPrivateKey.sign] with PSS padding, MGF1
    and the maximal salt length. *)
Variable sha3_256 : bytes -> bytes.
Variable sha3_512 : bytes -> bytes.
Variable rsa_pss_sign : bytes -> rsa_hash -> bytes -> result bytes.

Definition _prepare_manifest_for_signing (self : Signer) (manifest : Manifest) : result bytes :=
  let manifest_dict := to_dict manifest in
  let manifest_dict := dict_pop "signature" manifest_dict in
  json_data ← json_dumps_sorted (PDict manifest_dict);
  Ok (encode_utf8 json_data).

Definition _sign_rsa_pss (self : Signer) (data : bytes) : result bytes :=
  match _private_key self with
  | Some (RsaPrivateKey key) =>
      let hash_alg :=
        match algorithm self with
        | RSA_PSS_SHA256 => SHA256
        | RSA_PSS_SHA384 => SHA384
        | RSA_PSS_SHA512 => SHA512
        | _ => SHA256
        end in
      rsa_pss_sign key hash_alg data
  | _ => Raise (ValueError "Invalid private key for RSA-PSS")
  end.

(** [data + (self._private_key or b"demo_key")]: bytes cannot be
    concatenated with a key object. *)
Definition data_with_key (self : Signer) (data : bytes) : result bytes :=
  match _private_key self with
  | None => Ok (data ++ b_lit "demo_key")
  | Some (RawKey k) =>
      Ok (data ++ (if bool_decide (k = []) then b_lit "demo_key" else k))
  | Some (RsaPrivateKey _) =>
      Raise (TypeError "can't concat RSAPrivateKey to bytes")
  end.

Definition _sign_ml_dsa (self : Signer) (data : bytes) : result bytes :=
  keyed ← data_with_key self data;
  let hash_value := sha3_256 keyed in
  Ok (b_lit "ML-DSA-SIGNATURE:" ++ hash_value).

Definition _sign_slh_dsa (self : Signer) (data : bytes) : result bytes :=
  keyed ← data_with_key self data;
  let hash_value := sha3_512 keyed in
  Ok (b_lit "SLH-DSA-SIGNATURE:" ++ hash_value).

Definition _sign_hybrid (self : Signer) (data : bytes) : result bytes :=
  classical_sig ← _sign_rsa_pss self data;
  pqc_sig ← _sign_ml_dsa self data;
  classical_len ← int_to_bytes4_big (N.of_nat (length classical_sig));
  let hybrid_sig := classical_len ++ classical_sig ++ pqc_sig in
  Ok hybrid_sig.

Definition _compute_signature (self : Signer) (data : bytes) : result bytes :=
  if is_rsa_pss (algorithm self) then _sign_rsa_pss self data
  else if is_ml_dsa (algorithm self) then _sign_ml_dsa self data
  else if is_slh_dsa (algorithm self) then _sign_slh_dsa self data
  else if is_hybrid (algorithm self) then _sign_hybrid self data
  else Raise (ValueError "Unsupported algorithm").

(** [Signer.sign]: [now] is the value of [datetime.utcnow()].  The
    manifest is an object of the store; the call assigns its [signature]
    attribute and returns the reference it was given. *)
Definition sign (self : Signer) (now : datetime) (manifest : ref) (σ : store)
  : result ref * store :=
  match σ !! manifest with
  | None => (Raise (ValueError "no such object"), σ)
  | Some m =>
      match (manifest_data ← _prepare_manifest_for_signing self m;
             _compute_signature self manifest_data) with
      | Raise e => (Raise e, σ)
      | Ok sig_value =>
          let sg := {| alg := algorithm self;
                       certificate_chain := _certificate_chain self;
                       timestamp := now;
                       tsa := tsa_url self;
                       signature_value := Some sig_value |} in
          (Ok manifest, <[manifest := set_signature m (Some sg)]> σ)
      end
  end.

Definition _verify_rsa_pss (self : Signer) (data sig : bytes) : bool := true.

Definition _verify_ml_dsa (self : Signer) (data sig : bytes) : result bool :=
  keyed ← data_with_key self data;
  let expected := b_lit "ML-DSA-SIGNATURE:" ++ sha3_256 keyed in
  Ok (bool_decide (sig = expected)).

Definition _verify_slh_dsa (self : Signer) (data sig : bytes) : result bool :=
  keyed ← data_with_key self data;
  let expected := b_lit "SLH-DSA-SIGNATURE:" ++ sha3_512 keyed in
  Ok (bool_decide (sig = expected)).

Definition _verify_hybrid (self : Signer) (data sig : bytes) : result bool :=
  let classical_len := N.to_nat (int_from_bytes_big (take 4 sig)) in
  let classical_sig := take classical_len (drop 4 sig) in
  let pqc_sig := drop (4 + classical_len) sig in
  let classical_valid := _verify_rsa_pss self data classical_sig in
  pqc_valid ← _verify_ml_dsa self data pqc_sig;
  Ok (classical_valid && pqc_valid).

Definition _verify_signature (self : Signer) (data sig : bytes) : result bool :=
  if is_rsa_pss (algorithm self) then Ok (_verify_rsa_pss self data sig)
  else if is_ml_dsa (algorithm self) then _verify_ml_dsa self data sig
  else if is_slh_dsa (algorithm self) then _verify_slh_dsa self data sig
  else if is_hybrid (algorithm self) then _verify_hybrid self data sig
  else Ok false.

(** [Signer.verify].  The canonical bytes are computed before the [try]
    block; only [_verify_signature] runs inside it. *)
Definition verify (self : Signer) (manifest : Manifest) : result bool :=
  match signature manifest with
  | None => Ok false
  | Some sg =>
      manifest_data ← _prepare_manifest_for_signing self manifest;
      match _verify_signature self manifest_data (default [] (signature_value sg)) with
      | Ok b => Ok b
      | Raise _ => Ok false
      end
  end.

End SignerOps.

(** ** Manifest validator ([src/verification/validator.py]) *)

Inductive ValidationLevel := INVALID | BASIC | STANDARD | ENTERPRISE | HIGH_ASSURANCE.

Record ValidationIssue := {
  issue_severity : string;
  issue_code : string;
  issue_message : string;
  issue_location : option string;
  issue_details : option (list (string * pyval));
}.

Record AssertionValidation := {
  av_label : string;
  av_verified : bool;
  av_message : string;
  av_details : option (list (string * pyval));
}.

Record ValidationResult := {
  valid : bool;
  trust_level : ValidationLevel;
  signature_valid : bool;
  certificate_trusted : bool;
  chain_complete : bool;
  assertions_verified : list AssertionValidation;
  issues : list ValidationIssue;
  warnings : list ValidationIssue;
  verified_at : datetime;
  manifest_id : string;
  organizational_compliance : list (string * bool);
}.

(** The three lists [validate] creates and every stage appends to. *)
Record report := {
  r_issues : list ValidationIssue;
  r_warnings : list ValidationIssue;
  r_assertion_validations : list AssertionValidation;
}.

Definition empty_report : report :=
  {| r_issues := []; r_warnings := []; r_assertion_validations := [] |}.

Definition append_issue (i : ValidationIssue) (r : report) : report :=
  {| r_issues := r_issues r ++ [i];
     r_warnings := r_warnings r;
     r_assertion_validations := r_assertion_validations r |}.

Definition append_warning (w : ValidationIssue) (r : report) : report :=
  {| r_issues := r_issues r;
     r_warnings := r_warnings r ++ [w];
     r_assertion_validations := r_assertion_validations r |}.

Definition append_validation (v : AssertionValidation) (r : report) : report :=
  {| r_issues := r_issues r;
     r_warnings := r_warnings r;
     r_assertion_validations := r_assertion_validations r ++ [v] |}.

Definition error_issue (code msg : string) : ValidationIssue :=
  {| issue_severity := "error"; issue_code := code; issue_message := msg;
     issue_location := None; issue_details := None |}.

Definition warning_issue (code msg : string) : ValidationIssue :=
  {| issue_severity := "warning"; issue_code := code; issue_message := msg;
     issue_location := None; issue_details := None |}.

Definition str_truthy (s : string) : bool := negb (String.eqb s "").

(** [s.startswith(p)]. *)
Definition startswith (p s : string) : bool := String.prefix p s.

Definition _validate_structure (manifest : Manifest) (r : report) : bool * report :=
  let '(valid, r) :=
    if negb (str_truthy (claim_generator manifest)) then
      (false, append_issue (error_issue "MISSING_CLAIM_GENERATOR" "Manifest missing claim_generator") r)
    else (true, r) in
  let '(valid, r) :=
    if negb (str_truthy (format manifest)) then
      (false, append_issue (error_issue "MISSING_FORMAT" "Manifest missing format") r)
    else (valid, r) in
  let '(valid, r) :=
    if negb (str_truthy (instance_id manifest)) then
      (false, append_issue (error_issue "MISSING_INSTANCE_ID" "Manifest missing instance_id") r)
    else (valid, r) in
  let r :=
    if str_truthy (instance_id manifest)
       && negb (startswith "xmp:iid:" (instance_id manifest)
                || startswith "uuid:" (instance_id manifest)) then
      append_warning
        (warning_issue "INVALID_INSTANCE_ID_FORMAT"
           "instance_id should start with 'xmp:iid:' or 'uuid:'") r
    else r in
  (valid, r).

Definition _validate_actions_assertion (assertion : Assertion) : result AssertionValidation :=
  match data assertion with
  | ListData _ =>
      Ok {| av_label := "c2pa.actions"; av_verified := false;
            av_message := "Invalid actions assertion format"; av_details := None |}
  | DictData d =>
      let actions := default (PList []) (dict_get "actions" d) in
      if negb (py_truthy actions) then
        Ok {| av_label := "c2pa.actions"; av_verified := false;
              av_message := "Actions assertion has no actions"; av_details := None |}
      else
        n ← py_len actions;
        Ok {| av_label := "c2pa.actions"; av_verified := true;
              av_message := "Actions assertion valid (" +:+ int_repr (Z.of_nat n) +:+ " actions)";
              av_details := Some [("action_count", PInt (Z.of_nat n))] |}
  end.

Definition has_key {A} (k : string) (d : list (string * A)) : bool :=
  match dict_get k d with Some _ => true | None => false end.

Definition _validate_hash_assertion (assertion : Assertion) : AssertionValidation :=
  match data assertion with
  | ListData _ =>
      {| av_label := "c2pa.hash.data"; av_verified := false;
         av_message := "Invalid hash assertion format"; av_details := None |}
  | DictData d =>
      if negb (has_key "name" d) || negb (has_key "alg" d) then
        {| av_label := "c2pa.hash.data"; av_verified := false;
           av_message := "Hash assertion missing required fields"; av_details := None |}
      else
        {| av_label := "c2pa.hash.data"; av_verified := true;
           av_message := "Hash assertion valid"; av_details := None |}
  end.

(** The loop of [_validate_assertions] over [manifest.assertions], with
    its two flags. *)
Fixpoint assertions_loop (l : list Assertion) (has_actions has_hash : bool) (r : report)
  : result (bool * bool * report) :=
  match l with
  | [] => Ok (has_actions, has_hash, r)
  | assertion :: rest =>
      if String.eqb (label assertion) "c2pa.actions" then
        validation ← _validate_actions_assertion assertion;
        assertions_loop rest true has_hash (append_validation validation r)
      else if String.eqb (label assertion) "c2pa.hash.data" then
        let validation := _validate_hash_assertion assertion in
        assertions_loop rest has_actions true (append_validation validation r)
      else
        assertions_loop rest has_actions has_hash
          (append_validation
             {| av_label := label assertion; av_verified := true;
                av_message := "Assertion present"; av_details := None |} r)
  end.

Definition _validate_assertions (manifest : Manifest) (r : report) : result (bool * report) :=
  match assertions manifest with
  | [] =>
      Ok (true, append_warning (warning_issue "NO_ASSERTIONS" "Manifest has no assertions") r)
  | _ =>
      '(has_actions, has_hash, r) ← assertions_loop (assertions manifest) false false r;
      let r :=
        if negb has_actions then
          append_warning
            (warning_issue "MISSING_ACTIONS_ASSERTION"
               "Recommended c2pa.actions assertion not found") r
        else r in
      if negb has_hash then
        Ok (false,
            append_issue
              (error_issue "MISSING_HASH_ASSERTION"
                 "Required c2pa.hash.data assertion not found") r)
      else Ok (true, r)
  end.

(** Iteration over an arbitrary object, as a [for] clause does it. *)
Definition py_iter (v : pyval) : result (list pyval) :=
  match v with
  | PList l => Ok l
  | PDict d => Ok ((fun kv => PStr kv.1) <$> d)
  | PStr s => Ok ((fun c => PStr (String c EmptyString)) <$> list_ascii_of_string s)
  | PBytes b => Ok ((fun x => PInt (Z.of_N (Byte.to_N x))) <$> b)
  | _ => Raise (TypeError ("'" +:+ type_name v +:+ "' object is not iterable"))
  end.

(** [x == s] for a string literal [s]. *)
Definition py_eq_str (v : pyval) (s : string) : bool :=
  match v with
  | PStr s' => String.eqb s' s
  | _ => false
  end.

(** [any(step.get("status") == "approved" for step in approval_chain)],
    which stops at the first approved step. *)
Fixpoint any_step_approved (steps : list pyval) : result bool :=
  match steps with
  | [] => Ok false
  | step :: rest =>
      status ← py_get step "status" PNone;
      if py_eq_str status "approved" then Ok true else any_step_approved rest
  end.

(** The values are kept as computed; [validate] has them validated when
    it builds the result record. *)
Definition _check_organizational_compliance (manifest : Manifest)
  : result (list (string * pyval)) :=
  match get_assertion manifest "org.enterprise.workflow" with
  | Some {| data := DictData d |} =>
      let compliance_check := default (PDict []) (dict_get "compliance_check" d) in
      pdpa ← py_get compliance_check "pdpa_approved" (PBool false);
      trademark ← py_get compliance_check "trademark_cleared" (PBool false);
      legal ← py_get compliance_check "legal_review" PNone;
      let approval_chain := default (PList []) (dict_get "approval_chain" d) in
      steps ← py_iter approval_chain;
      approved ← any_step_approved steps;
      let org_context := default (PDict []) (dict_get "organizational_context" d) in
      department ← py_get org_context "department" PNone;
      Ok [("pdpa_compliant", pdpa);
          ("trademark_cleared", trademark);
          ("legal_review_passed", PBool (py_eq_str legal "passed"));
          ("workflow_approved", PBool approved);
          ("department_authorized", PBool (py_truthy department))]
  | _ => Ok []
  end.

Definition _validate_chain_of_custody (manifest : Manifest) (r : report) : bool * report :=
  match get_assertion manifest "c2pa.actions" with
  | None => (false, r)
  | Some _ => (true, r)
  end.

Definition _determine_trust_level
    (signature_valid certificate_trusted chain_complete : bool) (issue_count : nat)
  : ValidationLevel :=
  if negb signature_valid || (0 <? issue_count) then INVALID
  else if certificate_trusted && chain_complete then ENTERPRISE
  else if certificate_trusted then STANDARD
  else if signature_valid then BASIC
  else INVALID.

Record ManifestValidator := {
  trusted_certificates : list string;
}.

Section Validator.

Variable sha3_256 : bytes -> bytes.
Variable sha3_512 : bytes -> bytes.

(** The validation the model base class runs on a value stored in a
    [bool] field: the boolean the value is taken for, or nothing when the
    value is refused; and the text of the [ValidationError] a record with
    a refused value raises. *)
Variable coerce_bool : pyval -> option bool.
Variable validation_error : list (string * pyval) -> string.

Definition _validate_signature (self : ManifestValidator) (manifest : Manifest) (r : report)
  : bool * report :=
  match signature manifest with
  | None => (false, r)
  | Some sg =>
      let signer := Signer_new (alg sg) in
      match verify sha3_256 sha3_512 signer manifest with
      | Ok valid =>
          if negb valid then
            (false,
             append_issue
               (error_issue "INVALID_SIGNATURE" "Manifest signature verification failed") r)
          else (true, r)
      | Raise e =>
          (false,
           append_issue
             (error_issue "SIGNATURE_VERIFICATION_ERROR"
                ("Error verifying signature: " +:+ exn_str e)) r)
      end
  end.

Definition _validate_certificate_trust (self : ManifestValidator) (manifest : Manifest)
    (r : report) : bool * report :=
  match signature manifest with
  | Some {| certificate_chain := (_ :: _) as cert_chain |} =>
      match trusted_certificates self with
      | [] =>
          (false,
           append_warning
             (warning_issue "NO_TRUSTED_CERTS" "No trusted certificates configured") r)
      | _ =>
          if existsb (fun trusted_cert => bool_decide (trusted_cert ∈ cert_chain))
               (trusted_certificates self)
          then (true, r)
          else
            (false,
             append_warning
               (warning_issue "UNTRUSTED_CERTIFICATE" "Certificate not in trusted list") r)
      end
  | _ =>
      (false,
       append_warning
         (warning_issue "NO_CERTIFICATE_CHAIN" "No certificate chain provided") r)
  end.

(** The field [organizational_compliance: Optional[Dict[str, bool]]] of
    [ValidationResult(...)]: every value of the dict is validated as a
    [bool], and the construction raises when one is refused. *)
Fixpoint coerce_values (d : list (string * pyval)) : option (list (string * bool)) :=
  match d with
  | [] => Some []
  | (k, v) :: d' =>
      match coerce_bool v, coerce_values d' with
      | Some b, Some rest => Some ((k, b) :: rest)
      | _, _ => None
      end
  end.

Definition validate_compliance (d : list (string * pyval))
  : result (list (string * bool)) :=
  match coerce_values d with
  | Some d' => Ok d'
  | None => Raise (OtherException "ValidationError" (validation_error d))
  end.

(** [ManifestValidator.validate]; [now] is the value of
    [datetime.utcnow()]. *)
Definition validate (self : ManifestValidator) (now : datetime) (manifest : Manifest)
    (strict : bool) : result ValidationResult :=
  let r := empty_report in
  let '(structure_valid, r) := _validate_structure manifest r in
  '(assertions_valid, r) ← _validate_assertions manifest r;
  let '(signature_valid, certificate_trusted, r) :=
    match signature manifest with
    | Some _ =>
        let '(signature_valid, r) := _validate_signature self manifest r in
        let '(certificate_trusted, r) := _validate_certificate_trust self manifest r in
        (signature_valid, certificate_trusted, r)
    | None =>
        (false, false, append_issue (error_issue "NO_SIGNATURE" "Manifest is not signed") r)
    end in
  let '(chain_complete, r) := _validate_chain_of_custody manifest r in
  let trust_level :=
    _determine_trust_level signature_valid certificate_trusted chain_complete
      (length (r_issues r)) in
  org_compliance ← _check_organizational_compliance manifest;
  let valid := structure_valid && assertions_valid && signature_valid in
  let valid := if strict then valid && certificate_trusted && chain_complete else valid in
  org_compliance ← validate_compliance org_compliance;
  Ok {| valid := valid;
        trust_level := trust_level;
        signature_valid := signature_valid;
        certificate_trusted := certificate_trusted;
        chain_complete := chain_complete;
        assertions_verified := r_assertion_validations r;
        issues := r_issues r;
        warnings := r_warnings r;
        verified_at := now;
        manifest_id := instance_id manifest;
        organizational_compliance := org_compliance |}.

End Validator.

(** ** Policy engine ([src/verification/policy_engine.py]) *)

Inductive ClassificationLevel := PUBLIC | INTERNAL | CONFIDENTIAL | SECRET | TOP_SECRET.

Definition ClassificationLevel_value (c : ClassificationLevel) : string :=
  match c with
  | PUBLIC => "public"
  | INTERNAL => "internal"
  | CONFIDENTIAL => "confidential"
  | SECRET => "secret"
  | TOP_SECRET => "top_secret"
  end.

Inductive PolicyRuleType :=
| REQUIRED_ASSERTION | FORBIDDEN_ASSERTION | REQUIRED_FIELD
| VALUE_CONSTRAINT | CLASSIFICATION_CONSTRAINT | CUSTOM_FUNCTION.

Inductive PolicyRuleSeverity := ERROR | WARNING | INFO.

#[global] Instance PolicyRuleSeverity_eq_dec : EqDecision PolicyRuleSeverity.
Proof. solve_decision. Defined.

(** [Optional[Any]] parameters hold [PNone] when they are not given. *)
Record PolicyRule := {
  rule_name : string;
  rule_description : string;
  rule_type : PolicyRuleType;
  rule_severity : PolicyRuleSeverity;
  enabled : bool;
  assertion_label : option string;
  field_path : option string;
  required_value : pyval;
  allowed_values : option (list pyval);
  min_value : pyval;
  max_value : pyval;
  classification_levels : option (list ClassificationLevel);
  custom_function : option string;
}.

Record PolicyViolation := {
  violation_rule_name : string;
  severity : PolicyRuleSeverity;
  message : string;
  location : option string;
  expected : option string;
  actual : option string;
}.

Record PolicyEvaluationResult := {
  result_manifest_id : string;
  result_policy_name : string;
  passed : bool;
  violations : list PolicyViolation;
  evaluated_at : datetime;
}.

Record OrganizationalPolicy := {
  policy_name : string;
  policy_description : string;
  policy_version : string;
  rules : list PolicyRule;
  policy_department : option string;
  policy_classification_level : option ClassificationLevel;
}.

(** A registered predicate: applied to the manifest it returns an object,
    tested for truth, or raises. *)
Abbreviation custom_predicate := (Manifest -> result pyval).

Record PolicyEngine := {
  policies : gmap string OrganizationalPolicy;
  custom_functions : gmap string custom_predicate;
}.

(** [PolicyRule(...)] with the defaults of the model for what is not given. *)
Definition required_assertion_rule (name descr lbl : string) : PolicyRule :=
  {| rule_name := name; rule_description := descr; rule_type := REQUIRED_ASSERTION;
     rule_severity := ERROR; enabled := true; assertion_label := Some lbl;
     field_path := None; required_value := PNone; allowed_values := None;
     min_value := PNone; max_value := PNone; classification_levels := None;
     custom_function := None |}.

Definition classification_rule (name descr : string) (levels : list ClassificationLevel)
  : PolicyRule :=
  {| rule_name := name; rule_description := descr; rule_type := CLASSIFICATION_CONSTRAINT;
     rule_severity := ERROR; enabled := true; assertion_label := None;
     field_path := None; required_value := PNone; allowed_values := None;
     min_value := PNone; max_value := PNone; classification_levels := Some levels;
     custom_function := None |}.

Definition marketing_policy : OrganizationalPolicy :=
  {| policy_name := "marketing_content";
     policy_description := "Policy for marketing and public relations content";
     policy_version := "1.0";
     policy_department := Some "Marketing";
     policy_classification_level := None;
     rules :=
       [required_assertion_rule "require_creative_work"
          "Must have CreativeWork assertion with author" "stds.schema-org.CreativeWork";
        required_assertion_rule "require_workflow"
          "Must have enterprise workflow" "org.enterprise.workflow";
        classification_rule "public_classification"
          "Marketing content must be classified as public" [PUBLIC]] |}.

Definition legal_policy : OrganizationalPolicy :=
  {| policy_name := "legal_documents";
     policy_description := "Policy for legal and compliance documents";
     policy_version := "1.0";
     policy_department := Some "Legal";
     policy_classification_level := None;
     rules :=
       [required_assertion_rule "require_hash"
          "Must have hash assertion for integrity" "c2pa.hash.data";
        required_assertion_rule "require_actions"
          "Must have complete action history" "c2pa.actions";
        classification_rule "confidential_or_higher"
          "Legal docs must be confidential or higher" [CONFIDENTIAL; SECRET; TOP_SECRET]] |}.

(** [PolicyEngine()]: the two default policies, no custom function. *)
Definition PolicyEngine_new : PolicyEngine :=
  {| policies := <["legal_documents" := legal_policy]>
                   (<["marketing_content" := marketing_policy]> ∅);
     custom_functions := ∅ |}.

Definition add_policy (self : PolicyEngine) (policy : OrganizationalPolicy) : PolicyEngine :=
  {| policies := <[policy_name policy := policy]> (policies self);
     custom_functions := custom_functions self |}.

Definition register_custom_function (self : PolicyEngine) (name : string)
    (function : custom_predicate) : PolicyEngine :=
  {| policies := policies self;
     custom_functions := <[name := function]> (custom_functions self) |}.

(** What [getattr(manifest, name, None)] can return: the value of a field,
    or another attribute of the class (a method, say). *)
Inductive attr_value :=
| AttrNone
| AttrStr (s : string)
| AttrDatetime (t : datetime)
| AttrInfoList (l : list ClaimGeneratorInfo)
| AttrAssertions (l : list Assertion)
| AttrSignature (sg : Signature)
| AttrMember (name : string).

Definition opt_str (o : option string) : bool :=
  match o with Some s => str_truthy s | None => false end.

(** [repr] of a list of plain identifiers, as [f"{allowed}"] prints it. *)
Definition repr_str_list (l : list string) : string :=
  "[" +:+ join ", " ((fun s => "'" +:+ s +:+ "'") <$> l) +:+ "]".

Section PolicyRules.

(** The behaviour of the Python runtime and of the model base class on
    arbitrary objects: which names besides the fields are attributes of a
    manifest, membership and ordering against rule parameters, string
    conversion, and the coercion of a value stored in a [str] field. *)
Variable class_attribute : string -> bool.
Variable attr_in : attr_value -> list pyval -> bool.
Variable attr_lt : attr_value -> pyval -> result bool.
Variable attr_gt : attr_value -> pyval -> result bool.
Variable attr_str : attr_value -> string.
Variable py_format : pyval -> string.
Variable coerce_str : pyval -> result string.

Definition opt_attr {A} (f : A -> attr_value) (o : option A) : attr_value :=
  match o with Some x => f x | None => AttrNone end.

Definition manifest_getattr (manifest : Manifest) (name : string) : attr_value :=
  if String.eqb name "claim_generator" then AttrStr (claim_generator manifest)
  else if String.eqb name "format" then AttrStr (format manifest)
  else if String.eqb name "instance_id" then AttrStr (instance_id manifest)
  else if String.eqb name "claim_generator_info" then
    opt_attr AttrInfoList (claim_generator_info manifest)
  else if String.eqb name "title" then opt_attr AttrStr (title manifest)
  else if String.eqb name "assertions" then AttrAssertions (assertions manifest)
  else if String.eqb name "signature" then opt_attr AttrSignature (signature manifest)
  else if String.eqb name "created_at" then AttrDatetime (created_at manifest)
  else if String.eqb name "updated_at" then opt_attr AttrDatetime (updated_at manifest)
  else if String.eqb name "organization" then opt_attr AttrStr (organization manifest)
  else if String.eqb name "tenant_id" then opt_attr AttrStr (tenant_id manifest)
  else if class_attribute name then AttrMember name
  else AttrNone.

Definition is_none (v : pyval) : bool :=
  match v with PNone => true | _ => false end.

Definition _check_required_assertion (manifest : Manifest) (rule : PolicyRule)
  : list PolicyViolation :=
  match assertion_label rule with
  | Some lbl =>
      if negb (str_truthy lbl) then []
      else
        match get_assertion manifest lbl with
        | None =>
            [{| violation_rule_name := rule_name rule;
                severity := rule_severity rule;
                message := "Required assertion '" +:+ lbl +:+ "' not found";
                location := Some ("assertions[" +:+ lbl +:+ "]");
                expected := Some lbl;
                actual := Some "missing" |}]
        | Some _ => []
        end
  | None => []
  end.

Definition _check_forbidden_assertion (manifest : Manifest) (rule : PolicyRule)
  : list PolicyViolation :=
  match assertion_label rule with
  | Some lbl =>
      if negb (str_truthy lbl) then []
      else
        match get_assertion manifest lbl with
        | Some _ =>
            [{| violation_rule_name := rule_name rule;
                severity := rule_severity rule;
                message := "Forbidden assertion '" +:+ lbl +:+ "' found";
                location := Some ("assertions[" +:+ lbl +:+ "]");
                expected := Some "not present";
                actual := Some "present" |}]
        | None => []
        end
  | None => []
  end.

Definition _check_required_field (manifest : Manifest) (rule : PolicyRule)
  : list PolicyViolation :=
  match field_path rule with
  | Some path =>
      if negb (str_truthy path) then []
      else
        match manifest_getattr manifest path with
        | AttrNone =>
            [{| violation_rule_name := rule_name rule;
                severity := rule_severity rule;
                message := "Required field '" +:+ path +:+ "' not found";
                location := Some path;
                expected := Some "value";
                actual := Some "null" |}]
        | _ => []
        end
  | None => []
  end.

Definition constraint_violation (rule : PolicyRule) (path msg exp : string)
    (value : attr_value) : PolicyViolation :=
  {| violation_rule_name := rule_name rule;
     severity := rule_severity rule;
     message := "Field '" +:+ path +:+ "' " +:+ msg;
     location := Some path;
     expected := Some exp;
     actual := Some (attr_str value) |}.

Definition _check_value_constraint (manifest : Manifest) (rule : PolicyRule)
  : result (list PolicyViolation) :=
  match field_path rule with
  | Some path =>
      if negb (str_truthy path) then Ok []
      else
        match manifest_getattr manifest path with
        | AttrNone => Ok []
        | value =>
            let violations := [] in
            let violations :=
              match allowed_values rule with
              | Some ((_ :: _) as allowed) =>
                  if negb (attr_in value allowed) then
                    violations ++
                      [constraint_violation rule path "has invalid value"
                         ("one of " +:+ py_format (PList allowed)) value]
                  else violations
              | _ => violations
              end in
            below ← (if is_none (min_value rule) then Ok false
                      else attr_lt value (min_value rule));
            let violations :=
              if below : bool then
                violations ++
                  [constraint_violation rule path "below minimum"
                     (">= " +:+ py_format (min_value rule)) value]
              else violations in
            above ← (if is_none (max_value rule) then Ok false
                      else attr_gt value (max_value rule));
            let violations :=
              if above : bool then
                violations ++
                  [constraint_violation rule path "above maximum"
                     ("<= " +:+ py_format (max_value rule)) value]
              else violations in
            Ok violations
        end
  | None => Ok []
  end.

Definition plain_violation (rule : PolicyRule) (sev : PolicyRuleSeverity) (msg : string)
    (loc : option string) : PolicyViolation :=
  {| violation_rule_name := rule_name rule;
     severity := sev;
     message := msg;
     location := loc;
     expected := None;
     actual := None |}.

Definition _check_classification_constraint (manifest : Manifest) (rule : PolicyRule)
  : result (list PolicyViolation) :=
  match get_assertion manifest "org.enterprise.workflow" with
  | Some {| data := DictData d |} =>
      let classification := default PNone (dict_get "classification" d) in
      if negb (py_truthy classification) then
        Ok [plain_violation rule (rule_severity rule) "No classification specified"
              (Some "workflow.classification")]
      else
        match classification_levels rule with
        | Some ((_ :: _) as levels) =>
            let allowed := ClassificationLevel_value <$> levels in
            if negb (existsb (py_eq_str classification) allowed) then
              actual_str ← coerce_str classification;
              Ok [{| violation_rule_name := rule_name rule;
                     severity := rule_severity rule;
                     message := "Invalid classification level";
                     location := Some "workflow.classification";
                     expected := Some ("one of " +:+ repr_str_list allowed);
                     actual := Some actual_str |}]
            else Ok []
        | _ => Ok []
        end
  | _ =>
      Ok [plain_violation rule (rule_severity rule)
            "No workflow assertion to check classification"
            (Some "assertions[org.enterprise.workflow]")]
  end.

Definition _check_custom_function (self : PolicyEngine) (manifest : Manifest)
    (rule : PolicyRule) : list PolicyViolation :=
  match custom_function rule with
  | Some fname =>
      if negb (str_truthy fname) then []
      else
        match custom_functions self !! fname with
        | None =>
            [plain_violation rule ERROR
               ("Custom function '" +:+ fname +:+ "' not found") None]
        | Some func =>
            match func manifest with
            | Ok outcome =>
                if negb (py_truthy outcome) then
                  [plain_violation rule (rule_severity rule)
                     ("Custom validation '" +:+ fname +:+ "' failed") None]
                else []
            | Raise e =>
                [plain_violation rule ERROR
                   ("Custom validation error: " +:+ exn_str e) None]
            end
        end
  | None => []
  end.

Definition _evaluate_rule (self : PolicyEngine) (manifest : Manifest) (rule : PolicyRule)
  : result (list PolicyViolation) :=
  match rule_type rule with
  | REQUIRED_ASSERTION => Ok (_check_required_assertion manifest rule)
  | FORBIDDEN_ASSERTION => Ok (_check_forbidden_assertion manifest rule)
  | REQUIRED_FIELD => Ok (_check_required_field manifest rule)
  | VALUE_CONSTRAINT => _check_value_constraint manifest rule
  | CLASSIFICATION_CONSTRAINT => _check_classification_constraint manifest rule
  | CUSTOM_FUNCTION => Ok (_check_custom_function self manifest rule)
  end.

(** The loop of [evaluate] over the rules of the policy. *)
Fixpoint rules_loop (self : PolicyEngine) (manifest : Manifest) (rs : list PolicyRule)
    (violations : list PolicyViolation) : result (list PolicyViolation) :=
  match rs with
  | [] => Ok violations
  | rule :: rest =>
      if negb (enabled rule) then rules_loop self manifest rest violations
      else
        rule_violations ← _evaluate_rule self manifest rule;
        rules_loop self manifest rest (violations ++ rule_violations)
  end.

(** [PolicyEngine.evaluate]; [now] is the value of [datetime.utcnow()]. *)
Definition evaluate (self : PolicyEngine) (now : datetime) (manifest : Manifest)
    (name : string) : result PolicyEvaluationResult :=
  match policies self !! name with
  | None => Raise (ValueError ("Policy not found: " +:+ name))
  | Some policy =>
      violations ← rules_loop self manifest (rules policy) [];
      let passed :=
        negb (existsb (fun v => bool_decide (severity v = ERROR)) violations) in
      Ok {| result_manifest_id := instance_id manifest;
            result_policy_name := name;
            passed := passed;
            violations := violations;
            evaluated_at := now |}
  end.

End PolicyRules.

(** * Notions used in the statements *)

(** ** Trust evaluator *)

(** The derivation of the trust level as the specification words it: the
    first of five cases that applies. *)
Definition trust_level_spec
    (error_present signature_valid certificate_trusted chain_complete : bool)
  : ValidationLevel :=
  if error_present || negb signature_valid then INVALID
  else if signature_valid && certificate_trusted && chain_complete then ENTERPRISE
  else if signature_valid && certificate_trusted then STANDARD
  else if signature_valid then BASIC
  else INVALID.

Definition is_error (i : ValidationIssue) : Prop := issue_severity i = "error".
Definition is_warning (i : ValidationIssue) : Prop := issue_severity i = "warning".

(** A report is well sorted when its issue list holds errors only and its
    warning list warnings only. *)
Definition well_sorted (r : report) : Prop :=
  Forall is_error (r_issues r) ∧ Forall is_warning (r_warnings r).




(** An action history whose payload cannot be measured: a dict whose
    [actions] value is true and has no length. *)
Definition unmeasurable_payload (a : Assertion) : Prop :=
  exists d v, data a = DictData d ∧ dict_get "actions" d = Some v ∧
              py_truthy v = true ∧ is_ok (py_len v) = false.


Definition found (o : option Assertion) : bool :=
  match o with Some _ => true | None => false end.

(** ** Signature engine and canonical form *)

(** The map [_prepare_manifest_for_signing] serializes. *)
Definition canonical_map (m : Manifest) : list (string * pyval) :=
  dict_pop "signature" (to_dict m).

(** What [sign] changes, whether it returns or raises: no other object of
    the store, and of the manifest no attribute but [signature]; when it
    returns, it returns the reference it was given and the signature
    carries the algorithm of the signer. *)
Definition same_but_signature (m m' : Manifest) : Prop :=
  claim_generator m' = claim_generator m ∧ format m' = format m ∧
  instance_id m' = instance_id m ∧
  claim_generator_info m' = claim_generator_info m ∧ title m' = title m ∧
  assertions m' = assertions m ∧ created_at m' = created_at m ∧
  updated_at m' = updated_at m ∧ organization m' = organization m ∧
  tenant_id m' = tenant_id m.

(** ** Example inputs *)

Definition toy_digest (b : bytes) : bytes := take 4 b.

Definition hash_assertion : Assertion :=
  {| label := "c2pa.hash.data";
     data := DictData [("exclusions", PList []); ("name", PStr "sha256");
                       ("alg", PStr "sha256"); ("hash", PStr "e3b0c44298fc1c14")];
     assertion_instance_id := Some "assertion:0001" |}.

Definition actions_assertion : Assertion :=
  {| label := "c2pa.actions";
     data := DictData [("actions", PList [PDict [("action", PStr "c2pa.created")]])];
     assertion_instance_id := Some "assertion:0002" |}.

Definition acme_manifest : Manifest :=
  {| claim_generator := "Acme/1.0";
     format := "image/jpeg";
     instance_id := "xmp:iid:acme-0001";
     claim_generator_info := None;
     title := None;
     assertions := [hash_assertion];
     signature := None;
     created_at := Datetime 1700000000000000;
     updated_at := None;
     organization := None;
     tenant_id := None |}.

Definition with_assertions (m : Manifest) (l : list Assertion) : Manifest :=
  {| claim_generator := claim_generator m;
     format := format m;
     instance_id := instance_id m;
     claim_generator_info := claim_generator_info m;
     title := title m;
     assertions := l;
     signature := signature m;
     created_at := created_at m;
     updated_at := updated_at m;
     organization := organization m;
     tenant_id := tenant_id m |}.

(** The same manifest with no assertion at all, and with an action history
    but no content hash. *)
Definition bare_manifest : Manifest := with_assertions acme_manifest [].
Definition unhashed_manifest : Manifest := with_assertions acme_manifest [actions_assertion].

Definition forged_signature (a : SignatureAlgorithm) : Signature :=
  {| alg := a;
     certificate_chain := [];
     timestamp := Datetime 1700000000000001;
     tsa := None;
     signature_value := Some (b_lit "forged") |}.

Definition with_algorithm (self : Signer) (a : SignatureAlgorithm) : Signer :=
  {| algorithm := a;
     tsa_url := tsa_url self;
     _private_key := _private_key self;
     _certificate_chain := _certificate_chain self |}.

(** A hybrid signature whose classical half is the six bytes [forged] and
    whose post-quantum half is the one the signer computes for [data]. *)
Definition forged_hybrid (sha3_256 : bytes -> bytes) (data : bytes) : bytes :=
  ["000"; "000"; "000"; "006"]%byte ++ b_lit "forged"
  ++ b_lit "ML-DSA-SIGNATURE:" ++ sha3_256 (data ++ b_lit "demo_key").

(** ** Canonical form and character classes *)

(** The same value with the members of every dict in key order. *)
Fixpoint canon (v : pyval) : pyval :=
  match v with
  | PList l => PList (map canon l)
  | PDict d => PDict (sort_items (map (fun kv => (kv.1, canon kv.2)) d))
  | _ => v
  end.

Definition key_le {A} (a b : string * A) : Prop := String.leb a.1 b.1 = true.

(** Keys in ascending order at every nesting level. *)
Inductive keys_sorted : pyval -> Prop :=
| keys_sorted_none : keys_sorted PNone
| keys_sorted_bool b : keys_sorted (PBool b)
| keys_sorted_int z : keys_sorted (PInt z)
| keys_sorted_str s : keys_sorted (PStr s)
| keys_sorted_bytes b : keys_sorted (PBytes b)
| keys_sorted_datetime t : keys_sorted (PDatetime t)
| keys_sorted_list l : Forall keys_sorted l -> keys_sorted (PList l)
| keys_sorted_dict d :
    Sorted key_le d -> Forall (fun kv => keys_sorted kv.2) d -> keys_sorted (PDict d).

Definition map_values {A B} (f : A -> B) (kv : string * A) : string * B := (kv.1, f kv.2).

Fixpoint all_chars (P : ascii -> bool) (s : string) : bool :=
  match s with
  | EmptyString => true
  | String c s' => P c && all_chars P s'
  end.

Definition printable (c : ascii) : bool :=
  ((32 <=? N_of_ascii c) && (N_of_ascii c <=? 126))%N.

Definition not_space (c : ascii) : bool := negb (N_of_ascii c =? 32)%N.

(** Every key and every string value of a value, at any depth. *)
Fixpoint strings_of (v : pyval) : list string :=
  match v with
  | PStr s => [s]
  | PList l => flat_map strings_of l
  | PDict d => flat_map (fun kv => kv.1 :: strings_of kv.2) d
  | _ => []
  end.

(** The characters the encoder writes of its own. *)
Definition syntax_chars : string := "[]{},:-0123456789nultrefas" +:+ dquote.

Definition is_empty_value (v : pyval) : bool :=
  match v with
  | PNone | PStr EmptyString | PBytes [] | PList [] | PDict [] => true
  | _ => false
  end.

(** The canonicalization as the specification states it, for one manifest:
    the bytes are the encoded text of the map, and the map has no empty
    field. *)
Definition canonicalization_as_stated (self : Signer) (m : Manifest) : Prop :=
  (exists txt, json_dumps_sorted (PDict (canonical_map m)) = Ok txt ∧
     _prepare_manifest_for_signing self m = Ok (encode_utf8 txt)) ∧
  (forall k v, (k, v) ∈ canonical_map m -> is_empty_value v = false).

(** ** More example inputs *)

Definition sample_value : pyval :=
  PDict [("b", PInt 1); ("a", PList [PNone; PBool true; PStr "x"])].

Definition sample_text : string :=
  "{" +:+ dquote +:+ "a" +:+ dquote +:+ ":[null,true," +:+ dquote +:+ "x" +:+ dquote
  +:+ "]," +:+ dquote +:+ "b" +:+ dquote +:+ ":1}".

Definition no_validator : ManifestValidator := {| trusted_certificates := [] |}.

(** Stand-ins for the validation of a [bool] field: only a boolean
    passes. *)
Definition strict_bool (v : pyval) : option bool :=
  match v with PBool b => Some b | _ => None end.
Definition refusal_text (d : list (string * pyval)) : string :=
  "value could not be parsed to a boolean".

Definition custom_rule (sev : PolicyRuleSeverity) (fname : string) : PolicyRule :=
  {| rule_name := "custom"; rule_description := "custom predicate";
     rule_type := CUSTOM_FUNCTION; rule_severity := sev; enabled := true;
     assertion_label := None; field_path := None; required_value := PNone;
     allowed_values := None; min_value := PNone; max_value := PNone;
     classification_levels := None; custom_function := Some fname |}.

(** Stand-ins for the runtime parameters of the policy engine. *)
Definition no_class_attribute (name : string) : bool := false.
Definition never_in (v : attr_value) (l : list pyval) : bool := false.
Definition no_order (v : attr_value) (bound : pyval) : result bool :=
  Raise (TypeError "'<' not supported").
Definition plain_attr_str (v : attr_value) : string :=
  match v with AttrStr s => s | _ => "object" end.
Definition plain_format (v : pyval) : string :=
  match v with PStr s => s | _ => type_name v end.
Definition plain_coerce (v : pyval) : result string :=
  match v with
  | PStr s => Ok s
  | _ => Raise (OtherException "ValidationError" "str type expected")
  end.

(** What the specification says of a custom rule whose function is not
    registered or raises: the rule yields a violation of error severity. *)
Definition custom_failure_is_error (self : PolicyEngine) (m : Manifest) (rule : PolicyRule)
  : Prop :=
  exists v, v ∈ _check_custom_function self m rule ∧ severity v = ERROR.

(** A policy of one rule. *)
Definition single_rule_policy (rule : PolicyRule) : OrganizationalPolicy :=
  {| policy_name := "single_rule";
     policy_description := "policy of one rule";
     policy_version := "1.0";
     rules := [rule];
     policy_department := None;
     policy_classification_level := None |}.


Definition maybe_manifest : Manifest :=
  with_assertions acme_manifest
    [hash_assertion;
     {| label := "org.enterprise.workflow";
        data := DictData [("compliance_check", PDict [("pdpa_approved", PStr "maybe")])];
        assertion_instance_id := Some "assertion:0004" |}].

(** * More of the code *)

(** ** The manifest model, continued ([src/core/models.py]) *)

(** The validator of [instance_id], run on the value a constructor call
    gives. *)
Definition validate_instance_id (v : string) : string :=
  if negb (startswith "xmp:iid:" v || startswith "uuid:" v) then "xmp:iid:" +:+ v
  else v.

(** [Manifest(claim_generator=.., format=.., instance_id=.., title=..,
    organization=.., tenant_id=..)]: [uuid] is the text of [uuid4()] and
    [now] the value of [datetime.utcnow()], used by the default
    factories. *)
Definition Manifest_new (uuid : string) (now : datetime) (cg fmt : string)
    (iid ttl org tid : option string) : Manifest :=
  {| claim_generator := cg;
     format := fmt;
     instance_id :=
       match iid with
       | Some v => validate_instance_id v
       | None => "xmp:iid:" +:+ uuid
       end;
     claim_generator_info := None;
     title := ttl;
     assertions := [];
     signature := None;
     created_at := now;
     updated_at := None;
     organization := org;
     tenant_id := tid |}.

(** [Assertion(label=.., data=..)], whose [instance_id] comes from the
    default factory. *)
Definition Assertion_new (uuid lbl : string) (d : AssertionData) : Assertion :=
  {| label := lbl; data := d; assertion_instance_id := Some ("assertion:" +:+ uuid) |}.

(** [Manifest.add_assertion], as the new state of the manifest. *)
Definition add_assertion (uuid : string) (m : Manifest) (lbl : string) (d : AssertionData)
  : Manifest :=
  with_assertions m (assertions m ++ [Assertion_new uuid lbl d]).

Definition with_updated_at (m : Manifest) (t : option datetime) : Manifest :=
  {| claim_generator := claim_generator m;
     format := format m;
     instance_id := instance_id m;
     claim_generator_info := claim_generator_info m;
     title := title m;
     assertions := assertions m;
     signature := signature m;
     created_at := created_at m;
     updated_at := t;
     organization := organization m;
     tenant_id := tenant_id m |}.

Inductive ActionType :=
| CREATED | EDITED | CROPPED | FILTERED | TRANSCODED
| ACTION_PUBLISHED | REVIEWED | ACTION_APPROVED.

Definition ActionType_value (a : ActionType) : string :=
  match a with
  | CREATED => "c2pa.created"
  | EDITED => "c2pa.edited"
  | CROPPED => "c2pa.cropped"
  | FILTERED => "c2pa.filtered"
  | TRANSCODED => "c2pa.transcoded"
  | ACTION_PUBLISHED => "c2pa.published"
  | REVIEWED => "c2pa.reviewed"
  | ACTION_APPROVED => "c2pa.approved"
  end.

Inductive HashAlgorithm := HASH_SHA256 | HASH_SHA384 | HASH_SHA512 | SHA3_256 | SHA3_512.

Definition HashAlgorithm_value (a : HashAlgorithm) : string :=
  match a with
  | HASH_SHA256 => "sha256"
  | HASH_SHA384 => "sha384"
  | HASH_SHA512 => "sha512"
  | SHA3_256 => "sha3-256"
  | SHA3_512 => "sha3-512"
  end.

(** ** Assertion builder ([src/core/assertion_builder.py])

    The builders make the payloads the validator and the policy engine
    read.  A member of a [str] enumeration kept in a payload is the string
    of its value.  The digital source type of an action is given by its
    URI. *)

Definition opt_value {A} (f : A -> pyval) (o : option A) : pyval :=
  match o with Some x => f x | None => PNone end.

(** [Action(..).dict()]: every field, [None] where nothing was given. *)
Definition Action_dict (action : ActionType) (when : datetime)
    (software_agent digital_source_type : option string)
    (parameters : option (list (string * pyval))) : pyval :=
  PDict [("action", PStr (ActionType_value action));
         ("when", PDatetime when);
         ("software_agent", opt_value PStr software_agent);
         ("digital_source_type", opt_value PStr digital_source_type);
         ("parameters", opt_value PDict parameters);
         ("changed", PNone);
         ("instance_id", PNone)].

Definition build_actions_assertion (uuid : string) (now : datetime) (action : ActionType)
    (software_agent digital_source_type : option string)
    (parameters : option (list (string * pyval))) : Assertion :=
  let action_record := Action_dict action now software_agent digital_source_type parameters in
  Assertion_new uuid "c2pa.actions" (DictData [("actions", PList [action_record])]).

Definition build_hash_assertion (uuid : string) (hash_algorithm : HashAlgorithm)
    (hash_value : option string) : Assertion :=
  Assertion_new uuid "c2pa.hash.data"
    (DictData ([("exclusions", PList []);
                ("name", PStr (HashAlgorithm_value hash_algorithm));
                ("alg", PStr (HashAlgorithm_value hash_algorithm))]
               ++ opt_field "hash" (PStr <$> hash_value))).

(** [WorkflowStep(..).dict(exclude_none=True)]. *)
Definition WorkflowStep_dict (role user_id : string) (user_name : option string)
    (when : datetime) (status : string) (comments : option string) : pyval :=
  PDict ([("role", PStr role); ("user_id", PStr user_id)]
         ++ opt_field "user_name" (PStr <$> user_name)
         ++ [("timestamp", PDatetime when); ("status", PStr status)]
         ++ opt_field "comments" (PStr <$> comments)).

(** [ComplianceCheck().dict(exclude_none=True)]. *)
Definition default_compliance_check : pyval :=
  PDict [("pdpa_approved", PBool false);
         ("trademark_cleared", PBool false);
         ("export_control_passed", PBool true);
         ("classification_verified", PBool true)].

Definition organizational_context (department project : option string)
  : list (string * pyval) :=
  if opt_str department || opt_str project then
    [("organizational_context",
      PDict ((if opt_str department then opt_field "department" (PStr <$> department) else [])
             ++ (if opt_str project then opt_field "project" (PStr <$> project) else [])))]
  else [].

Definition build_workflow_assertion (uuid : string) (now : datetime)
    (workflow_id creator_id creator_name : string) (classification : ClassificationLevel)
    (department project : option string) : Assertion :=
  let initial_step :=
    WorkflowStep_dict "creator" creator_id (Some creator_name) now "created" None in
  Assertion_new uuid "org.enterprise.workflow"
    (DictData ([("workflow_id", PStr workflow_id);
                ("approval_chain", PList [initial_step]);
                ("compliance_check", default_compliance_check);
                ("classification", PStr (ClassificationLevel_value classification))]
               ++ organizational_context department project)).

(** [d[k] = v]: the value of a key that is there is replaced in place, a
    new key comes last. *)
Fixpoint dict_set {A} (k : string) (v : A) (d : list (string * A)) : list (string * A) :=
  match d with
  | [] => [(k, v)]
  | (k', v') :: d' =>
      if String.eqb k k' then (k, v) :: d' else (k', v') :: dict_set k v d'
  end.

(** [x[k] = v] on an arbitrary object. *)
Definition py_setitem (x : pyval) (k : string) (v : pyval) : result pyval :=
  match x with
  | PDict d => Ok (PDict (dict_set k v d))
  | PList _ => Raise (TypeError "list indices must be integers or slices, not str")
  | _ => Raise (TypeError ("'" +:+ type_name x +:+ "' object does not support item assignment"))
  end.

Definition with_data (a : Assertion) (d : AssertionData) : Assertion :=
  {| label := label a; data := d; assertion_instance_id := assertion_instance_id a |}.

(** The two builders that change a workflow assertion in place, as the
    new state of the assertion; when they raise, the assertion is as it
    was. *)
Definition add_approval_to_workflow (now : datetime) (workflow_assertion : Assertion)
    (approver_id approver_name role status : string) (comments : option string)
  : result Assertion :=
  if negb (String.eqb (label workflow_assertion) "org.enterprise.workflow") then
    Raise (ValueError "Not a workflow assertion")
  else
    let approval_step :=
      WorkflowStep_dict role approver_id (Some approver_name) now status comments in
    match data workflow_assertion with
    | ListData _ => Raise (TypeError "list indices must be integers or slices, not str")
    | DictData d =>
        match dict_get "approval_chain" d with
        | None => Raise (OtherException "KeyError" "'approval_chain'")
        | Some (PList chain) =>
            Ok (with_data workflow_assertion
                  (DictData (dict_set "approval_chain" (PList (chain ++ [approval_step])) d)))
        | Some v =>
            Raise (AttributeError
                     ("'" +:+ type_name v +:+ "' object has no attribute 'append'"))
        end
    end.

Definition set_if_given (k : string) (v : option pyval) (x : pyval) : result pyval :=
  match v with
  | Some v => py_setitem x k v
  | None => Ok x
  end.

Definition update_compliance_check (workflow_assertion : Assertion)
    (pdpa_approved trademark_cleared : option bool) (legal_review : option string)
  : result Assertion :=
  if negb (String.eqb (label workflow_assertion) "org.enterprise.workflow") then
    Raise (ValueError "Not a workflow assertion")
  else
    match data workflow_assertion with
    | ListData _ => Raise (AttributeError "'list' object has no attribute 'get'")
    | DictData d =>
        let compliance := default (PDict []) (dict_get "compliance_check" d) in
        compliance ← set_if_given "pdpa_approved" (PBool <$> pdpa_approved) compliance;
        compliance ← set_if_given "trademark_cleared" (PBool <$> trademark_cleared) compliance;
        compliance ← set_if_given "legal_review" (PStr <$> legal_review) compliance;
        Ok (with_data workflow_assertion (DictData (dict_set "compliance_check" compliance d)))
    end.

(** ** Manifest creator ([src/core/manifest_creator.py])

    The methods that change a manifest after its creation, as the new
    state of the manifest.  The workflow assertion they change is the one
    [get_assertion] finds, an object that sits at one place of the list. *)

Fixpoint replace_first (lbl : string) (new : Assertion) (l : list Assertion)
  : list Assertion :=
  match l with
  | [] => []
  | a :: rest =>
      if String.eqb (label a) lbl then new :: rest else a :: replace_first lbl new rest
  end.

Definition ManifestCreator_add_assertion (now : datetime) (manifest : Manifest)
    (assertion : Assertion) : Manifest :=
  with_updated_at (with_assertions manifest (assertions manifest ++ [assertion])) (Some now).

(** [now_step] and [now_update] are the two readings of the clock. *)
Definition ManifestCreator_add_approval (now_step now_update : datetime) (manifest : Manifest)
    (approver_id approver_name role status : string) (comments : option string)
  : result Manifest :=
  match get_assertion manifest "org.enterprise.workflow" with
  | None => Raise (ValueError "No workflow assertion found in manifest")
  | Some workflow_assertion =>
      updated ← add_approval_to_workflow now_step workflow_assertion
                  approver_id approver_name role status comments;
      Ok (with_updated_at
            (with_assertions manifest
               (replace_first "org.enterprise.workflow" updated (assertions manifest)))
            (Some now_update))
  end.

Definition ManifestCreator_update_compliance (now : datetime) (manifest : Manifest)
    (pdpa_approved trademark_cleared : option bool) (legal_review : option string)
  : result Manifest :=
  match get_assertion manifest "org.enterprise.workflow" with
  | None => Raise (ValueError "No workflow assertion found in manifest")
  | Some workflow_assertion =>
      updated ← update_compliance_check workflow_assertion
                  pdpa_approved trademark_cleared legal_review;
      Ok (with_updated_at
            (with_assertions manifest
               (replace_first "org.enterprise.workflow" updated (assertions manifest)))
            (Some now))
  end.

(** [_compute_file_hash]: the file is read in chunks of 8192 bytes until a
    read returns nothing, each chunk going to [update]; [fuel] bounds the
    number of reads. *)
Section FileHash.

Variable hash_state : Type.
Variable hash_update : hash_state -> bytes -> hash_state.
Variable hash_hexdigest : hash_state -> string.

Fixpoint read_loop (fuel : nat) (chunk_size : nat) (rest : bytes) (h : hash_state)
  : option hash_state :=
  match fuel with
  | O => None
  | S fuel' =>
      let chunk := take chunk_size rest in
      match chunk with
      | [] => Some h
      | _ => read_loop fuel' chunk_size (drop chunk_size rest) (hash_update h chunk)
      end
  end.

Definition _compute_file_hash (hash_new : hash_state) (content : bytes) : option string :=
  hash_hexdigest <$> read_loop (S (length content)) 8192 content hash_new.

End FileHash.

(** ** Compliance engine ([src/enterprise/compliance.py]) *)

Inductive ComplianceStatus :=
| STATUS_PASSED | STATUS_FAILED | STATUS_WARNING | STATUS_PENDING.

#[global] Instance ComplianceStatus_eq_dec : EqDecision ComplianceStatus.
Proof. solve_decision. Defined.

Inductive ComplianceRule :=
| PDPA_CONSENT | TRADEMARK_CLEARANCE | LEGAL_REVIEW | EXPORT_CONTROL
| CLASSIFICATION_VALID | RETENTION_POLICY | PII_REDACTION | COPYRIGHT_VALID.

Record ComplianceCheckResult := {
  check_rule : ComplianceRule;
  check_status : ComplianceStatus;
  check_message : string;
  checked_at : datetime;
  checked_by : option string;
  check_details : option (list (string * pyval));
}.

Record CompliancePolicy := {
  compliance_policy_name : string;
  compliance_policy_description : string;
  compliance_rules : list ComplianceRule;
  compliance_classification_level : option ClassificationLevel;
  compliance_department : option string;
  required_for_approval : bool;
}.

Record ComplianceReport := {
  report_manifest_id : string;
  report_policy_name : string;
  overall_status : ComplianceStatus;
  results : list ComplianceCheckResult;
  generated_at : datetime;
  expires_at : option datetime;
}.

Record ComplianceEngine := {
  compliance_policies : gmap string CompliancePolicy;
  reports : gmap string ComplianceReport;
}.

Definition check_result (rule : ComplianceRule) (status : ComplianceStatus) (msg : string)
    (now : datetime) (by_user : option string) : ComplianceCheckResult :=
  {| check_rule := rule; check_status := status; check_message := msg;
     checked_at := now; checked_by := by_user; check_details := None |}.

(** [ComplianceEngine()]: the four default policies, no report. *)
Definition default_compliance_policy (name descr : string) (rules : list ComplianceRule)
    (level : option ClassificationLevel) : CompliancePolicy :=
  {| compliance_policy_name := name;
     compliance_policy_description := descr;
     compliance_rules := rules;
     compliance_classification_level := level;
     compliance_department := None;
     required_for_approval := true |}.

Definition ComplianceEngine_new : ComplianceEngine :=
  {| compliance_policies :=
       <["pdpa_compliance" :=
           default_compliance_policy "pdpa_compliance"
             "PDPA (Personal Data Protection Act) compliance"
             [PDPA_CONSENT; PII_REDACTION] None]>
         (<["confidential_content" :=
              default_compliance_policy "confidential_content"
                "Policy for confidential content"
                [CLASSIFICATION_VALID; EXPORT_CONTROL; PII_REDACTION; RETENTION_POLICY;
                 LEGAL_REVIEW] (Some CONFIDENTIAL)]>
            (<["internal_content" :=
                 default_compliance_policy "internal_content" "Policy for internal content"
                   [CLASSIFICATION_VALID; RETENTION_POLICY] (Some INTERNAL)]>
               (<["public_content" :=
                    default_compliance_policy "public_content"
                      "Policy for public-facing content"
                      [TRADEMARK_CLEARANCE; COPYRIGHT_VALID; LEGAL_REVIEW] (Some PUBLIC)]>
                  ∅)));
     reports := ∅ |}.

(** The compliance record of the workflow assertion, when the manifest
    has one with a dict payload. *)
Definition workflow_payload (manifest : Manifest) : option (list (string * pyval)) :=
  match get_assertion manifest "org.enterprise.workflow" with
  | Some {| data := DictData d |} => Some d
  | _ => None
  end.

Definition all_classification_values : list string :=
  ClassificationLevel_value <$> [PUBLIC; INTERNAL; CONFIDENTIAL; SECRET; TOP_SECRET].

Section ComplianceChecks.

(** [f"{x}"] for an object of a payload. *)
Variable py_format : pyval -> string.

Definition _check_pdpa_consent (manifest : Manifest) (now : datetime)
    (by_user : option string) : result ComplianceCheckResult :=
  let failed :=
    check_result PDPA_CONSENT STATUS_FAILED "PDPA consent not verified" now by_user in
  match workflow_payload manifest with
  | Some d =>
      let compliance := default (PDict []) (dict_get "compliance_check" d) in
      pdpa_approved ← py_get compliance "pdpa_approved" (PBool false);
      if py_truthy pdpa_approved then
        Ok (check_result PDPA_CONSENT STATUS_PASSED "PDPA consent verified" now by_user)
      else Ok failed
  | None => Ok failed
  end.

Definition _check_trademark (manifest : Manifest) (now : datetime)
    (by_user : option string) : result ComplianceCheckResult :=
  let failed :=
    check_result TRADEMARK_CLEARANCE STATUS_FAILED "Trademark clearance required" now by_user in
  match workflow_payload manifest with
  | Some d =>
      let compliance := default (PDict []) (dict_get "compliance_check" d) in
      trademark_cleared ← py_get compliance "trademark_cleared" (PBool false);
      if py_truthy trademark_cleared then
        Ok (check_result TRADEMARK_CLEARANCE STATUS_PASSED "Trademark clearance verified"
              now by_user)
      else Ok failed
  | None => Ok failed
  end.

Definition _check_legal_review (manifest : Manifest) (now : datetime)
    (by_user : option string) : result ComplianceCheckResult :=
  let pending :=
    check_result LEGAL_REVIEW STATUS_PENDING "Legal review pending" now by_user in
  match workflow_payload manifest with
  | Some d =>
      let compliance := default (PDict []) (dict_get "compliance_check" d) in
      legal_review ← py_get compliance "legal_review" PNone;
      if py_eq_str legal_review "passed" then
        Ok (check_result LEGAL_REVIEW STATUS_PASSED "Legal review passed" now by_user)
      else Ok pending
  | None => Ok pending
  end.

Definition _check_classification (manifest : Manifest) (now : datetime)
    (by_user : option string) : ComplianceCheckResult :=
  let unspecified :=
    check_result CLASSIFICATION_VALID STATUS_WARNING "Classification not specified"
      now by_user in
  match workflow_payload manifest with
  | Some d =>
      let classification := default PNone (dict_get "classification" d) in
      if existsb (py_eq_str classification) all_classification_values then
        check_result CLASSIFICATION_VALID STATUS_PASSED
          ("Classification '" +:+ py_format classification +:+ "' is valid") now by_user
      else unspecified
  | None => unspecified
  end.

Definition _check_rule (manifest : Manifest) (rule : ComplianceRule) (now : datetime)
    (by_user : option string) : result ComplianceCheckResult :=
  match rule with
  | PDPA_CONSENT => _check_pdpa_consent manifest now by_user
  | TRADEMARK_CLEARANCE => _check_trademark manifest now by_user
  | LEGAL_REVIEW => _check_legal_review manifest now by_user
  | EXPORT_CONTROL =>
      Ok (check_result EXPORT_CONTROL STATUS_PASSED "Export control check passed" now by_user)
  | CLASSIFICATION_VALID => Ok (_check_classification manifest now by_user)
  | RETENTION_POLICY =>
      Ok (check_result RETENTION_POLICY STATUS_PASSED "Retention policy compliant" now by_user)
  | PII_REDACTION =>
      Ok (check_result PII_REDACTION STATUS_PASSED "No PII detected or properly redacted"
            now by_user)
  | COPYRIGHT_VALID =>
      Ok (check_result COPYRIGHT_VALID STATUS_PASSED "Copyright information valid"
            now by_user)
  end.

(** How one result moves the overall status. *)
Definition update_overall (overall : ComplianceStatus) (r : ComplianceCheckResult)
  : ComplianceStatus :=
  if bool_decide (check_status r = STATUS_FAILED) then STATUS_FAILED
  else if bool_decide (check_status r = STATUS_WARNING)
          && bool_decide (overall = STATUS_PASSED) then STATUS_WARNING
  else overall.

(** The loop of [check_compliance]; [clock i] is the [i]-th reading of the
    clock during the call. *)
Fixpoint compliance_loop (manifest : Manifest) (clock : nat -> datetime) (i : nat)
    (by_user : option string) (rules : list ComplianceRule)
    (acc : list ComplianceCheckResult) (overall : ComplianceStatus)
  : result (list ComplianceCheckResult * ComplianceStatus) :=
  match rules with
  | [] => Ok (acc, overall)
  | rule :: rest =>
      r ← _check_rule manifest rule (clock i) by_user;
      compliance_loop manifest clock (S i) by_user rest (acc ++ [r]) (update_overall overall r)
  end.

(** [check_compliance]: the report, and the engine with the report stored
    under the identifier of the manifest. *)
Definition check_compliance (self : ComplianceEngine) (clock : nat -> datetime)
    (manifest : Manifest) (name : string) (by_user : option string)
  : result ComplianceReport * ComplianceEngine :=
  match compliance_policies self !! name with
  | None => (Raise (ValueError ("Policy not found: " +:+ name)), self)
  | Some policy =>
      match compliance_loop manifest clock 0 by_user (compliance_rules policy) []
              STATUS_PASSED with
      | Raise e => (Raise e, self)
      | Ok (results, overall) =>
          let report :=
            {| report_manifest_id := instance_id manifest;
               report_policy_name := name;
               overall_status := overall;
               results := results;
               generated_at := clock (length (compliance_rules policy));
               expires_at := None |} in
          (Ok report,
           {| compliance_policies := compliance_policies self;
              reports := <[instance_id manifest := report]> (reports self) |})
      end
  end.

Definition get_report (self : ComplianceEngine) (manifest_id : string)
  : option ComplianceReport :=
  reports self !! manifest_id.

End ComplianceChecks.

(** ** Workflow engine ([src/enterprise/workflow.py]) *)

Inductive WorkflowState :=
| DRAFT | SUBMITTED | IN_REVIEW | APPROVED | REJECTED | PUBLISHED | ARCHIVED.

#[global] Instance WorkflowState_eq_dec : EqDecision WorkflowState.
Proof. solve_decision. Defined.

Inductive WorkflowAction :=
| SUBMIT | REVIEW | APPROVE | REJECT | PUBLISH | ARCHIVE | RECALL.

#[global] Instance WorkflowAction_eq_dec : EqDecision WorkflowAction.
Proof. solve_decision. Defined.

Record WorkflowTransition := {
  from_state : WorkflowState;
  to_state : WorkflowState;
  transition_action : WorkflowAction;
  required_role : string;
}.

Record WorkflowHistory := {
  history_timestamp : datetime;
  history_user_id : string;
  history_user_name : string;
  history_from_state : WorkflowState;
  history_to_state : WorkflowState;
  history_action : WorkflowAction;
  history_comments : option string;
}.

Record WorkflowInstance := {
  workflow_id : string;
  workflow_manifest_id : string;
  current_state : WorkflowState;
  created_by : string;
  workflow_created_at : datetime;
  workflow_updated_at : datetime;
  history : list WorkflowHistory;
  metadata : list (string * pyval);
}.

Record WorkflowEngine := {
  workflows : gmap string WorkflowInstance;
  transitions : list WorkflowTransition;
}.

Definition initial_transitions : list WorkflowTransition :=
  [{| from_state := DRAFT; to_state := SUBMITTED;
      transition_action := SUBMIT; required_role := "creator" |};
   {| from_state := SUBMITTED; to_state := IN_REVIEW;
      transition_action := REVIEW; required_role := "reviewer" |};
   {| from_state := IN_REVIEW; to_state := APPROVED;
      transition_action := APPROVE; required_role := "approver" |};
   {| from_state := IN_REVIEW; to_state := REJECTED;
      transition_action := REJECT; required_role := "reviewer" |};
   {| from_state := APPROVED; to_state := PUBLISHED;
      transition_action := PUBLISH; required_role := "approver" |};
   {| from_state := PUBLISHED; to_state := ARCHIVED;
      transition_action := ARCHIVE; required_role := "manager" |};
   {| from_state := REJECTED; to_state := DRAFT;
      transition_action := RECALL; required_role := "creator" |}].

(** [WorkflowEngine()]. *)
Definition WorkflowEngine_new : WorkflowEngine :=
  {| workflows := ∅; transitions := initial_transitions |}.

(** [create_workflow]; the two readings of the clock are [now] and
    [now']. *)
Definition create_workflow (self : WorkflowEngine) (now now' : datetime) (manifest : Manifest)
    (creator_id creator_name : string) : WorkflowInstance * WorkflowEngine :=
  let workflow :=
    {| workflow_id := instance_id manifest;
       workflow_manifest_id := instance_id manifest;
       current_state := DRAFT;
       created_by := creator_id;
       workflow_created_at := now;
       workflow_updated_at := now';
       history := [];
       metadata := [] |} in
  (workflow,
   {| workflows := <[workflow_id workflow := workflow]> (workflows self);
      transitions := transitions self |}).

(** The first transition of the table from a state by an action. *)
Fixpoint find_transition (state : WorkflowState) (action : WorkflowAction)
    (table : list WorkflowTransition) : option WorkflowTransition :=
  match table with
  | [] => None
  | t :: rest =>
      if bool_decide (from_state t = state) && bool_decide (transition_action t = action)
      then Some t
      else find_transition state action rest
  end.

Section WorkflowTransitions.

(** The texts of the two error messages, which print members of the
    enumerations. *)
Variable invalid_transition_message : WorkflowAction -> WorkflowState -> string.
Variable role_message : string -> WorkflowAction -> string -> string.

(** [transition]: the updated instance and the engine that holds it; when
    the call raises the engine is as it was. *)
Definition transition (self : WorkflowEngine) (now now' : datetime) (wid : string)
    (action : WorkflowAction) (user_id user_name user_role : string)
    (comments : option string) : result WorkflowInstance * WorkflowEngine :=
  match workflows self !! wid with
  | None => (Raise (ValueError ("Workflow not found: " +:+ wid)), self)
  | Some workflow =>
      match find_transition (current_state workflow) action (transitions self) with
      | None =>
          (Raise (ValueError (invalid_transition_message action (current_state workflow))),
           self)
      | Some valid_transition =>
          if negb (String.eqb user_role (required_role valid_transition))
             && negb (String.eqb user_role "administrator") then
            (Raise (OtherException "PermissionError"
                      (role_message user_role action (required_role valid_transition))),
             self)
          else
            let history_entry :=
              {| history_timestamp := now;
                 history_user_id := user_id;
                 history_user_name := user_name;
                 history_from_state := current_state workflow;
                 history_to_state := to_state valid_transition;
                 history_action := action;
                 history_comments := comments |} in
            let workflow :=
              {| workflow_id := workflow_id workflow;
                 workflow_manifest_id := workflow_manifest_id workflow;
                 current_state := to_state valid_transition;
                 created_by := created_by workflow;
                 workflow_created_at := workflow_created_at workflow;
                 workflow_updated_at := now';
                 history := history workflow ++ [history_entry];
                 metadata := metadata workflow |} in
            (Ok workflow,
             {| workflows := <[wid := workflow]> (workflows self);
                transitions := transitions self |})
      end
  end.

End WorkflowTransitions.

Definition get_workflow (self : WorkflowEngine) (wid : string) : option WorkflowInstance :=
  workflows self !! wid.

Definition get_available_actions (self : WorkflowEngine) (wid user_role : string)
  : list WorkflowAction :=
  match workflows self !! wid with
  | None => []
  | Some workflow =>
      transition_action <$>
        filter (fun t =>
                  from_state t = current_state workflow ∧
                  (user_role = required_role t ∨ user_role = "administrator"))
          (transitions self)
  end.

(** ** Access control ([src/enterprise/access_control.py]) *)

Inductive Permission :=
| MANIFEST_CREATE | MANIFEST_READ | MANIFEST_UPDATE | MANIFEST_DELETE | MANIFEST_SIGN
| WORKFLOW_INITIATE | WORKFLOW_REVIEW | WORKFLOW_APPROVE | WORKFLOW_REJECT
| COMPLIANCE_CHECK | COMPLIANCE_OVERRIDE
| ADMIN_USER_MANAGE | ADMIN_ROLE_MANAGE | ADMIN_POLICY_MANAGE | ADMIN_SYSTEM_CONFIG.

Definition Permission_value (p : Permission) : string :=
  match p with
  | MANIFEST_CREATE => "manifest:create"
  | MANIFEST_READ => "manifest:read"
  | MANIFEST_UPDATE => "manifest:update"
  | MANIFEST_DELETE => "manifest:delete"
  | MANIFEST_SIGN => "manifest:sign"
  | WORKFLOW_INITIATE => "workflow:initiate"
  | WORKFLOW_REVIEW => "workflow:review"
  | WORKFLOW_APPROVE => "workflow:approve"
  | WORKFLOW_REJECT => "workflow:reject"
  | COMPLIANCE_CHECK => "compliance:check"
  | COMPLIANCE_OVERRIDE => "compliance:override"
  | ADMIN_USER_MANAGE => "admin:user:manage"
  | ADMIN_ROLE_MANAGE => "admin:role:manage"
  | ADMIN_POLICY_MANAGE => "admin:policy:manage"
  | ADMIN_SYSTEM_CONFIG => "admin:system:config"
  end.

#[global] Instance Permission_eq_dec : EqDecision Permission.
Proof. solve_decision. Defined.

Definition Permission_index (p : Permission) : nat :=
  match p with
  | MANIFEST_CREATE => 0 | MANIFEST_READ => 1 | MANIFEST_UPDATE => 2
  | MANIFEST_DELETE => 3 | MANIFEST_SIGN => 4
  | WORKFLOW_INITIATE => 5 | WORKFLOW_REVIEW => 6 | WORKFLOW_APPROVE => 7
  | WORKFLOW_REJECT => 8
  | COMPLIANCE_CHECK => 9 | COMPLIANCE_OVERRIDE => 10
  | ADMIN_USER_MANAGE => 11 | ADMIN_ROLE_MANAGE => 12 | ADMIN_POLICY_MANAGE => 13
  | ADMIN_SYSTEM_CONFIG => 14
  end.

Definition Permission_of_index (n : nat) : Permission :=
  match n with
  | 0 => MANIFEST_CREATE | 1 => MANIFEST_READ | 2 => MANIFEST_UPDATE
  | 3 => MANIFEST_DELETE | 4 => MANIFEST_SIGN
  | 5 => WORKFLOW_INITIATE | 6 => WORKFLOW_REVIEW | 7 => WORKFLOW_APPROVE
  | 8 => WORKFLOW_REJECT
  | 9 => COMPLIANCE_CHECK | 10 => COMPLIANCE_OVERRIDE
  | 11 => ADMIN_USER_MANAGE | 12 => ADMIN_ROLE_MANAGE | 13 => ADMIN_POLICY_MANAGE
  | _ => ADMIN_SYSTEM_CONFIG
  end.

#[global] Instance Permission_countable : Countable Permission.
Proof.
  refine (inj_countable' Permission_index Permission_of_index _). by intros [].
Defined.

(** Every member of the enumeration: [set(Permission)]. *)
Definition all_permissions : gset Permission :=
  {[ MANIFEST_CREATE; MANIFEST_READ; MANIFEST_UPDATE; MANIFEST_DELETE; MANIFEST_SIGN;
     WORKFLOW_INITIATE; WORKFLOW_REVIEW; WORKFLOW_APPROVE; WORKFLOW_REJECT;
     COMPLIANCE_CHECK; COMPLIANCE_OVERRIDE;
     ADMIN_USER_MANAGE; ADMIN_ROLE_MANAGE; ADMIN_POLICY_MANAGE; ADMIN_SYSTEM_CONFIG ]}.

Record Role := {
  role_name : string;
  role_description : option string;
  permissions : gset Permission;
  inherits_from : option (list string);
}.

Record User := {
  user_id : string;
  username : string;
  email : string;
  full_name : option string;
  user_roles : list string;
  user_department : option string;
  is_active : bool;
}.

Record AccessControl := {
  roles : gmap string Role;
  users : gmap string User;
}.

Definition default_role (name descr : string) (perms : gset Permission) : Role :=
  {| role_name := name; role_description := Some descr; permissions := perms;
     inherits_from := None |}.

(** [AccessControl()]: the six default roles, no user. *)
Definition AccessControl_new : AccessControl :=
  {| roles :=
       <["administrator" :=
           default_role "administrator" "System administrator with all permissions"
             all_permissions]>
         (<["manager" :=
              default_role "manager" "Department manager with full workflow permissions"
                {[ MANIFEST_CREATE; MANIFEST_READ; MANIFEST_UPDATE; MANIFEST_DELETE;
                   MANIFEST_SIGN; WORKFLOW_INITIATE; WORKFLOW_REVIEW; WORKFLOW_APPROVE;
                   WORKFLOW_REJECT; COMPLIANCE_CHECK; COMPLIANCE_OVERRIDE ]}]>
            (<["editor" :=
                 default_role "editor" "Content editor with full editing permissions"
                   {[ MANIFEST_CREATE; MANIFEST_READ; MANIFEST_UPDATE; WORKFLOW_INITIATE ]}]>
               (<["approver" :=
                    default_role "approver" "Content approver with approval permissions"
                      {[ MANIFEST_READ; MANIFEST_SIGN; WORKFLOW_APPROVE; WORKFLOW_REJECT;
                         COMPLIANCE_CHECK ]}]>
                  (<["reviewer" :=
                       default_role "reviewer" "Content reviewer with review permissions"
                         {[ MANIFEST_READ; WORKFLOW_REVIEW; COMPLIANCE_CHECK ]}]>
                     (<["creator" :=
                          default_role "creator"
                            "Content creator with basic manifest creation permissions"
                            {[ MANIFEST_CREATE; MANIFEST_READ; WORKFLOW_INITIATE ]}]>
                        ∅)))));
     users := ∅ |}.

Definition add_role (self : AccessControl) (role : Role) : AccessControl :=
  {| roles := <[role_name role := role]> (roles self); users := users self |}.

Definition add_user (self : AccessControl) (user : User) : AccessControl :=
  {| roles := roles self; users := <[user_id user := user]> (users self) |}.

(** The two loops of [get_user_permissions]: over the parents of a role,
    and over the roles of the user. *)
Definition add_parent_permissions (self : AccessControl) (perms : gset Permission)
    (parent_role_name : string) : gset Permission :=
  match roles self !! parent_role_name with
  | Some parent_role => perms ∪ permissions parent_role
  | None => perms
  end.

Definition add_role_permissions (self : AccessControl) (perms : gset Permission)
    (name : string) : gset Permission :=
  match roles self !! name with
  | Some role =>
      let perms := perms ∪ permissions role in
      match inherits_from role with
      | Some ((_ :: _) as parents) => foldl (add_parent_permissions self) perms parents
      | _ => perms
      end
  | None => perms
  end.

Definition get_user_permissions (self : AccessControl) (uid : string) : gset Permission :=
  match users self !! uid with
  | None => ∅
  | Some user =>
      if negb (is_active user) then ∅
      else foldl (add_role_permissions self) ∅ (user_roles user)
  end.

Definition check_permission (self : AccessControl) (uid : string) (permission : Permission)
  : bool :=
  bool_decide (permission ∈ get_user_permissions self uid).

Definition check_permissions (self : AccessControl) (uid : string)
    (perms : list Permission) : bool :=
  forallb (fun perm => bool_decide (perm ∈ get_user_permissions self uid)) perms.

Definition authorize (self : AccessControl) (uid : string) (permission : Permission)
  : result unit :=
  if negb (check_permission self uid permission) then
    Raise (OtherException "PermissionError"
             ("User " +:+ uid +:+ " does not have permission: "
              +:+ Permission_value permission))
  else Ok tt.

(** ** Notions used in the further statements *)

(** The trust levels in ascending order. *)
Definition level_rank (l : ValidationLevel) : nat :=
  match l with
  | INVALID => 0
  | BASIC => 1
  | STANDARD => 2
  | ENTERPRISE => 3
  | HIGH_ASSURANCE => 4
  end.

(** The warnings that tell of a missing action history. *)
Definition actions_warning (w : ValidationIssue) : Prop :=
  issue_code w = "NO_ASSERTIONS" ∨ issue_code w = "MISSING_ACTIONS_ASSERTION".

(** A step of an approval chain that reads as approved. *)
Definition step_approved (step : pyval) : Prop :=
  exists status, py_get step "status" PNone = Ok status ∧ py_eq_str status "approved" = true.

Definition compliance_keys : list string :=
  ["pdpa_compliant"; "trademark_cleared"; "legal_review_passed"; "workflow_approved";
   "department_authorized"].

(** The manifest carries a workflow assertion with a dict payload whose
    classification is one of the levels. *)
Definition classified (m : Manifest) (levels : list ClassificationLevel) : Prop :=
  exists d, workflow_payload m = Some d ∧
            existsb (py_eq_str (default PNone (dict_get "classification" d)))
              (ClassificationLevel_value <$> levels) = true.

(** What a violation owes to the rule it comes from. *)
Definition violation_of (rule : PolicyRule) (v : PolicyViolation) : Prop :=
  violation_rule_name v = rule_name rule ∧
  (severity v = rule_severity rule ∨ (rule_type rule = CUSTOM_FUNCTION ∧ severity v = ERROR)).

(** A rule that wants a field of the manifest set. *)
Definition required_field_rule (sev : PolicyRuleSeverity) (path : string) : PolicyRule :=
  {| rule_name := "required_field"; rule_description := "field must be set";
     rule_type := REQUIRED_FIELD; rule_severity := sev; enabled := true;
     assertion_label := None; field_path := Some path; required_value := PNone;
     allowed_values := None; min_value := PNone; max_value := PNone;
     classification_levels := None; custom_function := None |}.

(** The checks of a report that failed, and those that gave a warning. *)
Definition check_failed (r : ComplianceCheckResult) : Prop := check_status r = STATUS_FAILED.
Definition check_warned (r : ComplianceCheckResult) : Prop := check_status r = STATUS_WARNING.

(** The overall status a list of check results stands for. *)
Definition status_of (l : list ComplianceCheckResult) : ComplianceStatus :=
  if existsb (fun r => bool_decide (check_status r = STATUS_FAILED)) l then STATUS_FAILED
  else if existsb (fun r => bool_decide (check_status r = STATUS_WARNING)) l then STATUS_WARNING
  else STATUS_PASSED.

(** The history entry [transition] records. *)
Definition history_entry (now : datetime) (user_id user_name : string)
    (from to : WorkflowState) (action : WorkflowAction) (comments : option string)
  : WorkflowHistory :=
  {| history_timestamp := now;
     history_user_id := user_id;
     history_user_name := user_name;
     history_from_state := from;
     history_to_state := to;
     history_action := action;
     history_comments := comments |}.

(** A hash object that keeps what it was fed. *)
Definition keep_update (h chunk : bytes) : bytes := h ++ chunk.
Definition keep_hexdigest (h : bytes) : string := int_repr (Z.of_nat (length h)).

(** A permission a role gives to who holds it: one of its own, or one of
    a role it names as a parent. *)
Definition role_gives (self : AccessControl) (role : Role) (p : Permission) : Prop :=
  p ∈ permissions role ∨
  exists parents parent_name parent,
    inherits_from role = Some parents ∧ parent_name ∈ parents ∧
    roles self !! parent_name = Some parent ∧ p ∈ permissions parent.

Definition sample_user (roles : list string) (active : bool) : User :=
  {| user_id := "u-17"; username := "dana"; email := "dana@example.com";
     full_name := None; user_roles := roles; user_department := None;
     is_active := active |}.

(** The issues that tell of a missing signature or of one whose check
    raised. *)
Definition signature_issue (i : ValidationIssue) : Prop :=
  issue_code i = "NO_SIGNATURE" ∨ issue_code i = "SIGNATURE_VERIFICATION_ERROR".

(** * Properties *)

(** ** Trust evaluator *)

Lemma well_sorted_empty : well_sorted empty_report.
Proof. split; constructor. Qed.

Lemma well_sorted_issue code msg r :
  well_sorted r -> well_sorted (append_issue (error_issue code msg) r).
Proof.
  intros [Hi Hw]. split; simpl; [|done].
  apply Forall_app. split; [done|]. by repeat constructor.
Qed.

Lemma well_sorted_warning code msg r :
  well_sorted r -> well_sorted (append_warning (warning_issue code msg) r).
Proof.
  intros [Hi Hw]. split; simpl; [done|].
  apply Forall_app. split; [done|]. by repeat constructor.
Qed.

Lemma well_sorted_validation v r :
  well_sorted r -> well_sorted (append_validation v r).
Proof. by intros [Hi Hw]. Qed.

Create HintDb report.
#[local] Hint Resolve well_sorted_empty well_sorted_issue well_sorted_warning
  well_sorted_validation : report.

Lemma _validate_structure_sorted m r :
  well_sorted r -> well_sorted (_validate_structure m r).2.
Proof.
  intros H. unfold _validate_structure.
  repeat (case_match; simplify_eq/=); auto 10 with report.
Qed.

Lemma assertions_loop_sorted l : forall ha hh r ha' hh' r',
  assertions_loop l ha hh r = Ok (ha', hh', r') -> well_sorted r -> well_sorted r'.
Proof.
  induction l as [|a l IH]; intros ha hh r ha' hh' r' Hloop Hr; simpl in Hloop.
  - by simplify_eq.
  - destruct (String.eqb (label a) "c2pa.actions").
    + destruct (_validate_actions_assertion a) as [v|e]; simplify_eq/=.
      eapply IH; eauto with report.
    + destruct (String.eqb (label a) "c2pa.hash.data");
        eapply IH; eauto with report.
Qed.

Lemma _validate_assertions_sorted m r b r' :
  _validate_assertions m r = Ok (b, r') -> well_sorted r -> well_sorted r'.
Proof.
  unfold _validate_assertions. intros H Hr.
  destruct (assertions m) as [|a l] eqn:Ha.
  - simplify_eq. auto with report.
  - destruct (assertions_loop (a :: l) false false r) as [[[ha hh] r1]|e] eqn:Hloop;
      [|discriminate].
    apply assertions_loop_sorted in Hloop; [|done].
    cbn in H. destruct ha, hh; simplify_eq/=; auto with report.
Qed.

Lemma _validate_signature_sorted sha3_256 sha3_512 self m r :
  well_sorted r -> well_sorted (_validate_signature sha3_256 sha3_512 self m r).2.
Proof.
  intros H. unfold _validate_signature.
  repeat (case_match; simplify_eq/=); auto with report.
Qed.

Lemma _validate_certificate_trust_sorted self m r :
  well_sorted r -> well_sorted (_validate_certificate_trust self m r).2.
Proof.
  intros H. unfold _validate_certificate_trust.
  repeat (case_match; simplify_eq/=); auto with report.
Qed.

Lemma _validate_chain_of_custody_report m r :
  (_validate_chain_of_custody m r).2 = r.
Proof. unfold _validate_chain_of_custody. by case_match. Qed.

Lemma _determine_trust_level_spec sv ct cc n :
  _determine_trust_level sv ct cc n = trust_level_spec (0 <? n) sv ct cc.
Proof.
  unfold _determine_trust_level, trust_level_spec.
  destruct sv, ct, cc, (0 <? n); reflexivity.
Qed.

(** The stages of [validate] and what they hand to the derivation of the
    trust level. *)
Lemma validate_stages sha3_256 sha3_512 coerce_bool validation_error self now m strict res :
  validate sha3_256 sha3_512 coerce_bool validation_error self now m strict = Ok res ->
  exists structure_valid assertions_valid r0 r1 r2,
    _validate_structure m empty_report = (structure_valid, r0) ∧
    _validate_assertions m r0 = Ok (assertions_valid, r1) ∧
    match signature m with
    | Some _ =>
        let s := _validate_signature sha3_256 sha3_512 self m r1 in
        let c := _validate_certificate_trust self m s.2 in
        (s.1, c.1, c.2)
    | None =>
        (false, false, append_issue (error_issue "NO_SIGNATURE" "Manifest is not signed") r1)
    end = (signature_valid res, certificate_trusted res, r2) ∧
    chain_complete res = (_validate_chain_of_custody m r2).1 ∧
    issues res = r_issues r2 ∧
    warnings res = r_warnings r2 ∧
    trust_level res =
      _determine_trust_level (signature_valid res) (certificate_trusted res)
        (chain_complete res) (length (issues res)) ∧
    valid res =
      (let v := structure_valid && assertions_valid && signature_valid res in
       if strict then v && certificate_trusted res && chain_complete res else v).
Proof.
  unfold validate. intros H.
  destruct (_validate_structure m empty_report) as [structure_valid r0] eqn:H0.
  destruct (_validate_assertions m r0) as [[assertions_valid r1]|e] eqn:H1;
    [|discriminate].
  cbn [mbind result_bind] in H.
  exists structure_valid, assertions_valid, r0, r1.
  destruct (signature m) as [sg|].
  - destruct (_validate_signature sha3_256 sha3_512 self m r1) as [sv r2] eqn:H2.
    destruct (_validate_certificate_trust self m r2) as [ct r3] eqn:H3.
    pose proof (_validate_chain_of_custody_report m r3) as H4.
    destruct (_validate_chain_of_custody m r3) as [cc r4] eqn:H5. simpl in H4. subst r4.
    destruct (_check_organizational_compliance m) as [record|]; [|discriminate].
    cbn [mbind result_bind] in H.
    destruct (validate_compliance _ _ record); [|discriminate].
    simplify_eq/=. exists r3. rewrite H3, H5. by repeat split.
  - pose proof (_validate_chain_of_custody_report m
      (append_issue (error_issue "NO_SIGNATURE" "Manifest is not signed") r1)) as H4.
    destruct (_validate_chain_of_custody m _) as [cc r4] eqn:H5. simpl in H4. subst r4.
    destruct (_check_organizational_compliance m) as [record|]; [|discriminate].
    cbn [mbind result_bind] in H.
    destruct (validate_compliance _ _ record); [|discriminate].
    simplify_eq/=. eexists. rewrite H5. by repeat split.
Qed.

Lemma validate_report_sorted sha3_256 sha3_512 coerce_bool validation_error self now m strict res :
  validate sha3_256 sha3_512 coerce_bool validation_error self now m strict = Ok res ->
  Forall is_error (issues res) ∧ Forall is_warning (warnings res).
Proof.
  intros H. apply validate_stages in H
    as (sv & av & r0 & r1 & r2 & H0 & H1 & H2 & _ & Hi & Hw & _).
  rewrite Hi, Hw. change (well_sorted r2).
  assert (well_sorted r0) as S0.
  { pose proof (_validate_structure_sorted m empty_report well_sorted_empty) as S.
    by rewrite H0 in S. }
  assert (well_sorted r1) as S1 by eauto using _validate_assertions_sorted.
  destruct (signature m); simplify_eq/=.
  - by apply _validate_certificate_trust_sorted, _validate_signature_sorted.
  - auto with report.
Qed.

(** C3. The trust level [_determine_trust_level] derives is the one of
    the order of precedence: INVALID when an error issue is present or the
    signature is not valid; else ENTERPRISE when the signature is valid,
    the certificate trusted and the chain of custody complete; else
    STANDARD when the signature is valid and the certificate trusted; else
    BASIC when the signature is valid; INVALID otherwise.  In a run of
    [validate] the issue count it receives is the number of recorded
    issues, all of which have error severity. *)
Theorem trust_level_precedence :
  (forall sv ct cc n,
     _determine_trust_level sv ct cc n = trust_level_spec (0 <? n) sv ct cc) ∧
  (forall sha3_256 sha3_512 coerce_bool validation_error self now m strict res,
     validate sha3_256 sha3_512 coerce_bool validation_error self now m strict = Ok res ->
     Forall is_error (issues res) ∧
     trust_level res =
       trust_level_spec (negb (bool_decide (issues res = [])))
         (signature_valid res) (certificate_trusted res) (chain_complete res)).
Proof.
  split; [apply _determine_trust_level_spec|].
  intros sha3_256 sha3_512 coerce_bool validation_error self now m strict res H.
  split; [by eapply validate_report_sorted|].
  apply validate_stages in H as (sv & av & r0 & r1 & r2 & _ & _ & _ & _ & _ & _ & Ht & _).
  rewrite Ht, _determine_trust_level_spec. f_equal.
  by destruct (issues res).
Qed.

(** ** Policy evaluator *)

Section PolicyProperties.

Variable class_attribute : string -> bool.
Variable attr_in : attr_value -> list pyval -> bool.
Variable attr_lt : attr_value -> pyval -> result bool.
Variable attr_gt : attr_value -> pyval -> result bool.
Variable attr_str : attr_value -> string.
Variable py_format : pyval -> string.
Variable coerce_str : pyval -> result string.

#[local] Abbreviation eval_rule :=
  (_evaluate_rule class_attribute attr_in attr_lt attr_gt attr_str py_format coerce_str).
#[local] Abbreviation loop :=
  (rules_loop class_attribute attr_in attr_lt attr_gt attr_str py_format coerce_str).
#[local] Abbreviation eval :=
  (evaluate class_attribute attr_in attr_lt attr_gt attr_str py_format coerce_str).

(** The violations of a run are those of the enabled rules, in the order
    of the rules. *)
Lemma rules_loop_accumulates self manifest rs : forall acc vs,
  loop self manifest rs acc = Ok vs ->
  exists vss,
    Forall2 (fun rule vs' => eval_rule self manifest rule = Ok vs')
      (filter (fun rule => enabled rule) rs) vss ∧
    vs = acc ++ concat vss.
Proof.
  induction rs as [|rule rs IH]; intros acc vs H; simpl in H.
  - exists []. simplify_eq. split; [constructor|]. by rewrite app_nil_r.
  - destruct (enabled rule) eqn:He; simpl in H.
    + destruct (_evaluate_rule _ _ _ _ _ _ _ self manifest rule) as [vs'|e] eqn:Hr;
        [|discriminate].
      apply IH in H as (vss & HF & ->).
      exists (vs' :: vss). rewrite filter_cons_True by (by rewrite He).
      split; [by constructor|]. simpl. by rewrite app_assoc.
    + apply IH in H as (vss & HF & ->).
      exists vss. rewrite filter_cons_False by (rewrite He; auto). done.
Qed.

Lemma passed_iff_no_error (vs : list PolicyViolation) :
  negb (existsb (fun v => bool_decide (severity v = ERROR)) vs) = true <->
  forall v, v ∈ vs -> severity v ≠ ERROR.
Proof.
  rewrite negb_true_iff, <- not_true_iff_false, existsb_exists. split.
  - intros H v Hv He. apply H. exists v. split; [by apply list_elem_of_In|].
    by apply bool_decide_eq_true.
  - intros H (v & Hv & He). apply bool_decide_eq_true in He.
    by apply (H v); [apply list_elem_of_In|].
Qed.

(** [evaluate] returns exactly when the policy is registered and every
    enabled rule evaluates. *)
Lemma rules_loop_returns self manifest rs : forall acc,
  is_ok (loop self manifest rs acc) = true <->
  Forall (fun rule => enabled rule = true ->
                      is_ok (eval_rule self manifest rule) = true) rs.
Proof.
  induction rs as [|rule rs IH]; intros acc; simpl.
  - split; [constructor|done].
  - destruct (enabled rule) eqn:He; simpl.
    + destruct (_evaluate_rule _ _ _ _ _ _ _ self manifest rule) as [vs|e] eqn:Hr; cbn.
      * rewrite IH. split; [|by inversion 1].
        intros Hl. constructor; [|done]. intros _. by rewrite Hr.
      * split; [done|]. inversion 1 as [|? ? Ha]. rewrite Hr in Ha. by apply Ha.
    + rewrite IH. split; [|by inversion 1].
      intros Hl. constructor; [intros Hc; congruence|done].
Qed.

Lemma evaluate_returns_iff self now manifest name :
  is_ok (eval self now manifest name) = true <->
  exists policy,
    policies self !! name = Some policy ∧
    Forall (fun rule => enabled rule = true ->
                        is_ok (eval_rule self manifest rule) = true) (rules policy).
Proof.
  unfold evaluate. destruct (policies self !! name) as [policy|]; simpl.
  - pose proof (rules_loop_returns self manifest (rules policy) []) as Hloop.
    destruct (rules_loop _ _ _ _ _ _ _ self manifest (rules policy) []); cbn in *.
    + split; [|done]. intros _. exists policy. split; [done|]. by apply Hloop.
    + split; [done|]. intros (policy' & Heq & Hall). simplify_eq. by apply Hloop.
  - split; [done|]. by intros (? & ? & ?).
Qed.


(** C9, as the code has it.  A custom-predicate rule that names, by a
    name that is not empty, a function which is not registered, or whose
    registered function raises on the manifest, yields exactly one
    violation; it carries the name of the rule, its severity is ERROR
    whatever severity the rule declares, and the rule evaluates to that
    list without raising. *)
Theorem custom_function_failure_is_error self manifest rule fname :
  custom_function rule = Some fname ->
  fname ≠ EmptyString ->
  (custom_functions self !! fname = None ∨
   exists func e, custom_functions self !! fname = Some func ∧ func manifest = Raise e) ->
  exists v,
    _check_custom_function self manifest rule = [v] ∧
    severity v = ERROR ∧
    violation_rule_name v = rule_name rule ∧
    (rule_type rule = CUSTOM_FUNCTION ->
     _evaluate_rule class_attribute attr_in attr_lt attr_gt attr_str py_format coerce_str
       self manifest rule = Ok [v]).
Proof.
  intros Hf Hne Hcase.
  assert (str_truthy fname = true) as Ht.
  { unfold str_truthy. apply negb_true_iff, String.eqb_neq. done. }
  unfold _evaluate_rule, _check_custom_function. rewrite Hf, Ht. simpl.
  destruct Hcase as [Hnone | (func & e & Hsome & Hraise)].
  - rewrite Hnone. eexists. repeat split; [done..|]. by intros ->.
  - rewrite Hsome, Hraise. eexists. repeat split; [done..|]. by intros ->.
Qed.

End PolicyProperties.

(** ** Assertion stage *)

Lemma assertions_loop_flags l : forall ha hh r ha' hh' r',
  assertions_loop l ha hh r = Ok (ha', hh', r') ->
  ha' = ha || found (find_assertion "c2pa.actions" l) ∧
  hh' = hh || found (find_assertion "c2pa.hash.data" l) ∧
  r_issues r' = r_issues r ∧ r_warnings r' = r_warnings r.
Proof.
  induction l as [|a l IH]; intros ha hh r ha' hh' r' H; simpl in H.
  - simplify_eq. by rewrite !orb_false_r.
  - simpl. destruct (String.eqb (label a) "c2pa.actions") eqn:Ea.
    + destruct (_validate_actions_assertion a) as [v|e]; [|discriminate].
      apply IH in H as (-> & -> & -> & ->).
      apply String.eqb_eq in Ea. rewrite Ea. simpl.
      rewrite orb_true_r. by destruct (find_assertion "c2pa.hash.data" l).
    + destruct (String.eqb (label a) "c2pa.hash.data") eqn:Eh;
        apply IH in H as (-> & -> & -> & ->); simpl;
        [rewrite orb_true_r|]; done.
Qed.




Lemma _validate_certificate_trust_issues self m r :
  r_issues (_validate_certificate_trust self m r).2 = r_issues r.
Proof.
  unfold _validate_certificate_trust. by repeat (case_match; simplify_eq/=).
Qed.


(** When the check of an action history raises. *)
Lemma _validate_actions_assertion_raises a :
  (is_ok (_validate_actions_assertion a) = false <-> unmeasurable_payload a) ∧
  (forall e, _validate_actions_assertion a = Raise e -> exists msg, e = TypeError msg).
Proof.
  unfold _validate_actions_assertion, unmeasurable_payload.
  destruct (data a) as [d|l]; simpl.
  2:{ split; [|done]. split; [done|]. by intros (d & v & Hd & _). }
  destruct (dict_get "actions" d) as [v|] eqn:Hv; simpl.
  2:{ split; [|done]. split; [done|]. intros (d' & v & Hd & Hv' & _). congruence. }
  split.
  - split.
    + intros H. exists d, v. split; [done|]. split; [done|].
      destruct (py_truthy v); [|done]. simpl in H. by destruct (py_len v).
    + intros (d' & v' & Hd & Hv' & Ht & Hl).
      injection Hd as <-. rewrite Hv in Hv'. injection Hv' as <-.
      rewrite Ht. simpl. by destruct (py_len v).
  - intros e. destruct (py_truthy v); simpl; [|done].
    destruct v; simpl; intros [= <-]; by eexists.
Qed.






(** ** Canonical serialization *)

(** Induction over values, through the lists and dicts they nest. *)
Lemma pyval_nested_ind (P : pyval -> Prop) :
  P PNone ->
  (forall b, P (PBool b)) ->
  (forall z, P (PInt z)) ->
  (forall s, P (PStr s)) ->
  (forall b, P (PBytes b)) ->
  (forall t, P (PDatetime t)) ->
  (forall l, Forall P l -> P (PList l)) ->
  (forall d, Forall (fun kv => P kv.2) d -> P (PDict d)) ->
  forall v, P v.
Proof.
  intros HN HB HI HS HY HT HL HD.
  fix IH 1. intros [|b|z|s|b|t|l|d];
    [exact HN|apply HB|apply HI|apply HS|apply HY|apply HT| |].
  - apply HL. induction l as [|x l IHl]; constructor; [apply IH|apply IHl].
  - apply HD. induction d as [|[k x] d IHd]; constructor; [apply IH|apply IHd].
Qed.

Lemma sequence_raise {A} (l : list (result A)) e :
  sequence l = Raise e -> Raise e ∈ l.
Proof.
  induction l as [|[x|e'] l IH]; simpl; intros H; [done| |].
  - destruct (sequence l) as [xs|e'']; simplify_eq/=.
    apply elem_of_cons. right. by apply IH.
  - simplify_eq/=. apply elem_of_cons. by left.
Qed.

Lemma sequence_ok {A} (l : list (result A)) xs :
  sequence l = Ok xs -> l = Ok <$> xs.
Proof.
  revert xs. induction l as [|[x|e'] l IH]; simpl; intros xs H; simplify_eq/=; [done|].
  destruct (sequence l) as [ys|e'']; simplify_eq/=. f_equal. by apply IH.
Qed.

Lemma sequence_has_raise {A} (l : list (result A)) e :
  Raise e ∈ l -> exists e', sequence l = Raise e'.
Proof.
  intros H. destruct (sequence l) as [xs|e'] eqn:Hs; [|by eexists].
  apply sequence_ok in Hs. subst l.
  apply list_elem_of_fmap in H as (x & Hx & _). discriminate.
Qed.

Lemma insert_item_elem_of {A} (kv x : string * A) l :
  x ∈ insert_item kv l <-> x = kv ∨ x ∈ l.
Proof.
  induction l as [|y l IH]; simpl.
  - rewrite list_elem_of_singleton, elem_of_nil. tauto.
  - destruct (String.leb kv.1 y.1).
    + by rewrite elem_of_cons.
    + rewrite !elem_of_cons, IH. tauto.
Qed.

Lemma sort_items_elem_of {A} (x : string * A) l :
  x ∈ sort_items l <-> x ∈ l.
Proof.
  induction l as [|y l IH]; simpl; [done|].
  rewrite insert_item_elem_of, elem_of_cons, IH. tauto.
Qed.

(** The encoder raises nothing but [TypeError]. *)
Lemma json_encode_raise sort_keys v e :
  json_encode sort_keys v = Raise e -> exists msg, e = TypeError msg.
Proof.
  revert e. induction v as [|b|z|s|b|t|l IH|d IH] using pyval_nested_ind;
    intros e H; simpl in H; try discriminate.
  - unfold not_serializable in H. simplify_eq. by eexists.
  - unfold not_serializable in H. simplify_eq. by eexists.
  - unfold encode_list_chunks in H.
    destruct (sequence (map (json_encode sort_keys) l)) as [xs|e'] eqn:Hs;
      [discriminate|].
    cbn in H. injection H as Heq. subst e'.
    apply sequence_raise, list_elem_of_fmap in Hs as (x & Hx & Hin).
    rewrite Forall_forall in IH. eapply IH; eauto.
  - unfold encode_dict_chunks in H.
    destruct (sequence _) as [xs|e'] eqn:Hs in H; [discriminate|].
    cbn in H. injection H as Heq. subst e'.
    apply sequence_raise, list_elem_of_fmap in Hs as ([k r] & Hx & Hin).
    unfold encode_member in Hx. simpl in Hx. destruct r as [txt|e']; [discriminate|].
    cbn in Hx. injection Hx as Heq. subst e'.
    assert ((k, Raise e) ∈ map (fun kv : string * pyval => (kv.1, json_encode sort_keys kv.2)) d)
      as Hin'.
    { destruct sort_keys; [by apply sort_items_elem_of|done]. }
    apply list_elem_of_fmap in Hin' as ([k' x] & Hx & Hin'). simplify_eq/=.
    rewrite Forall_forall in IH. eapply (IH (k', x)); eauto.
Qed.

(** A dict with a member that cannot be serialized cannot be serialized. *)
Lemma json_encode_dict_raise sort_keys d k x e :
  (k, x) ∈ d -> json_encode sort_keys x = Raise e ->
  exists msg, json_encode sort_keys (PDict d) = Raise (TypeError msg).
Proof.
  intros Hin Hx.
  destruct (json_encode sort_keys (PDict d)) as [txt|e'] eqn:Hd.
  - exfalso. simpl in Hd. unfold encode_dict_chunks in Hd.
    destruct (sequence _) as [xs|e''] eqn:Hs in Hd; simplify_eq/=.
    assert (Raise e ∈ map encode_member
              (if sort_keys
               then sort_items (map (fun kv : string * pyval => (kv.1, json_encode sort_keys kv.2)) d)
               else map (fun kv : string * pyval => (kv.1, json_encode sort_keys kv.2)) d)) as Hr.
    { apply list_elem_of_fmap. exists (k, Raise e). split; [done|].
      assert ((k, Raise e) ∈ map (fun kv : string * pyval => (kv.1, json_encode sort_keys kv.2)) d).
      { apply list_elem_of_fmap. exists (k, x). by rewrite <- Hx. }
      destruct sort_keys; [by apply sort_items_elem_of|done]. }
    apply sequence_has_raise in Hr as (e' & Hr). congruence.
  - apply json_encode_raise in Hd as (msg & ->). by eexists.
Qed.

(** ** Length prefix of a hybrid signature *)

Lemma byte_of_N_to_N n : Byte.to_N (byte_of_N n) = (n mod 256)%N.
Proof.
  unfold byte_of_N.
  destruct (Byte.of_N (n mod 256)) as [b|] eqn:Hb; simpl.
  - by apply Byte.to_of_N.
  - apply Byte.of_N_None_iff in Hb.
    pose proof (N.mod_upper_bound n 256). lia.
Qed.

Lemma int_from_to_bytes4 n prefix :
  int_to_bytes4_big n = Ok prefix ->
  length prefix = 4 ∧ int_from_bytes_big prefix = n.
Proof.
  unfold int_to_bytes4_big. destruct (n <? 2 ^ 32)%N eqn:Hn; [|discriminate].
  intros H. injection H as <-. split; [done|].
  apply N.ltb_lt in Hn. unfold int_from_bytes_big. simpl.
  rewrite !byte_of_N_to_N.
  change (2 ^ 32)%N with 4294967296%N in Hn.
  change (2 ^ 24)%N with (256 * 256 * 256)%N. change (2 ^ 16)%N with (256 * 256)%N.
  change (2 ^ 8)%N with 256%N.
  rewrite <- !N.Div0.div_div.
  pose proof (N.div_mod n 256). pose proof (N.div_mod (n / 256) 256).
  pose proof (N.div_mod (n / 256 / 256) 256).
  pose proof (N.mod_upper_bound n 256).
  pose proof (N.mod_upper_bound (n / 256) 256).
  pose proof (N.mod_upper_bound (n / 256 / 256) 256).
  assert (n / 256 / 256 / 256 < 256)%N.
  { rewrite !N.Div0.div_div. apply N.Div0.div_lt_upper_bound. simpl. lia. }
  rewrite (N.mod_small (n / 256 / 256 / 256) 256) by done.
  lia.
Qed.

(** ** Signature engine *)

Lemma created_at_in_canonical_map m :
  ("created_at", PDatetime (created_at m)) ∈ canonical_map m.
Proof.
  unfold canonical_map, dict_pop, to_dict.
  apply list_elem_of_filter. split; [done|].
  rewrite !elem_of_app, !elem_of_cons. tauto.
Qed.

Section SignerProperties.

Variable sha3_256 : bytes -> bytes.
Variable sha3_512 : bytes -> bytes.
Variable rsa_pss_sign : bytes -> rsa_hash -> bytes -> result bytes.

#[local] Abbreviation sign' := (sign sha3_256 sha3_512 rsa_pss_sign).
#[local] Abbreviation verify' := (verify sha3_256 sha3_512).

(** [to_dict] keeps [created_at] as a [datetime], which the encoder
    rejects: the canonical bytes of a manifest are never produced. *)
Lemma _prepare_manifest_for_signing_raises self m :
  exists msg, _prepare_manifest_for_signing self m = Raise (TypeError msg).
Proof.
  unfold _prepare_manifest_for_signing, json_dumps_sorted.
  destruct (json_encode_dict_raise true (canonical_map m) "created_at"
              (PDatetime (created_at m)) _ (created_at_in_canonical_map m) eq_refl)
    as (msg & Hmsg).
  exists msg. unfold canonical_map in Hmsg. by rewrite Hmsg.
Qed.

Lemma verify_unsigned self m :
  signature m = None -> verify' self m = Ok false.
Proof. unfold verify. by intros ->. Qed.

Lemma verify_signed_raises self m sg :
  signature m = Some sg -> exists msg, verify' self m = Raise (TypeError msg).
Proof.
  unfold verify. intros ->.
  destruct (_prepare_manifest_for_signing_raises self m) as (msg & ->). by exists msg.
Qed.

Lemma sign_raises self now manifest σ m :
  σ !! manifest = Some m ->
  exists msg, sign' self now manifest σ = (Raise (TypeError msg), σ).
Proof.
  unfold sign. intros ->.
  destruct (_prepare_manifest_for_signing_raises self m) as (msg & ->). by exists msg.
Qed.

Lemma sign_frame self now manifest σ m :
  σ !! manifest = Some m ->
  let '(res, σ') := sign' self now manifest σ in
  (forall other, other ≠ manifest -> σ' !! other = σ !! other) ∧
  (exists m', σ' !! manifest = Some m' ∧ same_but_signature m m' ∧
     forall returned, res = Ok returned ->
       returned = manifest ∧
       exists sg, signature m' = Some sg ∧ alg sg = algorithm self).
Proof.
  unfold sign. intros Hm. rewrite Hm.
  destruct (_prepare_manifest_for_signing self m
            ≫= _compute_signature sha3_256 sha3_512 rsa_pss_sign self)
    as [sig_value|e].
  - split.
    + intros other Hne. by rewrite lookup_insert_ne.
    + eexists. rewrite lookup_insert_eq. split; [done|]. split.
      * by repeat split.
      * intros returned Hr. simplify_eq. split; [done|]. by eexists.
  - split; [done|]. exists m. split; [done|]. split; [by repeat split|]. discriminate.
Qed.

(** The hybrid path never produces a signature: the RSA half wants a key
    object, the post-quantum half wants key bytes. *)
Lemma _sign_hybrid_raises self data :
  exists e, _sign_hybrid sha3_256 rsa_pss_sign self data = Raise e.
Proof.
  unfold _sign_hybrid, _sign_rsa_pss, _sign_ml_dsa, data_with_key.
  destruct (_private_key self) as [[k|der]|]; [by eexists| |by eexists].
  destruct (rsa_pss_sign der _ data); by eexists.
Qed.

Lemma _compute_signature_hybrid_raises self data :
  is_hybrid (algorithm self) = true ->
  exists e, _compute_signature sha3_256 sha3_512 rsa_pss_sign self data = Raise e.
Proof.
  unfold _compute_signature. intros H.
  destruct (algorithm self); try discriminate; apply _sign_hybrid_raises.
Qed.

(** On bytes, the post-quantum placeholders do round-trip: what
    [_compute_signature] returns, [_verify_signature] accepts. *)
Lemma compute_verify_roundtrip self data sig_value :
  _compute_signature sha3_256 sha3_512 rsa_pss_sign self data = Ok sig_value ->
  _verify_signature sha3_256 sha3_512 self data sig_value = Ok true.
Proof.
  unfold _compute_signature, _verify_signature.
  destruct (is_rsa_pss (algorithm self)); [done|].
  destruct (is_ml_dsa (algorithm self)).
  { unfold _sign_ml_dsa, _verify_ml_dsa.
    destruct (data_with_key self data); [|discriminate].
    intros [= <-]. cbn [mbind result_bind]. by rewrite bool_decide_eq_true_2. }
  destruct (is_slh_dsa (algorithm self)).
  { unfold _sign_slh_dsa, _verify_slh_dsa.
    destruct (data_with_key self data); [|discriminate].
    intros [= <-]. cbn [mbind result_bind]. by rewrite bool_decide_eq_true_2. }
  destruct (is_hybrid (algorithm self)); [|discriminate].
  intros H. destruct (_sign_hybrid_raises self data) as (e & He). congruence.
Qed.

(** Verification of a hybrid signature splits it where signing joins it,
    and then looks at the post-quantum half only. *)
Lemma _verify_hybrid_split self data prefix classical_sig pqc_sig :
  int_to_bytes4_big (N.of_nat (length classical_sig)) = Ok prefix ->
  _verify_hybrid sha3_256 self data (prefix ++ classical_sig ++ pqc_sig) =
  pqc_valid ← _verify_ml_dsa sha3_256 self data pqc_sig;
  Ok (_verify_rsa_pss self data classical_sig && pqc_valid).
Proof.
  intros Hp. apply int_from_to_bytes4 in Hp as [Hlen Hval].
  unfold _verify_hybrid.
  rewrite take_app_length' by done. rewrite Hval, Nat2N.id.
  rewrite drop_app_length' by done.
  rewrite take_app_length.
  replace (4 + length classical_sig) with (length (prefix ++ classical_sig))
    by (rewrite length_app; lia).
  by rewrite app_assoc, drop_app_length.
Qed.

Lemma _verify_hybrid_pqc_corrupted self data prefix classical_sig pqc_sig keyed :
  int_to_bytes4_big (N.of_nat (length classical_sig)) = Ok prefix ->
  data_with_key self data = Ok keyed ->
  pqc_sig ≠ b_lit "ML-DSA-SIGNATURE:" ++ sha3_256 keyed ->
  _verify_hybrid sha3_256 self data (prefix ++ classical_sig ++ pqc_sig) = Ok false.
Proof.
  intros Hp Hk Hne. rewrite (_verify_hybrid_split _ _ _ _ _ Hp).
  unfold _verify_ml_dsa. rewrite Hk. cbn. by rewrite bool_decide_eq_false_2.
Qed.

Lemma _verify_hybrid_classical_ignored self data prefix classical_sig keyed :
  int_to_bytes4_big (N.of_nat (length classical_sig)) = Ok prefix ->
  data_with_key self data = Ok keyed ->
  _verify_hybrid sha3_256 self data
    (prefix ++ classical_sig ++ b_lit "ML-DSA-SIGNATURE:" ++ sha3_256 keyed) = Ok true.
Proof.
  intros Hp Hk. rewrite (_verify_hybrid_split _ _ _ _ _ Hp).
  unfold _verify_ml_dsa. rewrite Hk. cbn. by rewrite bool_decide_eq_true_2.
Qed.

End SignerProperties.

(** ** When the validator returns *)

(** [validate] returns exactly when every action-history payload it meets
    can be measured, the compliance record can be computed, and its
    values pass the validation of the result record. *)
Lemma assertions_loop_returns l : forall ha hh r,
  is_ok (assertions_loop l ha hh r) = true <->
  Forall (fun a => label a = "c2pa.actions" ->
                   is_ok (_validate_actions_assertion a) = true) l.
Proof.
  induction l as [|a l IH]; intros ha hh r; simpl.
  - split; [constructor|done].
  - destruct (String.eqb (label a) "c2pa.actions") eqn:Ea.
    + apply String.eqb_eq in Ea.
      destruct (_validate_actions_assertion a) as [v|e] eqn:Hv; cbn.
      * rewrite IH. split; [|by inversion 1].
        intros Hl. constructor; [|done]. intros _. by rewrite Hv.
      * split; [done|]. inversion 1 as [|? ? Ha]. rewrite Hv in Ha. by apply Ha.
    + apply String.eqb_neq in Ea.
      destruct (String.eqb (label a) "c2pa.hash.data"); rewrite IH;
        (split; [by constructor|by inversion 1]).
Qed.

Lemma coerce_values_is_Some coerce_bool d :
  is_Some (coerce_values coerce_bool d) <-> Forall (fun kv => is_Some (coerce_bool kv.2)) d.
Proof.
  induction d as [|[k v] d IH]; simpl.
  - split; [constructor|by eexists].
  - split.
    + intros H. destruct (coerce_bool v) as [b|] eqn:Hb; [|by destruct H].
      constructor; [simpl; rewrite Hb; by eexists|]. apply IH.
      destruct (coerce_values coerce_bool d); [done|by destruct H].
    + intros H. apply Forall_cons in H as [[b Hb] Hd]. simpl in Hb. rewrite Hb.
      apply IH in Hd as [rest ->]. by eexists.
Qed.

Lemma validate_compliance_returns coerce_bool validation_error d :
  is_ok (validate_compliance coerce_bool validation_error d) = true <->
  Forall (fun kv => is_Some (coerce_bool kv.2)) d.
Proof.
  rewrite <- coerce_values_is_Some. unfold validate_compliance.
  destruct (coerce_values coerce_bool d); simpl; split; try done; by intros [? ?].
Qed.

Ltac returns_tail m coerce_bool validation_error :=
  let record := fresh "record" in
  let Hc := fresh "Hc" in
  destruct (_check_organizational_compliance m) as [record|];
    cbn [mbind result_bind];
    [ pose proof (validate_compliance_returns coerce_bool validation_error record) as Hc;
      destruct (validate_compliance coerce_bool validation_error record); cbn in *;
      (split;
       [ let Hx := fresh "Hx" in
         intros Hx;
         first [ discriminate Hx
               | (split; [done|]); exists record; (split; [done|]); by apply Hc ]
       | first [ done
               | let HF := fresh "HF" in
                 intros (_ & ? & [= <-] & HF); apply Hc in HF; discriminate ] ])
    | split; [done|]; intros (_ & ? & ? & _); discriminate ].

Lemma validate_returns_iff sha3_256 sha3_512 coerce_bool validation_error self now m strict :
  is_ok (validate sha3_256 sha3_512 coerce_bool validation_error self now m strict) = true <->
  Forall (fun a => label a = "c2pa.actions" ->
                   is_ok (_validate_actions_assertion a) = true) (assertions m) ∧
  exists record,
    _check_organizational_compliance m = Ok record ∧
    Forall (fun kv => is_Some (coerce_bool kv.2)) record.
Proof.
  unfold validate.
  destruct (_validate_structure m empty_report) as [structure_valid r0].
  rewrite <- (assertions_loop_returns (assertions m) false false r0).
  unfold _validate_assertions.
  destruct (assertions m) as [|a l] eqn:Ha.
  - cbn -[_validate_signature _validate_certificate_trust validate_compliance].
    destruct (match signature m with Some _ => _ | None => _ end) as [[sv ct] r2].
    destruct (_validate_chain_of_custody m r2) as [cc r3].
    returns_tail m coerce_bool validation_error.
  - destruct (assertions_loop (a :: l) false false r0) as [[[ha hh] r1]|e]; cbn;
      [|split; [done|by intros [? _]]].
    destruct hh; cbn -[_validate_signature _validate_certificate_trust validate_compliance];
      (destruct (match signature m with Some _ => _ | None => _ end) as [[sv ct] r2]);
      (destruct (_validate_chain_of_custody m r2) as [cc r3]);
      returns_tail m coerce_bool validation_error.
Qed.

(** As the canonical bytes are never produced, no run of [validate] finds
    a valid signature. *)
Lemma validate_never_trusts sha3_256 sha3_512 coerce_bool validation_error self now m strict res :
  validate sha3_256 sha3_512 coerce_bool validation_error self now m strict = Ok res ->
  signature_valid res = false ∧ valid res = false ∧ trust_level res = INVALID.
Proof.
  intros H. apply validate_stages in H
    as (sv & av & r0 & r1 & r2 & _ & _ & H2 & _ & _ & _ & Ht & Hv).
  assert (signature_valid res = false) as Hs.
  { destruct (signature m) as [sg|] eqn:Hsg; [|by simplify_eq].
    injection H2 as <- _ _. unfold _validate_signature. rewrite Hsg.
    by destruct (verify_signed_raises sha3_256 sha3_512 (Signer_new (alg sg)) m sg Hsg)
      as (msg & ->). }
  split; [done|]. rewrite Hv, Ht, Hs. unfold _determine_trust_level. simpl.
  rewrite !andb_false_r. by destruct strict.
Qed.

(** ** The signature engine on manifests *)

(** C6. A manifest without a signature verifies as false.  For a manifest
    with a signature [verify] raises: the canonical bytes are computed
    outside its [try] block, and their computation raises [TypeError]. *)
Theorem verify_raises_on_signed_manifest :
  forall sha3_256 sha3_512 self m sg,
    verify sha3_256 sha3_512 self (set_signature m None) = Ok false ∧
    exists msg,
      verify sha3_256 sha3_512 self (set_signature m (Some sg)) = Raise (TypeError msg).
Proof.
  intros. split.
  - by apply verify_unsigned.
  - by eapply verify_signed_raises.
Qed.

(** C5. Under the RSA-PSS tags, [_verify_signature] accepts every
    signature on every data, and [verify] never answers false for a signed
    manifest, mutated or not. *)
Theorem rsa_pss_never_rejects :
  forall sha3_256 sha3_512 self m sg data sig_value,
    Forall (fun a =>
              _verify_signature sha3_256 sha3_512 (with_algorithm self a) data sig_value
                = Ok true ∧
              verify sha3_256 sha3_512 (with_algorithm self a) (set_signature m (Some sg))
                ≠ Ok false)
      [RSA_PSS_SHA256; RSA_PSS_SHA384; RSA_PSS_SHA512].
Proof.
  intros.
  assert (forall a, verify sha3_256 sha3_512 (with_algorithm self a)
                      (set_signature m (Some sg)) ≠ Ok false) as Hraise.
  { intros a.
    by destruct (verify_signed_raises sha3_256 sha3_512 (with_algorithm self a)
                   (set_signature m (Some sg)) sg eq_refl) as (msg & ->). }
  repeat (apply Forall_cons_2; [split; [reflexivity|apply Hraise]|]).
  apply Forall_nil_2.
Qed.

(** C2. A hybrid signature with a forged classical half and the genuine
    post-quantum half verifies. *)
Theorem hybrid_accepts_forged_classical_half :
  forall sha3_256 sha3_512 data,
    Forall (fun a =>
              _verify_signature sha3_256 sha3_512 (Signer_new a) data
                (forged_hybrid sha3_256 data) = Ok true)
      [HYBRID_RSA_ML_DSA; HYBRID_ECDSA_ML_DSA].
Proof.
  intros sha3_256 sha3_512 data.
  repeat (apply Forall_cons_2); [..|apply Forall_nil_2];
    by apply (_verify_hybrid_classical_ignored sha3_256 (Signer_new _) data
                ["000"; "000"; "000"; "006"]%byte (b_lit "forged")).
Qed.

(** C7. [sign] raises on every manifest, before a signature is computed,
    and leaves the store as it was; and on no data does
    [_compute_signature] return under a hybrid tag. *)
Theorem sign_raises_on_every_manifest :
  forall sha3_256 sha3_512 rsa_pss_sign self now manifest σ m,
    (exists msg,
       sign sha3_256 sha3_512 rsa_pss_sign self now manifest (<[manifest := m]> σ)
       = (Raise (TypeError msg), <[manifest := m]> σ)) ∧
    Forall (fun a => forall data, exists e,
              _compute_signature sha3_256 sha3_512 rsa_pss_sign (with_algorithm self a) data
              = Raise e)
      [HYBRID_RSA_ML_DSA; HYBRID_ECDSA_ML_DSA].
Proof.
  intros. split.
  - apply (sign_raises _ _ _ _ _ _ _ m). by rewrite lookup_insert_eq.
  - repeat (apply Forall_cons_2); [..|apply Forall_nil_2];
      intros data; by apply _compute_signature_hybrid_raises.
Qed.

(** C10. After a call of [sign] on an unsigned manifest the call has not
    returned a reference, and the manifest is still unsigned. *)
Theorem sign_leaves_manifest_unsigned :
  forall sha3_256 sha3_512 rsa_pss_sign self now manifest σ m,
    let σ0 := <[manifest := set_signature m None]> σ in
    let res := sign sha3_256 sha3_512 rsa_pss_sign self now manifest σ0 in
    is_ok res.1 = false ∧ res.2 = σ0 ∧ signature <$> res.2 !! manifest = Some None.
Proof.
  intros. subst res.
  destruct (sign_raises sha3_256 sha3_512 rsa_pss_sign self now manifest σ0
              (set_signature m None)) as (msg & ->).
  { subst σ0. by rewrite lookup_insert_eq. }
  simpl. subst σ0. by rewrite lookup_insert_eq.
Qed.

(** ** The canonical form of the serializer *)

Lemma insert_item_map_values {A B} (f : A -> B) kv (l : list (string * A)) :
  insert_item (map_values f kv) (map (map_values f) l)
  = map (map_values f) (insert_item kv l).
Proof.
  induction l as [|y l IH]; simpl; [done|].
  destruct (String.leb kv.1 y.1); simpl; [done|]. by rewrite IH.
Qed.

Lemma sort_items_map_values {A B} (f : A -> B) (l : list (string * A)) :
  sort_items (map (map_values f) l) = map (map_values f) (sort_items l).
Proof.
  induction l as [|y l IH]; [done|].
  change (sort_items (map (map_values f) (y :: l)))
    with (insert_item (map_values f y) (sort_items (map (map_values f) l))).
  rewrite IH. apply insert_item_map_values.
Qed.

Lemma insert_item_sorted {A} (kv : string * A) l :
  Sorted key_le l -> Sorted key_le (insert_item kv l).
Proof.
  induction 1 as [|y l Hl IH Hhd]; simpl.
  - by repeat constructor.
  - destruct (String.leb kv.1 y.1) eqn:Hle.
    + constructor; [by constructor|]. by constructor.
    + constructor; [done|].
      assert (key_le y kv) as Hyk.
      { unfold key_le. destruct (String.leb_total kv.1 y.1); congruence. }
      destruct l as [|z l]; simpl; [by constructor|].
      destruct (String.leb kv.1 z.1); constructor; [done|].
      by inversion Hhd.
Qed.

Lemma sort_items_sorted {A} (l : list (string * A)) : Sorted key_le (sort_items l).
Proof.
  induction l as [|y l IH]; simpl; [constructor|]. by apply insert_item_sorted.
Qed.

Lemma canon_keys_sorted v : keys_sorted (canon v).
Proof.
  induction v as [|b|z|s|b|t|l IH|d IH] using pyval_nested_ind; simpl;
    try by constructor.
  - constructor. by apply Forall_fmap.
  - constructor; [apply sort_items_sorted|].
    apply Forall_forall. intros kv Hkv.
    apply sort_items_elem_of, list_elem_of_fmap in Hkv as (kv' & -> & Hin).
    rewrite Forall_forall in IH. by apply IH.
Qed.

(** Encoding with [sort_keys] is plain encoding of the canonical form. *)
Lemma json_encode_canon v : json_encode true v = json_encode false (canon v).
Proof.
  induction v as [|b|z|s|b|t|l IH|d IH] using pyval_nested_ind; simpl; try done.
  - f_equal. rewrite map_map. apply map_ext_Forall, IH.
  - f_equal.
    change (fun kv : string * pyval => (kv.1, json_encode true kv.2))
      with (map_values (json_encode true)).
    change (fun kv : string * pyval => (kv.1, json_encode false kv.2))
      with (map_values (json_encode false)).
    change (fun kv : string * pyval => (kv.1, canon kv.2)) with (map_values canon).
    rewrite <- sort_items_map_values. f_equal.
    rewrite map_map. apply map_ext_Forall.
    eapply Forall_impl; [exact IH|]. intros [k x] Hx. unfold map_values. simpl in *.
    by rewrite Hx.
Qed.

(** ** The characters of the serialized text *)

Section Characters.

Variable P : ascii -> bool.
Hypothesis P_syntax : all_chars P syntax_chars = true.

Lemma all_chars_append s1 s2 :
  all_chars P (s1 +:+ s2) = all_chars P s1 && all_chars P s2.
Proof. induction s1 as [|c s1 IH]; simpl; [done|]. by rewrite IH, andb_assoc. Qed.

Lemma all_chars_join sep items :
  all_chars P sep = true -> Forall (fun x => all_chars P x = true) items ->
  all_chars P (join sep items) = true.
Proof.
  intros Hsep. induction 1 as [|x items Hx Hitems IH]; [done|].
  destruct items as [|y items]; [done|].
  change (join sep (x :: y :: items)) with (x +:+ sep +:+ join sep (y :: items)).
  by rewrite !all_chars_append, Hx, Hsep, IH.
Qed.

Lemma all_chars_uint d : all_chars P (NilEmpty.string_of_uint d) = true.
Proof using P_syntax.
  unfold syntax_chars in P_syntax. simpl in P_syntax.
  repeat (apply andb_prop in P_syntax as [? P_syntax]).
  induction d; simpl; rewrite ?IHd; auto using andb_true_intro.
Qed.

Lemma all_chars_int_repr z : all_chars P (int_repr z) = true.
Proof using P_syntax.
  pose proof all_chars_uint as Hu.
  unfold syntax_chars in P_syntax. simpl in P_syntax.
  repeat (apply andb_prop in P_syntax as [? P_syntax]).
  unfold int_repr, NilZero.string_of_int, NilZero.string_of_uint.
  destruct (Z.to_int z) as [[]|[]]; simpl; rewrite ?Hu; auto using andb_true_intro.
  all: try (specialize (Hu (Decimal.Nil)); simpl in Hu).
  all: repeat (apply andb_true_intro; split); auto.
Qed.

Lemma all_chars_escape_string s :
  all_chars P (escape_string s) = true ->
  all_chars P (encode_basestring_ascii s) = true.
Proof using P_syntax.
  intros Hs. unfold syntax_chars in P_syntax.
  rewrite all_chars_append in P_syntax. apply andb_prop in P_syntax as [_ Hq].
  unfold encode_basestring_ascii. by rewrite !all_chars_append, Hs, Hq.
Qed.

Lemma sequence_members {A} (l : list (result A)) xs :
  sequence l = Ok xs -> Forall (fun x => Ok x ∈ l) xs.
Proof.
  intros H. apply sequence_ok in H. subst l.
  apply Forall_forall. intros x Hx. apply list_elem_of_fmap. by exists x.
Qed.

(** If the strings of a value, once escaped, consist of characters of the
    class, so does the whole text. *)
Lemma json_encode_all_chars sort_keys v : forall txt,
  json_encode sort_keys v = Ok txt ->
  Forall (fun s => all_chars P (escape_string s) = true) (strings_of v) ->
  all_chars P txt = true.
Proof using P_syntax.
  pose proof P_syntax as HP. unfold syntax_chars in HP. simpl in HP.
  repeat (apply andb_prop in HP as [? HP]).
  induction v as [|b|z|s|b|t|l IH|d IH] using pyval_nested_ind;
    intros txt Henc Hs; simpl in Henc; try discriminate.
  - simplify_eq. simpl. repeat (apply andb_true_intro; split); auto.
  - simplify_eq. destruct b; simpl; repeat (apply andb_true_intro; split); auto.
  - simplify_eq. apply all_chars_int_repr.
  - simplify_eq. apply all_chars_escape_string. by inversion Hs.
  - unfold encode_list_chunks in Henc.
    destruct (sequence (map (json_encode sort_keys) l)) as [items|e] eqn:Hseq;
      [|discriminate].
    cbn in Henc. injection Henc as <-.
    rewrite !all_chars_append. simpl.
    rewrite all_chars_join; [simpl; repeat (apply andb_true_intro; split); auto|simpl; repeat (apply andb_true_intro; split); auto|].
    apply sequence_members in Hseq. eapply Forall_impl; [exact Hseq|].
    intros item Hitem. apply list_elem_of_fmap in Hitem as (x & Hx & Hin).
    rewrite Forall_forall in IH. apply (IH x Hin); [done|].
    simpl in Hs. rewrite Forall_forall in Hs. apply Forall_forall. intros s Hin'.
    apply Hs, list_elem_of_In, in_flat_map. exists x.
    split; by apply list_elem_of_In.
  - unfold encode_dict_chunks in Henc.
    destruct (sequence _) as [items|e] eqn:Hseq in Henc; [|discriminate].
    cbn in Henc. injection Henc as <-.
    rewrite !all_chars_append. simpl.
    rewrite all_chars_join; [simpl; repeat (apply andb_true_intro; split); auto|simpl; repeat (apply andb_true_intro; split); auto|].
    apply sequence_members in Hseq. eapply Forall_impl; [exact Hseq|].
    intros item Hitem. apply list_elem_of_fmap in Hitem as ([k r] & Hx & Hin).
    unfold encode_member in Hx. simpl in Hx. destruct r as [txt|e]; [|discriminate].
    cbn in Hx. injection Hx as ->.
    assert ((k, Ok txt) ∈ map (fun kv : string * pyval => (kv.1, json_encode sort_keys kv.2)) d)
      as Hin'.
    { destruct sort_keys; [by apply sort_items_elem_of|done]. }
    apply list_elem_of_fmap in Hin' as ([k' x] & Hx & Hin').
    simpl in Hx. injection Hx as -> Hjson. symmetry in Hjson.
    assert (Forall (fun s => all_chars P (escape_string s) = true) (k' :: strings_of x))
      as Hkx.
    { rewrite Forall_forall in Hs. apply Forall_forall. intros s Hin''.
      apply Hs, list_elem_of_In, in_flat_map. exists (k', x).
      split; by apply list_elem_of_In. }
    inversion Hkx as [|? ? Hk Hx']; subst.
    rewrite Forall_forall in IH.
    rewrite !all_chars_append, all_chars_escape_string, (IH (k', x) Hin' txt) by done.
    simpl. repeat (apply andb_true_intro; split); auto.
Qed.

End Characters.

Lemma escape_char_printable c : all_chars printable (escape_char c) = true.
Proof. destruct c as [[] [] [] [] [] [] [] []]; reflexivity. Qed.

Lemma escape_string_printable s : all_chars printable (escape_string s) = true.
Proof.
  induction s as [|c s IH]; simpl; [done|].
  rewrite all_chars_append, escape_char_printable, IH. done.
Qed.

Lemma escape_char_not_space c :
  not_space c = true -> all_chars not_space (escape_char c) = true.
Proof. destruct c as [[] [] [] [] [] [] [] []]; intros H; try reflexivity; discriminate. Qed.

Lemma escape_string_not_space s :
  all_chars not_space s = true -> all_chars not_space (escape_string s) = true.
Proof.
  induction s as [|c s IH]; simpl; [done|].
  intros [Hc Hs]%andb_prop. by rewrite all_chars_append, escape_char_not_space, IH.
Qed.

(** The text is printable ASCII: no line break, no tab, nothing to escape
    further. *)
Lemma json_encode_printable sort_keys v txt :
  json_encode sort_keys v = Ok txt -> all_chars printable txt = true.
Proof.
  intros H. eapply (json_encode_all_chars printable eq_refl); [exact H|].
  apply Forall_forall. intros s _. apply escape_string_printable.
Qed.

(** The encoder adds no space: a value without spaces in its strings has
    none in its text. *)
Lemma json_encode_adds_no_space sort_keys v txt :
  json_encode sort_keys v = Ok txt ->
  Forall (fun s => all_chars not_space s = true) (strings_of v) ->
  all_chars not_space txt = true.
Proof.
  intros H Hs. eapply (json_encode_all_chars not_space eq_refl); [exact H|].
  eapply Forall_impl; [exact Hs|]. intros s. apply escape_string_not_space.
Qed.

(** On printable text UTF-8 is one byte for each character. *)
Lemma encode_utf8_printable txt :
  all_chars printable txt = true -> encode_utf8 txt = list_byte_of_string txt.
Proof.
  induction txt as [|c txt IH]; simpl; [done|].
  intros [Hc Ht]%andb_prop. rewrite IH by done.
  unfold utf8_char. unfold printable in Hc. apply andb_prop in Hc as [_ Hc].
  apply N.leb_le in Hc.
  destruct (N_of_ascii c <? 128)%N eqn:Hlt; [|apply N.ltb_ge in Hlt; lia].
  simpl. f_equal. unfold byte_of_N. rewrite N.mod_small by lia.
  by rewrite <- Ascii.byte_of_ascii_via_N.
Qed.

(** ** The map that is serialized *)

Lemma dict_get_pop_eq {A} k (d : list (string * A)) : dict_get k (dict_pop k d) = None.
Proof.
  unfold dict_pop. induction d as [|[k' v] d IH]; [done|].
  destruct (decide (k = k')) as [->|Hne].
  - by rewrite filter_cons_False by (simpl; auto).
  - rewrite filter_cons_True by done. simpl.
    by apply String.eqb_neq in Hne as ->.
Qed.

Lemma dict_get_pop_ne {A} k k' (d : list (string * A)) :
  k' ≠ k -> dict_get k' (dict_pop k d) = dict_get k' d.
Proof.
  unfold dict_pop. intros Hne. induction d as [|[k'' v] d IH]; [done|].
  destruct (decide (k = k'')) as [<-|Hne'].
  - rewrite filter_cons_False by (simpl; auto). simpl.
    by apply String.eqb_neq in Hne as ->.
  - rewrite filter_cons_True by done. simpl. by rewrite IH.
Qed.

(** The canonical map has nothing of the signature in it. *)
Lemma canonical_map_set_signature m sg :
  canonical_map (set_signature m sg) = canonical_map m.
Proof.
  destruct m as [cg fmt iid [cgi|] [ttl|] asrt [sg'|] ca [ua|] [org|] [tid|]];
    destruct sg as [sg|]; reflexivity.
Qed.

(** Which keys [to_dict] has: the required fields and [assertions]
    always, an optional field exactly when it is not [None]. *)
Lemma to_dict_fields m :
  dict_get "claim_generator" (to_dict m) = Some (PStr (claim_generator m)) ∧
  dict_get "format" (to_dict m) = Some (PStr (format m)) ∧
  dict_get "instance_id" (to_dict m) = Some (PStr (instance_id m)) ∧
  dict_get "claim_generator_info" (to_dict m)
    = (fun l => PList (ClaimGeneratorInfo_dict <$> l)) <$> claim_generator_info m ∧
  dict_get "title" (to_dict m) = PStr <$> title m ∧
  dict_get "assertions" (to_dict m) = Some (PList (Assertion_dict <$> assertions m)) ∧
  dict_get "signature" (to_dict m) = Signature_dict <$> signature m ∧
  dict_get "created_at" (to_dict m) = Some (PDatetime (created_at m)) ∧
  dict_get "updated_at" (to_dict m) = PDatetime <$> updated_at m ∧
  dict_get "organization" (to_dict m) = PStr <$> organization m ∧
  dict_get "tenant_id" (to_dict m) = PStr <$> tenant_id m.
Proof.
  destruct m as [cg fmt iid [cgi|] [ttl|] asrt [sg|] ca [ua|] [org|] [tid|]];
    repeat split; reflexivity.
Qed.

Lemma canonical_map_fields m :
  dict_get "signature" (canonical_map m) = None ∧
  dict_get "claim_generator" (canonical_map m) = Some (PStr (claim_generator m)) ∧
  dict_get "format" (canonical_map m) = Some (PStr (format m)) ∧
  dict_get "instance_id" (canonical_map m) = Some (PStr (instance_id m)) ∧
  dict_get "claim_generator_info" (canonical_map m)
    = (fun l => PList (ClaimGeneratorInfo_dict <$> l)) <$> claim_generator_info m ∧
  dict_get "title" (canonical_map m) = PStr <$> title m ∧
  dict_get "assertions" (canonical_map m) = Some (PList (Assertion_dict <$> assertions m)) ∧
  dict_get "created_at" (canonical_map m) = Some (PDatetime (created_at m)) ∧
  dict_get "updated_at" (canonical_map m) = PDatetime <$> updated_at m ∧
  dict_get "organization" (canonical_map m) = PStr <$> organization m ∧
  dict_get "tenant_id" (canonical_map m) = PStr <$> tenant_id m.
Proof.
  destruct (to_dict_fields m) as (? & ? & ? & ? & ? & ? & _ & ? & ? & ? & ?).
  unfold canonical_map. split; [apply dict_get_pop_eq|].
  rewrite !dict_get_pop_ne by done. by repeat split.
Qed.

(** The empty assertion list of a manifest stays in the map that is
    serialized: empty fields are not left out. *)
Lemma empty_assertions_stay_in_canonical_map :
  dict_get "assertions" (canonical_map bare_manifest) = Some (PList []) ∧
  ¬ canonicalization_as_stated (Signer_new ML_DSA_65) bare_manifest.
Proof.
  split; [reflexivity|].
  intros [_ H]. specialize (H "assertions" (PList [])).
  assert (is_empty_value (PList []) = false) as Hf; [|discriminate].
  apply H, list_elem_of_In. vm_compute. tauto.
Qed.

(** The map that is serialized and the serializer.
    [_prepare_manifest_for_signing] serializes the map of [to_dict]
    without its [signature] key; in that map a field is left out exactly
    when its value is [None], and the assertion list is there even when
    it is empty.  The result depends neither on the signer nor on the
    signature of the manifest.  On the values it accepts the serializer
    writes the members of every dict in key order; its text is printable
    ASCII, one byte a character, and has no space that is not in a string
    of the value. *)
Theorem canonical_serialization :
  (forall self m,
     _prepare_manifest_for_signing self m
     = txt ← json_dumps_sorted (PDict (canonical_map m)); Ok (encode_utf8 txt)) ∧
  (forall m,
     dict_get "signature" (canonical_map m) = None ∧
     dict_get "claim_generator" (canonical_map m) = Some (PStr (claim_generator m)) ∧
     dict_get "format" (canonical_map m) = Some (PStr (format m)) ∧
     dict_get "instance_id" (canonical_map m) = Some (PStr (instance_id m)) ∧
     dict_get "claim_generator_info" (canonical_map m)
       = (fun l => PList (ClaimGeneratorInfo_dict <$> l)) <$> claim_generator_info m ∧
     dict_get "title" (canonical_map m) = PStr <$> title m ∧
     dict_get "assertions" (canonical_map m)
       = Some (PList (Assertion_dict <$> assertions m)) ∧
     dict_get "created_at" (canonical_map m) = Some (PDatetime (created_at m)) ∧
     dict_get "updated_at" (canonical_map m) = PDatetime <$> updated_at m ∧
     dict_get "organization" (canonical_map m) = PStr <$> organization m ∧
     dict_get "tenant_id" (canonical_map m) = PStr <$> tenant_id m) ∧
  (forall self self' m sg,
     _prepare_manifest_for_signing self' (set_signature m sg)
     = _prepare_manifest_for_signing self m) ∧
  (forall v, json_dumps_sorted v = json_encode false (canon v) ∧ keys_sorted (canon v)) ∧
  (forall v txt,
     json_dumps_sorted v = Ok txt ->
     all_chars printable txt = true ∧
     encode_utf8 txt = list_byte_of_string txt ∧
     (Forall (fun s => all_chars not_space s = true) (strings_of v) ->
      all_chars not_space txt = true)).
Proof.
  split; [done|]. split; [apply canonical_map_fields|]. split.
  { intros self self' m sg. unfold _prepare_manifest_for_signing.
    change (dict_pop "signature" (to_dict (set_signature m sg)))
      with (canonical_map (set_signature m sg)).
    by rewrite canonical_map_set_signature. }
  split.
  { intros v. split; [apply json_encode_canon|apply canon_keys_sorted]. }
  intros v txt H. pose proof (json_encode_printable true v txt H) as Hp.
  split; [done|]. split; [by apply encode_utf8_printable|].
  by apply (json_encode_adds_no_space true).
Qed.

(** C1. [_prepare_manifest_for_signing] produces no bytes: the map it
    serializes holds the [datetime] of [created_at], which the encoder
    rejects, so on every manifest and under every signer it raises
    [TypeError]; on no manifest does the canonicalization do what is
    stated of it. *)
Theorem canonical_bytes_never_produced :
  forall self m,
    dict_get "created_at" (canonical_map m) = Some (PDatetime (created_at m)) ∧
    (exists msg, _prepare_manifest_for_signing self m = Raise (TypeError msg)) ∧
    ¬ canonicalization_as_stated self m.
Proof.
  intros self m.
  destruct (canonical_map_fields m) as (_ & _ & _ & _ & _ & _ & _ & Hc & _).
  destruct (_prepare_manifest_for_signing_raises self m) as (msg & Hr).
  split; [exact Hc|]. split; [by exists msg|].
  intros [(txt & _ & H) _]. rewrite Hr in H. discriminate H.
Qed.

(** ** The statements at concrete inputs *)

Example json_dumps_sorted_sample : json_dumps_sorted sample_value = Ok sample_text.
Proof. reflexivity. Qed.

Lemma canonical_serialization_witness :
  json_dumps_sorted sample_value = Ok sample_text ∧
  all_chars printable sample_text = true ∧
  encode_utf8 sample_text = list_byte_of_string sample_text ∧
  all_chars not_space sample_text = true.
Proof.
  split; [reflexivity|].
  destruct (proj2 (proj2 (proj2 (proj2 canonical_serialization)))
              sample_value sample_text eq_refl) as (Hp & Hu & Hs).
  split; [exact Hp|]. split; [exact Hu|].
  apply Hs. vm_compute. repeat constructor.
Defined.

Lemma trust_level_precedence_witness :
  exists res,
    validate toy_digest toy_digest strict_bool refusal_text no_validator (Datetime 0)
      acme_manifest false = Ok res ∧
    Forall is_error (issues res) ∧
    trust_level res =
      trust_level_spec (negb (bool_decide (issues res = [])))
        (signature_valid res) (certificate_trusted res) (chain_complete res).
Proof.
  eexists. split; [vm_compute; reflexivity|].
  apply (proj2 trust_level_precedence toy_digest toy_digest strict_bool refusal_text
           no_validator (Datetime 0)
           acme_manifest false).
  vm_compute. reflexivity.
Defined.




(** C9, counterexample: a custom rule that gives the empty name, in an
    engine with no function registered.  The rule is not checked: it
    yields no violation, and the policy made of it passes. *)
Lemma empty_function_name_is_not_checked :
  custom_function (custom_rule ERROR EmptyString) = Some EmptyString ∧
  custom_functions PolicyEngine_new !! EmptyString = None ∧
  _check_custom_function PolicyEngine_new acme_manifest (custom_rule ERROR EmptyString) = [] ∧
  ¬ custom_failure_is_error PolicyEngine_new acme_manifest (custom_rule ERROR EmptyString) ∧
  exists res,
    evaluate no_class_attribute never_in no_order no_order plain_attr_str plain_format
      plain_coerce
      (add_policy PolicyEngine_new (single_rule_policy (custom_rule ERROR EmptyString)))
      (Datetime 0) acme_manifest "single_rule" = Ok res ∧
    passed res = true ∧ violations res = [].
Proof.
  split; [reflexivity|]. split; [reflexivity|]. split; [reflexivity|]. split.
  - intros (v & Hv & _). by apply elem_of_nil in Hv.
  - eexists. split; [vm_compute; reflexivity|]. split; reflexivity.
Qed.

Lemma custom_function_failure_is_error_witness :
  exists v,
    _check_custom_function PolicyEngine_new acme_manifest (custom_rule INFO "has_title")
      = [v] ∧
    severity v = ERROR.
Proof.
  destruct (custom_function_failure_is_error no_class_attribute never_in no_order no_order
              plain_attr_str plain_format plain_coerce PolicyEngine_new acme_manifest
              (custom_rule INFO "has_title") "has_title" eq_refl)
    as (v & Hv & Hs & _).
  - discriminate.
  - left. vm_compute. reflexivity.
  - exists v. by split.
Defined.

(** * Further properties *)

(** ** Signature engine on bytes *)

(** X1. What [_compute_signature] returns for some data,
    [_verify_signature] accepts for the same data under the same signer;
    and under the ML-DSA and SLH-DSA tags [_compute_signature] returns
    whenever the key is absent or raw bytes. *)
Theorem signature_bytes_roundtrip :
  forall sha3_256 sha3_512 rsa_pss_sign self,
    (forall data sig_value,
       _compute_signature sha3_256 sha3_512 rsa_pss_sign self data = Ok sig_value ->
       _verify_signature sha3_256 sha3_512 self data sig_value = Ok true) ∧
    (forall data,
       is_ml_dsa (algorithm self) || is_slh_dsa (algorithm self) = true ->
       (forall der, _private_key self ≠ Some (RsaPrivateKey der)) ->
       is_ok (_compute_signature sha3_256 sha3_512 rsa_pss_sign self data) = true).
Proof.
  intros sha3_256 sha3_512 rsa_pss_sign self. split.
  - intros data sig_value. apply compute_verify_roundtrip.
  - intros data Htag Hkey. unfold _compute_signature.
    assert (exists keyed, data_with_key self data = Ok keyed) as [keyed Hk].
    { unfold data_with_key. destruct (_private_key self) as [[k|der]|]; eauto.
      by destruct (Hkey der). }
    destruct (algorithm self); try discriminate; simpl;
      unfold _sign_ml_dsa, _sign_slh_dsa; by rewrite Hk.
Qed.

Lemma signature_bytes_roundtrip_witness :
  exists sig_value,
    _compute_signature toy_digest toy_digest (fun _ _ _ => Ok []) (Signer_new ML_DSA_65)
      (b_lit "abc") = Ok sig_value ∧
    _verify_signature toy_digest toy_digest (Signer_new ML_DSA_65) (b_lit "abc") sig_value
      = Ok true.
Proof.
  eexists. split; [vm_compute; reflexivity|].
  apply (proj1 (signature_bytes_roundtrip toy_digest toy_digest (fun _ _ _ => Ok [])
                  (Signer_new ML_DSA_65))).
  vm_compute. reflexivity.
Defined.

(** X2. The ECDSA tags of the enumeration have no implementation: signing
    raises [ValueError] and verification answers false, for every data and
    signature. *)
Theorem ecdsa_tags_unsupported :
  forall sha3_256 sha3_512 rsa_pss_sign self data sig_value,
    Forall (fun a =>
              (exists msg,
                 _compute_signature sha3_256 sha3_512 rsa_pss_sign (with_algorithm self a) data
                 = Raise (ValueError msg)) ∧
              _verify_signature sha3_256 sha3_512 (with_algorithm self a) data sig_value
              = Ok false)
      [ECDSA_SHA256; ECDSA_SHA384; ECDSA_SHA512].
Proof.
  intros. repeat (apply Forall_cons_2; [split; [by eexists|reflexivity]|]).
  apply Forall_nil_2.
Qed.

(** X3. Hybrid signing raises whatever key the signer holds: [ValueError]
    when the key is not an RSA key object, and with an RSA key object the
    exception of the RSA primitive or else [TypeError] from the
    post-quantum half, which wants key bytes. *)
Theorem hybrid_signing_raises :
  forall sha3_256 rsa_pss_sign self data,
    match _private_key self with
    | Some (RsaPrivateKey der) =>
        match _sign_rsa_pss rsa_pss_sign self data with
        | Ok _ => exists msg, _sign_hybrid sha3_256 rsa_pss_sign self data = Raise (TypeError msg)
        | Raise e => _sign_hybrid sha3_256 rsa_pss_sign self data = Raise e
        end
    | _ => exists msg, _sign_hybrid sha3_256 rsa_pss_sign self data = Raise (ValueError msg)
    end.
Proof.
  intros sha3_256 rsa_pss_sign self data.
  unfold _sign_hybrid, _sign_rsa_pss, _sign_ml_dsa, data_with_key.
  destruct (_private_key self) as [[k|der]|]; [by eexists| |by eexists].
  destruct (rsa_pss_sign der _ data); [by eexists|done].
Qed.

(** X4. On a signature laid out as the four-byte big-endian length of a
    classical part, that part and a rest, hybrid verification answers
    whether the rest is the ML-DSA value of the data, whatever the
    classical part is. *)
Theorem hybrid_verification_reads_rest :
  forall sha3_256 self data prefix classical_sig pqc_sig keyed,
    int_to_bytes4_big (N.of_nat (length classical_sig)) = Ok prefix ->
    data_with_key self data = Ok keyed ->
    _verify_hybrid sha3_256 self data (prefix ++ classical_sig ++ pqc_sig)
    = Ok (bool_decide (pqc_sig = b_lit "ML-DSA-SIGNATURE:" ++ sha3_256 keyed)).
Proof.
  intros sha3_256 self data prefix classical_sig pqc_sig keyed Hp Hk.
  rewrite (_verify_hybrid_split sha3_256 self data prefix classical_sig pqc_sig Hp).
  unfold _verify_ml_dsa. by rewrite Hk.
Qed.

Lemma hybrid_verification_reads_rest_witness :
  _verify_hybrid toy_digest (Signer_new HYBRID_RSA_ML_DSA) (b_lit "abc")
    (["000"; "000"; "000"; "002"]%byte ++ b_lit "xy" ++ b_lit "tail")
  = Ok (bool_decide (b_lit "tail" = b_lit "ML-DSA-SIGNATURE:"
                       ++ toy_digest (b_lit "abc" ++ b_lit "demo_key"))).
Proof.
  apply (hybrid_verification_reads_rest toy_digest (Signer_new HYBRID_RSA_ML_DSA)
           (b_lit "abc") ["000"; "000"; "000"; "002"]%byte (b_lit "xy") (b_lit "tail")
           (b_lit "abc" ++ b_lit "demo_key")); reflexivity.
Defined.

(** ** Stages of the validator *)

Ltac trust_tail :=
  split; [reflexivity|];
  split; intros Hres; try discriminate Hres; [reflexivity ..|];
  eexists; (split; [|reflexivity]); reflexivity.

(** X5. The certificate stage passes exactly when the manifest is signed
    and a trusted certificate occurs in the chain of the signature.  It
    never records an issue; when it fails it records one warning. *)
Theorem certificate_trust_is_intersection :
  forall self m r,
    let res := _validate_certificate_trust self m r in
    (res.1 = true <->
     exists sg cert, signature m = Some sg ∧
                     cert ∈ trusted_certificates self ∧ cert ∈ certificate_chain sg) ∧
    r_issues res.2 = r_issues r ∧
    (res.1 = true -> res.2 = r) ∧
    (res.1 = false -> exists w, is_warning w ∧ r_warnings res.2 = r_warnings r ++ [w]).
Proof.
  intros self m r. unfold _validate_certificate_trust.
  destruct (signature m) as [[a chain ts tsa' sv]|]; simpl.
  2:{ split; [|trust_tail]. split; [done|]. by intros (? & ? & ? & _). }
  destruct chain as [|c chain]; simpl.
  { split; [|trust_tail]. split; [done|].
    intros (sg & cert & Hsg & _ & Hin). simplify_eq/=. by apply elem_of_nil in Hin. }
  destruct (trusted_certificates self) as [|t trusted] eqn:Ht.
  { simpl. split; [|trust_tail]. split; [done|].
    intros (sg & cert & _ & Hin & _). by apply elem_of_nil in Hin. }
  destruct (existsb (fun trusted_cert => bool_decide (trusted_cert ∈ c :: chain))
              (t :: trusted)) eqn:He; cbn [fst snd].
  - split; [|trust_tail]. split; [|done]. intros _.
    apply existsb_exists in He as (cert & Hin & Hc).
    apply bool_decide_eq_true in Hc. apply list_elem_of_In in Hin. eauto.
  - split; [|trust_tail]. split; [done|].
    intros (sg & cert & Hsg & Hin & Hc).
    injection Hsg as <-. cbn [certificate_chain] in Hc.
    assert (existsb (fun trusted_cert => bool_decide (trusted_cert ∈ c :: chain))
              (t :: trusted) = true) as He'; [|congruence].
    apply existsb_exists. exists cert. split; [by apply list_elem_of_In|].
    by apply bool_decide_eq_true.
Qed.

Lemma _validate_actions_assertion_label a v :
  _validate_actions_assertion a = Ok v -> av_label v = "c2pa.actions".
Proof.
  unfold _validate_actions_assertion. intros H.
  destruct (data a) as [d|l]; [|by simplify_eq].
  destruct (negb _); [by simplify_eq|].
  destruct (py_len _); by simplify_eq/=.
Qed.

Lemma _validate_hash_assertion_label a :
  av_label (_validate_hash_assertion a) = "c2pa.hash.data".
Proof.
  unfold _validate_hash_assertion. destruct (data a); [|done]. by destruct (_ || _).
Qed.

Lemma assertions_loop_labels l : forall ha hh r ha' hh' r',
  assertions_loop l ha hh r = Ok (ha', hh', r') ->
  av_label <$> r_assertion_validations r'
  = (av_label <$> r_assertion_validations r) ++ (label <$> l).
Proof.
  induction l as [|a l IH]; intros ha hh r ha' hh' r' H; simpl in H.
  - simplify_eq. by rewrite app_nil_r.
  - destruct (String.eqb (label a) "c2pa.actions") eqn:Ea.
    + destruct (_validate_actions_assertion a) as [v|e] eqn:Hv; [|discriminate].
      apply IH in H. rewrite H. simpl. rewrite fmap_app. simpl.
      apply _validate_actions_assertion_label in Hv. apply String.eqb_eq in Ea.
      rewrite Hv, Ea. by rewrite <- app_assoc.
    + destruct (String.eqb (label a) "c2pa.hash.data") eqn:Eh; apply IH in H;
        rewrite H; simpl; rewrite fmap_app; simpl; rewrite <- app_assoc; [|done].
      apply String.eqb_eq in Eh. by rewrite _validate_hash_assertion_label, Eh.
Qed.

Lemma _validate_structure_validations m r :
  r_assertion_validations (_validate_structure m r).2 = r_assertion_validations r.
Proof. unfold _validate_structure. by repeat (case_match; simplify_eq/=). Qed.

Lemma _validate_signature_validations sha3_256 sha3_512 self m r :
  r_assertion_validations (_validate_signature sha3_256 sha3_512 self m r).2
  = r_assertion_validations r.
Proof. unfold _validate_signature. by repeat (case_match; simplify_eq/=). Qed.

Lemma _validate_certificate_trust_validations self m r :
  r_assertion_validations (_validate_certificate_trust self m r).2
  = r_assertion_validations r.
Proof. unfold _validate_certificate_trust. by repeat (case_match; simplify_eq/=). Qed.

(** What [validate] hands on of the report of the assertion stage. *)
Lemma validate_assertion_stage sha3_256 sha3_512 coerce_bool validation_error self now m strict
    res :
  validate sha3_256 sha3_512 coerce_bool validation_error self now m strict = Ok res ->
  exists structure_valid r0 assertions_valid r1 r2,
    _validate_structure m empty_report = (structure_valid, r0) ∧
    _validate_assertions m r0 = Ok (assertions_valid, r1) ∧
    r2 = match signature m with
         | Some _ =>
             (_validate_certificate_trust self m
                (_validate_signature sha3_256 sha3_512 self m r1).2).2
         | None => append_issue (error_issue "NO_SIGNATURE" "Manifest is not signed") r1
         end ∧
    assertions_verified res = r_assertion_validations r2 ∧
    warnings res = r_warnings r2 ∧
    chain_complete res = found (get_assertion m "c2pa.actions").
Proof.
  unfold validate. intros H.
  destruct (_validate_structure m empty_report) as [structure_valid r0] eqn:H0.
  destruct (_validate_assertions m r0) as [[assertions_valid r1]|e] eqn:H1;
    [|discriminate].
  cbn [mbind result_bind] in H.
  exists structure_valid, r0, assertions_valid, r1.
  unfold _validate_chain_of_custody in H.
  destruct (signature m) as [sg|].
  - destruct (_validate_signature sha3_256 sha3_512 self m r1) as [sv r2] eqn:H2.
    destruct (_validate_certificate_trust self m r2) as [ct r3] eqn:H3.
    destruct (get_assertion m "c2pa.actions");
      (destruct (_check_organizational_compliance m) as [record|]; [|discriminate]);
      cbn [mbind result_bind] in H;
      (destruct (validate_compliance _ _ record); [|discriminate]);
      simplify_eq/=; exists r3; by rewrite H3.
  - destruct (get_assertion m "c2pa.actions");
      (destruct (_check_organizational_compliance m) as [record|]; [|discriminate]);
      cbn [mbind result_bind] in H;
      (destruct (validate_compliance _ _ record); [|discriminate]);
      simplify_eq/=; by eexists.
Qed.

(** X6. The per-assertion report of [validate] has one entry for each
    assertion of the manifest, in the order of the manifest and under the
    label of the assertion. *)
Theorem assertions_reported_in_order :
  forall sha3_256 sha3_512 coerce_bool validation_error self now m strict res,
    validate sha3_256 sha3_512 coerce_bool validation_error self now m strict = Ok res ->
    av_label <$> assertions_verified res = label <$> assertions m.
Proof.
  intros sha3_256 sha3_512 coerce_bool validation_error self now m strict res H.
  apply validate_assertion_stage in H
    as (sv & r0 & av & r1 & r2 & H0 & H1 & -> & -> & _).
  assert (r_assertion_validations r0 = []) as Hr0.
  { pose proof (_validate_structure_validations m empty_report) as Hs.
    by rewrite H0 in Hs. }
  assert (av_label <$> r_assertion_validations r1 = label <$> assertions m) as Hr1.
  { unfold _validate_assertions in H1.
    destruct (assertions m) as [|a l] eqn:Ha.
    - simplify_eq/=. by rewrite Hr0.
    - destruct (assertions_loop (a :: l) false false r0) as [[[ha hh] r']|e] eqn:Hloop;
        [|discriminate].
      apply assertions_loop_labels in Hloop. rewrite Hr0 in Hloop.
      cbn in H1. destruct ha, hh; by simplify_eq/=. }
  destruct (signature m); simpl;
    by rewrite ?_validate_certificate_trust_validations, ?_validate_signature_validations.
Qed.

Lemma assertions_reported_in_order_witness :
  exists res,
    validate toy_digest toy_digest strict_bool refusal_text no_validator (Datetime 0)
      unhashed_manifest false = Ok res ∧
    av_label <$> assertions_verified res = ["c2pa.actions"].
Proof.
  eexists. split; [vm_compute; reflexivity|].
  apply (assertions_reported_in_order toy_digest toy_digest strict_bool refusal_text
           no_validator (Datetime 0)
           unhashed_manifest false).
  vm_compute. reflexivity.
Defined.

(** X7. The trust level never is HIGH_ASSURANCE, and it follows the
    evidence: a run with at least the signature, certificate and chain
    evidence of another and no more issues gets at least its level. *)
Theorem trust_level_monotone :
  forall sv sv' ct ct' cc cc' n n',
    (sv = true -> sv' = true) -> (ct = true -> ct' = true) -> (cc = true -> cc' = true) ->
    n' <= n ->
    level_rank (_determine_trust_level sv ct cc n)
    <= level_rank (_determine_trust_level sv' ct' cc' n') ∧
    _determine_trust_level sv ct cc n ≠ HIGH_ASSURANCE.
Proof.
  intros sv sv' ct ct' cc cc' n n' Hs Hc Hh Hn. unfold _determine_trust_level.
  assert (implb sv sv' = true) as Is by (destruct sv, sv'; auto).
  assert (implb ct ct' = true) as Ic by (destruct ct, ct'; auto).
  assert (implb cc cc' = true) as Ih by (destruct cc, cc'; auto).
  clear Hs Hc Hh.
  destruct n as [|n], n' as [|n']; [|lia| |];
    destruct sv, sv', ct, ct', cc, cc'; simpl in *; try discriminate;
    (split; [lia|done]).
Qed.

Lemma trust_level_monotone_witness :
  level_rank (_determine_trust_level true false false 1)
  <= level_rank (_determine_trust_level true true true 0) ∧
  _determine_trust_level true false false 1 ≠ HIGH_ASSURANCE.
Proof.
  apply (trust_level_monotone true true false true false true 1 0);
    [reflexivity | reflexivity | reflexivity | lia].
Defined.

(** X8. [validate] returns a result exactly when the payload of every
    [c2pa.actions] assertion can be checked, the compliance record can be
    computed, and every value of the record passes the validation of the
    [bool] values of the result record; the other stages never make it
    raise.  The check of an action-history payload raises only for a dict
    payload whose [actions] value is true and has no length. *)
Theorem validate_returns_exactly_when :
  forall sha3_256 sha3_512 coerce_bool validation_error self now m strict,
    (is_ok (validate sha3_256 sha3_512 coerce_bool validation_error self now m strict) = true
     <->
     Forall (fun a => label a = "c2pa.actions" ->
                      is_ok (_validate_actions_assertion a) = true) (assertions m) ∧
     exists record,
       _check_organizational_compliance m = Ok record ∧
       Forall (fun kv => is_Some (coerce_bool kv.2)) record) ∧
    (forall a,
       is_ok (_validate_actions_assertion a) = false <->
       exists d v, data a = DictData d ∧ dict_get "actions" d = Some v ∧
                   py_truthy v = true ∧ is_ok (py_len v) = false).
Proof.
  intros sha3_256 sha3_512 coerce_bool validation_error self now m strict.
  split; [apply validate_returns_iff|].
  intros a. apply _validate_actions_assertion_raises.
Qed.

Lemma validate_returns_exactly_when_witness :
  is_ok (validate toy_digest toy_digest strict_bool refusal_text no_validator (Datetime 0)
           acme_manifest false) = true ∧
  is_ok (validate toy_digest toy_digest strict_bool refusal_text no_validator (Datetime 0)
           maybe_manifest false) = false.
Proof.
  split.
  - apply (proj1 (validate_returns_exactly_when toy_digest toy_digest strict_bool
                    refusal_text no_validator (Datetime 0) acme_manifest false)).
    split.
    + apply Forall_cons_2; [intros Hc; discriminate Hc|apply Forall_nil_2].
    + exists []. split; [reflexivity|apply Forall_nil_2].
  - destruct (is_ok (validate toy_digest toy_digest strict_bool refusal_text no_validator
                       (Datetime 0) maybe_manifest false)) eqn:E; [|reflexivity].
    apply (proj1 (validate_returns_exactly_when toy_digest toy_digest strict_bool
                    refusal_text no_validator (Datetime 0) maybe_manifest false))
      in E as [_ (record & Hr & HF)].
    vm_compute in Hr. injection Hr as <-.
    apply Forall_cons in HF as [[b Hb] _]. discriminate Hb.
Defined.

(** X9. No run of [validate] accepts a manifest: the result says that the
    signature is not valid and the manifest not valid, the trust level is
    INVALID, and among the issues is NO_SIGNATURE or
    SIGNATURE_VERIFICATION_ERROR. *)
Theorem validate_never_accepts :
  forall sha3_256 sha3_512 coerce_bool validation_error self now m strict res,
    validate sha3_256 sha3_512 coerce_bool validation_error self now m strict = Ok res ->
    signature_valid res = false ∧ valid res = false ∧ trust_level res = INVALID ∧
    Exists signature_issue (issues res).
Proof.
  intros sha3_256 sha3_512 coerce_bool validation_error self now m strict res H.
  destruct (validate_never_trusts _ _ _ _ _ _ _ _ _ H) as (Hs & Hv & Ht).
  repeat (split; [done|]).
  apply validate_stages in H
    as (sv & av & r0 & r1 & r2 & _ & _ & H2 & _ & -> & _).
  destruct (signature m) as [sg|] eqn:Hsg.
  - injection H2 as _ _ <-. rewrite _validate_certificate_trust_issues.
    unfold _validate_signature. rewrite Hsg.
    destruct (verify_signed_raises sha3_256 sha3_512 (Signer_new (alg sg)) m sg Hsg)
      as (msg & ->).
    simpl. apply Exists_app. right. left. by right.
  - injection H2 as _ _ <-. simpl. apply Exists_app. right. left. by left.
Qed.

Lemma validate_never_accepts_witness :
  exists res,
    validate toy_digest toy_digest strict_bool refusal_text no_validator (Datetime 0)
      acme_manifest false = Ok res ∧
    signature_valid res = false ∧ valid res = false ∧ trust_level res = INVALID ∧
    Exists signature_issue (issues res).
Proof.
  eexists. split; [vm_compute; reflexivity|].
  apply (validate_never_accepts toy_digest toy_digest strict_bool refusal_text
           no_validator (Datetime 0)
           acme_manifest false).
  vm_compute. reflexivity.
Defined.

(** ** The compliance record and the chain of custody *)

Lemma any_step_approved_spec steps : forall b,
  any_step_approved steps = Ok b -> (b = true <-> Exists step_approved steps).
Proof.
  induction steps as [|step rest IH]; intros b H; simpl in H.
  - injection H as <-. split; [done|]. by inversion 1.
  - destruct (py_get step "status" PNone) as [status|e] eqn:Hs; [|discriminate].
    cbn in H. destruct (py_eq_str status "approved") eqn:He.
    + injection H as <-. split; [|done]. intros _. left. by exists status.
    + apply IH in H. rewrite H. split; [by right|].
      inversion 1 as [? ? (status' & Hs' & He')|]; [|done]. congruence.
Qed.

(** X10. The compliance record [validate] reports is empty when the
    manifest has no workflow assertion with a dict payload.  Otherwise it
    has the five keys of the record, in their order, and
    [workflow_approved] is true exactly when some step of the approval
    chain has the status [approved]. *)
Theorem compliance_record_of_workflow :
  forall m,
    (workflow_payload m = None -> _check_organizational_compliance m = Ok []) ∧
    (forall d record,
       workflow_payload m = Some d ->
       _check_organizational_compliance m = Ok record ->
       record.*1 = compliance_keys ∧
       exists steps,
         py_iter (default (PList []) (dict_get "approval_chain" d)) = Ok steps ∧
         (dict_get "workflow_approved" record = Some (PBool true) <->
          Exists step_approved steps)).
Proof.
  intros m. unfold workflow_payload, _check_organizational_compliance.
  destruct (get_assertion m "org.enterprise.workflow") as [[lbl [d|l] iid]|];
    (split; [try done|]); intros d' record Hd H; try discriminate.
  injection Hd as <-.
  destruct (py_get _ "pdpa_approved" _) as [pdpa|]; [|discriminate].
  destruct (py_get _ "trademark_cleared" _) as [trademark|]; [|discriminate].
  destruct (py_get _ "legal_review" _) as [legal|]; [|discriminate].
  cbn [mbind result_bind] in H.
  destruct (py_iter _) as [steps|]; [|discriminate].
  cbn [mbind result_bind] in H.
  destruct (any_step_approved steps) as [approved|] eqn:Ha; [|discriminate].
  cbn [mbind result_bind] in H.
  destruct (py_get _ "department" _) as [department|]; [|discriminate].
  injection H as <-. split; [reflexivity|].
  exists steps. split; [done|].
  rewrite <- (any_step_approved_spec steps approved Ha). simpl.
  split; [by intros [= ->]|by intros ->].
Qed.

Lemma compliance_record_of_workflow_witness :
  _check_organizational_compliance acme_manifest = Ok [].
Proof. apply (proj1 (compliance_record_of_workflow acme_manifest)). reflexivity. Defined.

Lemma _validate_structure_warnings m :
  Forall (fun w => ¬ actions_warning w) (r_warnings (_validate_structure m empty_report).2).
Proof.
  unfold _validate_structure.
  repeat (case_match; simplify_eq/=); repeat constructor; intros [Hc|Hc]; discriminate Hc.
Qed.

Lemma _validate_assertions_warnings m r av r1 :
  _validate_assertions m r = Ok (av, r1) ->
  exists ws, r_warnings r1 = r_warnings r ++ ws ∧
             (Exists actions_warning ws <-> found (get_assertion m "c2pa.actions") = false).
Proof.
  unfold _validate_assertions, get_assertion. intros H.
  destruct (assertions m) as [|a l] eqn:Ha.
  - injection H as _ <-. eexists. split; [reflexivity|].
    split; [done|]. intros _. left. by left.
  - destruct (assertions_loop (a :: l) false false r) as [[[ha hh] r']|e] eqn:Hloop;
      [|discriminate].
    apply assertions_loop_flags in Hloop as (-> & -> & Hi & Hw).
    cbn [mbind result_bind] in H. rewrite !orb_false_l in H.
    destruct (found (find_assertion "c2pa.actions" (a :: l))) eqn:Hf; simpl in H.
    + exists []. split.
      * rewrite app_nil_r, <- Hw. by destruct (negb _); injection H as _ <-.
      * split; [by inversion 1|done].
    + eexists. split.
      * destruct (negb _); injection H as _ <-; simpl; by rewrite Hw.
      * split; [done|]. intros _. left. by right.
Qed.

Lemma _validate_signature_warnings sha3_256 sha3_512 self m r :
  r_warnings (_validate_signature sha3_256 sha3_512 self m r).2 = r_warnings r.
Proof. unfold _validate_signature. by repeat (case_match; simplify_eq/=). Qed.

Lemma _validate_certificate_trust_warnings self m r :
  exists ws, r_warnings (_validate_certificate_trust self m r).2 = r_warnings r ++ ws ∧
             Forall (fun w => ¬ actions_warning w) ws.
Proof.
  unfold _validate_certificate_trust.
  repeat (case_match; simplify_eq/=);
    first [ exists []; split; [by rewrite app_nil_r|constructor]
          | eexists; split; [reflexivity|];
            repeat constructor; intros [Hc|Hc]; discriminate Hc ].
Qed.

Lemma Forall_not_Exists {A} (P : A -> Prop) l : Forall (fun x => ¬ P x) l -> ¬ Exists P l.
Proof. induction 1; inversion 1; auto. Qed.

(** X11. In a result of [validate] the chain of custody is complete
    exactly when the manifest has a [c2pa.actions] assertion, and it is
    incomplete exactly when one of the warnings NO_ASSERTIONS and
    MISSING_ACTIONS_ASSERTION is among the warnings. *)
Theorem chain_of_custody_reported :
  forall sha3_256 sha3_512 coerce_bool validation_error self now m strict res,
    validate sha3_256 sha3_512 coerce_bool validation_error self now m strict = Ok res ->
    chain_complete res = found (get_assertion m "c2pa.actions") ∧
    (chain_complete res = false <-> Exists actions_warning (warnings res)).
Proof.
  intros sha3_256 sha3_512 coerce_bool validation_error self now m strict res H.
  apply validate_assertion_stage in H
    as (sv & r0 & av & r1 & r2 & H0 & H1 & -> & _ & -> & ->).
  split; [done|].
  pose proof (_validate_structure_warnings m) as W0. rewrite H0 in W0. simpl in W0.
  apply _validate_assertions_warnings in H1 as (ws & W1 & <-).
  assert (exists ws', r_warnings
            match signature m with
            | Some _ =>
                (_validate_certificate_trust self m
                   (_validate_signature sha3_256 sha3_512 self m r1).2).2
            | None => append_issue (error_issue "NO_SIGNATURE" "Manifest is not signed") r1
            end = r_warnings r1 ++ ws' ∧ Forall (fun w => ¬ actions_warning w) ws')
    as (ws' & -> & W2).
  { destruct (signature m).
    - destruct (_validate_certificate_trust_warnings self m
                  (_validate_signature sha3_256 sha3_512 self m r1).2) as (ws' & -> & W).
      exists ws'. by rewrite _validate_signature_warnings.
    - exists []. split; [by rewrite app_nil_r|constructor]. }
  rewrite W1, !Exists_app.
  apply Forall_not_Exists in W0, W2. tauto.
Qed.

Lemma chain_of_custody_reported_witness :
  exists res,
    validate toy_digest toy_digest strict_bool refusal_text no_validator (Datetime 0)
      acme_manifest false = Ok res ∧
    chain_complete res = false ∧ Exists actions_warning (warnings res).
Proof.
  eexists. split; [vm_compute; reflexivity|].
  destruct (chain_of_custody_reported toy_digest toy_digest strict_bool refusal_text
           no_validator (Datetime 0)
              acme_manifest false _ eq_refl) as [Hc Hw].
  split; [exact Hc|]. apply Hw. exact Hc.
Defined.

(** ** Rules of the policy engine *)

(** X12. The two assertion rules are complementary: for a rule with a
    label, the required-assertion check is clean exactly when the manifest
    has an assertion under the label and the forbidden-assertion check
    exactly when it has none, so one of the two yields a violation; a rule
    without a label, or with the empty label, is clean under both. *)
Theorem assertion_rules_complementary :
  forall m rule,
    (opt_str (assertion_label rule) = false ->
     _check_required_assertion m rule = [] ∧ _check_forbidden_assertion m rule = []) ∧
    (forall lbl,
       assertion_label rule = Some lbl -> str_truthy lbl = true ->
       (_check_required_assertion m rule = [] <-> found (get_assertion m lbl) = true) ∧
       (_check_forbidden_assertion m rule = [] <-> found (get_assertion m lbl) = false) ∧
       length (_check_required_assertion m rule ++ _check_forbidden_assertion m rule) = 1).
Proof.
  intros m rule. unfold _check_required_assertion, _check_forbidden_assertion. split.
  - intros H. destruct (assertion_label rule) as [lbl|]; [|done].
    simpl in H. by rewrite H.
  - intros lbl -> ->. simpl. by destruct (get_assertion m lbl).
Qed.

Section PolicyFurther.

Variable class_attribute : string -> bool.
Variable attr_in : attr_value -> list pyval -> bool.
Variable attr_lt : attr_value -> pyval -> result bool.
Variable attr_gt : attr_value -> pyval -> result bool.
Variable attr_str : attr_value -> string.
Variable py_format : pyval -> string.
Variable coerce_str : pyval -> result string.

(** X13. A field that is absent is flagged once by a required-field rule,
    and by no value constraint, whatever its bounds.  The fields every
    manifest has are never flagged by a required-field rule, be they
    empty. *)
Theorem absent_field_flagged_once :
  forall m rule path,
    field_path rule = Some path -> str_truthy path = true ->
    (manifest_getattr class_attribute m path = AttrNone ->
     (exists v, _check_required_field class_attribute m rule = [v] ∧
                severity v = rule_severity rule ∧ location v = Some path) ∧
     _check_value_constraint class_attribute attr_in attr_lt attr_gt attr_str py_format m rule
     = Ok []) ∧
    (manifest_getattr class_attribute m path ≠ AttrNone ->
     _check_required_field class_attribute m rule = []) ∧
    (path ∈ ["claim_generator"; "format"; "instance_id"; "assertions"; "created_at"] ->
     _check_required_field class_attribute m rule = []).
Proof.
  intros m rule path Hp Ht.
  unfold _check_required_field, _check_value_constraint. rewrite Hp, Ht. simpl.
  split; [|split].
  - intros ->. split; [|done]. by eexists.
  - intros H. by destruct (manifest_getattr class_attribute m path).
  - intros H. repeat (apply elem_of_cons in H as [->|H]; [done|]).
    by apply elem_of_nil in H.
Qed.

Lemma _evaluate_rule_engine self self' m rule :
  custom_functions self = custom_functions self' ->
  _evaluate_rule class_attribute attr_in attr_lt attr_gt attr_str py_format coerce_str
    self m rule
  = _evaluate_rule class_attribute attr_in attr_lt attr_gt attr_str py_format coerce_str
      self' m rule.
Proof.
  intros H. unfold _evaluate_rule, _check_custom_function. by rewrite H.
Qed.

Lemma rules_loop_engine self self' m rs : forall acc,
  custom_functions self = custom_functions self' ->
  rules_loop class_attribute attr_in attr_lt attr_gt attr_str py_format coerce_str
    self m rs acc
  = rules_loop class_attribute attr_in attr_lt attr_gt attr_str py_format coerce_str
      self' m rs acc.
Proof.
  induction rs as [|rule rs IH]; intros acc H; simpl; [done|].
  destruct (enabled rule); simpl; [|by apply IH].
  rewrite (_evaluate_rule_engine self self' m rule H).
  destruct (_evaluate_rule _ _ _ _ _ _ _ self' m rule); cbn; [by apply IH|done].
Qed.

(** X14. [evaluate] raises [ValueError] for a name under which no policy
    is kept.  After [add_policy] the policy is the one evaluated under its
    name, replacing what was kept there, and evaluation under any other
    name is as before. *)
Theorem added_policy_is_evaluated :
  forall self now m p name,
    (policies self !! name = None ->
     evaluate class_attribute attr_in attr_lt attr_gt attr_str py_format coerce_str
       self now m name = Raise (ValueError ("Policy not found: " +:+ name))) ∧
    (name ≠ policy_name p ->
     evaluate class_attribute attr_in attr_lt attr_gt attr_str py_format coerce_str
       (add_policy self p) now m name
     = evaluate class_attribute attr_in attr_lt attr_gt attr_str py_format coerce_str
         self now m name) ∧
    (forall res,
       evaluate class_attribute attr_in attr_lt attr_gt attr_str py_format coerce_str
         (add_policy self p) now m (policy_name p) = Ok res <->
       exists vs,
         rules_loop class_attribute attr_in attr_lt attr_gt attr_str py_format coerce_str
           self m (rules p) [] = Ok vs ∧
         res = {| result_manifest_id := instance_id m;
                  result_policy_name := policy_name p;
                  passed := negb (existsb (fun v => bool_decide (severity v = ERROR)) vs);
                  violations := vs;
                  evaluated_at := now |}).
Proof.
  intros self now m p name. unfold evaluate. split; [by intros ->|]. split.
  - intros Hne. simpl. rewrite lookup_insert_ne by done.
    destruct (policies self !! name) as [policy|]; [|done].
    by rewrite (rules_loop_engine (add_policy self p) self).
  - intros res. simpl. rewrite lookup_insert_eq.
    rewrite (rules_loop_engine (add_policy self p) self) by done.
    destruct (rules_loop _ _ _ _ _ _ _ self m (rules p) []) as [vs|e]; cbn.
    + split; [intros [= <-]; by eexists|]. by intros (vs' & [= <-] & ->).
    + split; [done|]. by intros (vs' & ? & _).
Qed.

(** X15. A predicate registered under the name a custom rule gives
    decides the rule: the check is clean exactly when the predicate
    returns a true object, and a false object yields one violation of the
    severity of the rule.  Registering changes no policy. *)
Theorem registered_predicate_decides :
  forall self m rule fname func,
    custom_function rule = Some fname -> str_truthy fname = true ->
    (_check_custom_function (register_custom_function self fname func) m rule = [] <->
     exists v, func m = Ok v ∧ py_truthy v = true) ∧
    (forall v, func m = Ok v -> py_truthy v = false ->
       exists viol,
         _check_custom_function (register_custom_function self fname func) m rule = [viol] ∧
         severity viol = rule_severity rule) ∧
    policies (register_custom_function self fname func) = policies self.
Proof using Type.
  intros self m rule fname func Hf Ht.
  unfold _check_custom_function. rewrite Hf, Ht. simpl. rewrite lookup_insert_eq.
  split; [|split; [|done]].
  - destruct (func m) as [v|e]; [|split; [done|by intros (? & ? & _)]].
    destruct (py_truthy v) eqn:Hv; simpl.
    + split; [|done]. intros _. by exists v.
    + split; [done|]. intros (v' & [= <-] & Hv'). congruence.
  - intros v -> ->. simpl. by eexists.
Qed.

Lemma violation_of_plain rule msg loc :
  violation_of rule (plain_violation rule (rule_severity rule) msg loc).
Proof. split; [done|by left]. Qed.

Ltac violation_goal :=
  first [ apply violation_of_plain
        | split; [reflexivity|];
          first [ left; reflexivity | right; split; [assumption|reflexivity] ] ].

Ltac violations_goal :=
  repeat first [ apply Forall_nil_2
               | apply Forall_cons_2; [violation_goal|]
               | apply Forall_app_2 ].

Lemma _evaluate_rule_violations self m rule vs :
  _evaluate_rule class_attribute attr_in attr_lt attr_gt attr_str py_format coerce_str
    self m rule = Ok vs ->
  Forall (violation_of rule) vs.
Proof.
  unfold _evaluate_rule. intros H.
  destruct (rule_type rule) eqn:Hty.
  - injection H as <-. unfold _check_required_assertion.
    repeat case_match; violations_goal.
  - injection H as <-. unfold _check_forbidden_assertion.
    repeat case_match; violations_goal.
  - injection H as <-. unfold _check_required_field.
    repeat case_match; violations_goal.
  - unfold _check_value_constraint in H.
    destruct (field_path rule) as [path|]; [|injection H as <-; constructor].
    destruct (negb (str_truthy path)); [injection H as <-; constructor|].
    assert (forall value,
              (let violations := [] in
               let violations :=
                 match allowed_values rule with
                 | Some ((_ :: _) as allowed) =>
                     if negb (attr_in value allowed) then
                       violations ++
                         [constraint_violation attr_str rule path "has invalid value"
                            ("one of " +:+ py_format (PList allowed)) value]
                     else violations
                 | _ => violations
                 end in
               below ← (if is_none (min_value rule) then Ok false
                         else attr_lt value (min_value rule));
               let violations :=
                 if below : bool then
                   violations ++
                     [constraint_violation attr_str rule path "below minimum"
                        (">= " +:+ py_format (min_value rule)) value]
                 else violations in
               above ← (if is_none (max_value rule) then Ok false
                         else attr_gt value (max_value rule));
               let violations :=
                 if above : bool then
                   violations ++
                     [constraint_violation attr_str rule path "above maximum"
                        ("<= " +:+ py_format (max_value rule)) value]
                 else violations in
               Ok violations) = Ok vs -> Forall (violation_of rule) vs) as Hgen.
    { intros value Hv. cbn zeta in Hv.
      destruct (if is_none (min_value rule) then Ok false else attr_lt value (min_value rule))
        as [below|]; [|discriminate].
      cbn [mbind result_bind] in Hv.
      destruct (if is_none (max_value rule) then Ok false else attr_gt value (max_value rule))
        as [above|]; [|discriminate].
      cbn [mbind result_bind] in Hv. injection Hv as <-.
      destruct above, below, (allowed_values rule) as [[|x allowed]|];
        try destruct (negb (attr_in value (x :: allowed))); violations_goal. }
    destruct (manifest_getattr class_attribute m path);
      first [ injection H as <-; constructor | by apply Hgen in H ].
  - unfold _check_classification_constraint in H.
    destruct (get_assertion m "org.enterprise.workflow") as [[lbl [d|l] iid]|];
      try (injection H as <-; violations_goal).
    destruct (negb (py_truthy _)); [injection H as <-; violations_goal|].
    destruct (classification_levels rule) as [[|x levels]|];
      try (injection H as <-; violations_goal).
    destruct (negb (existsb _ _)); [|injection H as <-; violations_goal].
    destruct (coerce_str _); [|discriminate]. injection H as <-. violations_goal.
  - injection H as <-. unfold _check_custom_function.
    repeat case_match; violations_goal.
Qed.

(** X16. Every violation [evaluate] reports carries the name of an
    enabled rule of the policy and the severity of that rule, or ERROR
    when the rule is a custom one.  So a policy whose enabled rules are
    neither of error severity nor custom passes whenever it is
    evaluated. *)
Theorem violations_name_enabled_rules :
  forall self now m name res,
    evaluate class_attribute attr_in attr_lt attr_gt attr_str py_format coerce_str
      self now m name = Ok res ->
    exists policy,
      policies self !! name = Some policy ∧
      (forall v, v ∈ violations res ->
         exists rule, rule ∈ rules policy ∧ enabled rule = true ∧ violation_of rule v) ∧
      (Forall (fun rule => enabled rule = true ->
                           rule_severity rule ≠ ERROR ∧ rule_type rule ≠ CUSTOM_FUNCTION)
         (rules policy) ->
       passed res = true).
Proof.
  intros self now m name res H. unfold evaluate in H.
  destruct (policies self !! name) as [policy|] eqn:Hp; [|discriminate].
  destruct (rules_loop _ _ _ _ _ _ _ self m (rules policy) []) as [vs|e] eqn:Hl;
    [|discriminate].
  injection H as <-. simpl. exists policy. split; [done|].
  apply rules_loop_accumulates in Hl as (vss & HF & ->). simpl.
  assert (forall v, v ∈ concat vss ->
            exists rule, rule ∈ rules policy ∧ enabled rule = true ∧ violation_of rule v)
    as Hsrc.
  { intros v Hv. apply list_elem_of_In, in_concat in Hv as (vs' & Hvs & Hv).
    apply list_elem_of_In in Hvs, Hv.
    assert (exists rule, rule ∈ filter (fun rule => enabled rule) (rules policy) ∧
                         _evaluate_rule class_attribute attr_in attr_lt attr_gt attr_str
                           py_format coerce_str self m rule = Ok vs')
      as (rule & Hr & He).
    { clear -HF Hvs. induction HF as [|rule vs0 rs vss Hhd HF IH].
      - by apply elem_of_nil in Hvs.
      - apply elem_of_cons in Hvs as [->|Hvs].
        + exists rule. split; [by left|done].
        + destruct (IH Hvs) as (rule' & Hr & He). exists rule'. split; [by right|done]. }
    apply list_elem_of_filter in Hr as [Hen Hr].
    exists rule. split; [done|]. split; [by destruct (enabled rule)|].
    apply _evaluate_rule_violations in He.
    by apply (proj1 (Forall_forall _ _) He). }
  split; [done|].
  intros Hall. apply passed_iff_no_error. intros v Hv Herr.
  destruct (Hsrc v Hv) as (rule & Hr & Hen & _ & Hsev).
  destruct (proj1 (Forall_forall _ _) Hall rule Hr Hen) as [Hs Hty].
  destruct Hsev as [Hsev|[Hc _]]; congruence.
Qed.

Lemma classification_in_levels c levels :
  existsb (py_eq_str (PStr (ClassificationLevel_value c))) (ClassificationLevel_value <$> levels)
  = true <-> c ∈ levels.
Proof.
  induction levels as [|x levels IH]; simpl.
  - split; [done|]. by intros ?%elem_of_nil.
  - rewrite orb_true_iff, IH, elem_of_cons.
    assert (String.eqb (ClassificationLevel_value c) (ClassificationLevel_value x) = true
            <-> c = x) as ->; [|done].
    destruct c, x; vm_compute; split; congruence.
Qed.

(** X17. On a manifest whose workflow assertion is one the builder made
    for a classification, a classification rule is clean exactly when it
    names no level or names that classification.  On a manifest without a
    workflow payload it yields a violation, whatever levels it names. *)
Theorem classification_rule_on_built_workflow :
  forall uuid now wid cid cname c dept proj m rule,
    (get_assertion m "org.enterprise.workflow"
     = Some (build_workflow_assertion uuid now wid cid cname c dept proj) ->
     (_check_classification_constraint coerce_str m rule = Ok [] <->
      match classification_levels rule with
      | Some (x :: levels) => c ∈ x :: levels
      | _ => True
      end)) ∧
    (workflow_payload m = None ->
     exists v, _check_classification_constraint coerce_str m rule = Ok [v] ∧
               severity v = rule_severity rule).
Proof.
  intros uuid now wid cid cname c dept proj m rule.
  unfold _check_classification_constraint, workflow_payload. split.
  - intros ->. unfold build_workflow_assertion, Assertion_new.
    cbn [dict_get app String.eqb Ascii.eqb Bool.eqb from_option id].
    assert (py_truthy (PStr (ClassificationLevel_value c)) = true) as -> by by destruct c.
    cbn [negb].
    destruct (classification_levels rule) as [[|x levels]|]; [done| |done].
    rewrite <- classification_in_levels.
    destruct (existsb _ _); cbn [negb]; [done|].
    split; [|done]. by destruct (coerce_str _).
  - destruct (get_assertion m "org.enterprise.workflow") as [[lbl [d|l] iid]|];
      [done|..]; intros _; by eexists.
Qed.

Lemma classification_value_truthy v levels :
  existsb (py_eq_str v) (ClassificationLevel_value <$> levels) = true -> py_truthy v = true.
Proof.
  induction levels as [|y levels IH]; simpl; [done|].
  intros [H|H]%orb_true_iff; [|auto].
  destruct v; try done. simpl in H. apply String.eqb_eq in H as ->. by destruct y.
Qed.

Lemma classification_rule_clean m n d x levels vs :
  _check_classification_constraint coerce_str m (classification_rule n d (x :: levels)) = Ok vs ->
  (vs = [] <-> classified m (x :: levels)) ∧ Forall (fun v => severity v = ERROR) vs.
Proof.
  unfold _check_classification_constraint, classified, workflow_payload. intros H.
  destruct (get_assertion m "org.enterprise.workflow") as [[lbl [dt|l] iid]|].
  - destruct (py_truthy (default PNone (dict_get "classification" dt))) eqn:Ht;
      cbn [negb] in H.
    + cbn [classification_levels classification_rule] in H.
      destruct (existsb _ (ClassificationLevel_value <$> x :: levels)) eqn:He;
        cbn [negb] in H.
      * injection H as <-. split; [|constructor]. split; [|done]. intros _. by exists dt.
      * destruct (coerce_str _); [|discriminate]. injection H as <-.
        split; [|by repeat constructor]. split; [done|].
        intros (d' & [= <-] & He'). congruence.
    + injection H as <-. split; [|by repeat constructor]. split; [done|].
      intros (d' & [= <-] & He').
      apply classification_value_truthy in He'. congruence.
  - injection H as <-. split; [|by repeat constructor]. split; [done|].
    by intros (d' & ? & _).
  - injection H as <-. split; [|by repeat constructor]. split; [done|].
    by intros (d' & ? & _).
Qed.

Lemma three_rule_policy self m n1 d1 l1 n2 d2 l2 n3 d3 x levels vs :
  str_truthy l1 = true -> str_truthy l2 = true ->
  rules_loop class_attribute attr_in attr_lt attr_gt attr_str py_format coerce_str self m
    [required_assertion_rule n1 d1 l1; required_assertion_rule n2 d2 l2;
     classification_rule n3 d3 (x :: levels)] [] = Ok vs ->
  (negb (existsb (fun v => bool_decide (severity v = ERROR)) vs) = true <->
   found (get_assertion m l1) = true ∧ found (get_assertion m l2) = true ∧
   classified m (x :: levels)).
Proof.
  intros H1 H2 H.
  cbn [rules_loop enabled required_assertion_rule classification_rule negb
       _evaluate_rule rule_type mbind result_bind app] in H.
  unfold _check_required_assertion in H.
  cbn [assertion_label required_assertion_rule] in H. rewrite H1, H2 in H.
  cbn [negb] in H.
  change {| rule_name := n3; rule_description := d3; rule_type := CLASSIFICATION_CONSTRAINT;
            rule_severity := ERROR; enabled := true; assertion_label := None;
            field_path := None; required_value := PNone; allowed_values := None;
            min_value := PNone; max_value := PNone;
            classification_levels := Some (x :: levels); custom_function := None |}
    with (classification_rule n3 d3 (x :: levels)) in H.
  destruct (_check_classification_constraint coerce_str m _) as [vs3|] eqn:H3;
    [|by destruct (get_assertion m l1), (get_assertion m l2)].
  apply classification_rule_clean in H3 as [Hc Hs]. rewrite <- Hc.
  destruct (get_assertion m l1), (get_assertion m l2); cbn in H; injection H as <-;
    cbn; try (split; [done|by intros (? & ? & _)]).
  destruct vs3 as [|v vs3]; [done|].
  inversion Hs as [|? ? Hv _]; subst. cbn. rewrite Hv. cbn.
  split; [done|]. by intros (_ & _ & ?).
Qed.

(** X18. What the two policies a new engine holds ask of a manifest.
    When their evaluation returns a result, [legal_documents] passes
    exactly when the manifest has a content-hash assertion, an action
    history and a workflow payload classified confidential, secret or top
    secret; [marketing_content] exactly when it has a CreativeWork
    assertion and a workflow payload classified public. *)
Theorem default_policies_meaning :
  forall now m,
    (forall res,
       evaluate class_attribute attr_in attr_lt attr_gt attr_str py_format coerce_str
         PolicyEngine_new now m "legal_documents" = Ok res ->
       (passed res = true <->
        found (get_assertion m "c2pa.hash.data") = true ∧
        found (get_assertion m "c2pa.actions") = true ∧
        classified m [CONFIDENTIAL; SECRET; TOP_SECRET])) ∧
    (forall res,
       evaluate class_attribute attr_in attr_lt attr_gt attr_str py_format coerce_str
         PolicyEngine_new now m "marketing_content" = Ok res ->
       (passed res = true <->
        found (get_assertion m "stds.schema-org.CreativeWork") = true ∧
        classified m [PUBLIC])).
Proof.
  intros now m. unfold evaluate, PolicyEngine_new. cbn [policies]. split.
  - intros res. rewrite lookup_insert_eq.
    destruct (rules_loop _ _ _ _ _ _ _ _ m (rules legal_policy) []) as [vs|] eqn:Hl;
      [|discriminate].
    intros [= <-]. cbn [passed].
    by apply three_rule_policy in Hl.
  - intros res. rewrite lookup_insert_ne by done. rewrite lookup_insert_eq.
    destruct (rules_loop _ _ _ _ _ _ _ _ m (rules marketing_policy) []) as [vs|] eqn:Hl;
      [|discriminate].
    intros [= <-]. cbn [passed].
    apply three_rule_policy in Hl; [|done..]. rewrite Hl.
    split; [tauto|]. intros [Hc Hw]. split; [done|]. split; [|done].
    destruct Hw as (d & Hd & _). unfold workflow_payload in Hd.
    by destruct (get_assertion m "org.enterprise.workflow").
Qed.

End PolicyFurther.

Lemma absent_field_flagged_once_witness :
  exists v,
    _check_required_field no_class_attribute acme_manifest (required_field_rule WARNING "title")
    = [v] ∧
    severity v = WARNING ∧ location v = Some "title".
Proof.
  destruct (absent_field_flagged_once no_class_attribute never_in no_order no_order
              plain_attr_str plain_format acme_manifest
              (required_field_rule WARNING "title") "title" eq_refl eq_refl) as [H _].
  exact (proj1 (H eq_refl)).
Defined.

Lemma registered_predicate_decides_witness :
  _check_custom_function
    (register_custom_function PolicyEngine_new "has_title" (fun _ => Ok (PBool true)))
    acme_manifest (custom_rule INFO "has_title") = [].
Proof.
  apply (proj1 (registered_predicate_decides PolicyEngine_new acme_manifest
                  (custom_rule INFO "has_title") "has_title" (fun _ => Ok (PBool true))
                  eq_refl eq_refl)).
  exists (PBool true). split; reflexivity.
Defined.

Lemma violations_name_enabled_rules_witness :
  exists res policy,
    evaluate no_class_attribute never_in no_order no_order plain_attr_str plain_format
      plain_coerce PolicyEngine_new (Datetime 0) acme_manifest "legal_documents" = Ok res ∧
    policies PolicyEngine_new !! "legal_documents" = Some policy ∧
    (forall v, v ∈ violations res ->
       exists rule, rule ∈ rules policy ∧ enabled rule = true ∧ violation_of rule v).
Proof.
  eexists.
  destruct (violations_name_enabled_rules no_class_attribute never_in no_order no_order
              plain_attr_str plain_format plain_coerce PolicyEngine_new (Datetime 0)
              acme_manifest "legal_documents" _ eq_refl) as (policy & Hp & Hv & _).
  exists policy. split; [vm_compute; reflexivity|]. split; [exact Hp|exact Hv].
Defined.

(** ** Manifests, builders and the manifest creator *)

Lemma find_assertion_app lbl l a :
  find_assertion lbl (l ++ [a]) =
  match find_assertion lbl l with
  | Some x => Some x
  | None => if String.eqb (label a) lbl then Some a else None
  end.
Proof.
  induction l as [|x l IH]; simpl; [done|]. by destruct (String.eqb (label x) lbl).
Qed.

Lemma find_assertion_replace_first lbl new l :
  label new = lbl ->
  find_assertion lbl (replace_first lbl new l) =
  match find_assertion lbl l with Some _ => Some new | None => None end.
Proof.
  intros Hl. induction l as [|x l IH]; simpl; [done|].
  destruct (String.eqb (label x) lbl) eqn:E; simpl.
  - by rewrite Hl, String.eqb_refl.
  - by rewrite E.
Qed.

Lemma find_assertion_replace_first_ne lbl lbl' new l :
  label new = lbl -> lbl' ≠ lbl ->
  find_assertion lbl' (replace_first lbl new l) = find_assertion lbl' l.
Proof.
  intros Hl Hne. induction l as [|x l IH]; simpl; [done|].
  destruct (String.eqb (label x) lbl) eqn:E; simpl.
  - apply String.eqb_eq in E. rewrite Hl, E.
    by destruct (String.eqb lbl lbl') eqn:E'; [apply String.eqb_eq in E'|].
  - by destruct (String.eqb (label x) lbl').
Qed.



(** X19. The identifier of a constructed manifest starts with [xmp:iid:]
    or [uuid:], whatever identifier was given, and the validator of the
    field leaves it as it is.  So the structure stage records no warning
    for a constructed manifest, and it passes exactly when the claim
    generator and the format are not empty. *)
Theorem constructed_instance_id_wellformed :
  forall uuid now cg fmt iid ttl org tid r,
    let m := Manifest_new uuid now cg fmt iid ttl org tid in
    startswith "xmp:iid:" (instance_id m) || startswith "uuid:" (instance_id m) = true ∧
    validate_instance_id (instance_id m) = instance_id m ∧
    r_warnings (_validate_structure m r).2 = r_warnings r ∧
    ((_validate_structure m r).1 = true <-> cg ≠ EmptyString ∧ fmt ≠ EmptyString).
Proof.
  intros uuid now cg fmt iid ttl org tid r m.
  assert (startswith "xmp:iid:" (instance_id m) || startswith "uuid:" (instance_id m) = true)
    as P.
  { assert (forall v, startswith "xmp:iid:" ("xmp:iid:" +:+ v) = true) as Hpre.
    { intros v. unfold startswith. simpl. by destruct v. }
    subst m. cbn [instance_id Manifest_new].
    destruct iid as [v|]; [|by rewrite Hpre].
    unfold validate_instance_id.
    destruct (startswith "xmp:iid:" v || startswith "uuid:" v) eqn:E; [exact E|].
    cbn [negb]. by rewrite Hpre. }
  assert (str_truthy (instance_id m) = true) as T.
  { destruct (instance_id m); [discriminate P|reflexivity]. }
  split; [exact P|]. split; [unfold validate_instance_id; by rewrite P|].
  unfold _validate_structure. rewrite T, P.
  change (claim_generator m) with cg. change (format m) with fmt.
  unfold str_truthy.
  destruct (String.eqb_spec cg ""), (String.eqb_spec fmt ""); simpl; split; try done;
    split; try done; intros [? ?]; done.
Qed.

(** X20. After an assertion is added, [get_assertion] still finds under
    every label the assertion it found before; the new assertion is found
    only under a label that had none. *)
Theorem added_assertion_lookup :
  forall uuid now m lbl d a lbl',
    get_assertion (add_assertion uuid m lbl d) lbl' =
    match get_assertion m lbl' with
    | Some x => Some x
    | None => if String.eqb lbl lbl' then Some (Assertion_new uuid lbl d) else None
    end ∧
    get_assertion (ManifestCreator_add_assertion now m a) lbl' =
    match get_assertion m lbl' with
    | Some x => Some x
    | None => if String.eqb (label a) lbl' then Some a else None
    end.
Proof.
  intros. unfold get_assertion, add_assertion, ManifestCreator_add_assertion. simpl.
  by rewrite !find_assertion_app.
Qed.

(** X21. The assertions the builder makes are verified by the validator:
    one made by [build_actions_assertion] as an action history of one
    action, one made by [build_hash_assertion] as a content hash.  A
    manifest that holds the two passes the assertion stage with no issue
    and no warning. *)
Theorem built_assertions_verify :
  forall uuid uuid' now action software_agent digital_source_type parameters
         hash_algorithm hash_value m r,
    let actions := build_actions_assertion uuid now action software_agent
                     digital_source_type parameters in
    let hash := build_hash_assertion uuid' hash_algorithm hash_value in
    (exists v, _validate_actions_assertion actions = Ok v ∧ av_verified v = true ∧
               av_details v = Some [("action_count", PInt 1)]) ∧
    av_verified (_validate_hash_assertion hash) = true ∧
    (exists r', _validate_assertions (with_assertions m [actions; hash]) r = Ok (true, r') ∧
                r_issues r' = r_issues r ∧ r_warnings r' = r_warnings r ∧
                Forall (fun v => av_verified v = true)
                  (drop (length (r_assertion_validations r)) (r_assertion_validations r'))).
Proof.
  intros. split; [by eexists|]. split; [done|].
  eexists. split; [reflexivity|]. split; [done|]. split; [done|].
  simpl. rewrite <- !app_assoc, drop_app_length. by repeat constructor.
Qed.


Lemma organizational_context_dict department project :
  exists d,
    default (PDict []) (dict_get "organizational_context"
                          (organizational_context department project)) = PDict d.
Proof.
  unfold organizational_context.
  destruct (opt_str department || opt_str project); by eexists.
Qed.

Lemma get_assertion_replace_first m now lbl new :
  label new = lbl ->
  get_assertion
    (with_updated_at (with_assertions m (replace_first lbl new (assertions m))) now) lbl
  = match get_assertion m lbl with Some _ => Some new | None => None end.
Proof. intros H. unfold get_assertion. simpl. by apply find_assertion_replace_first. Qed.

(** X23. On a manifest whose workflow assertion the builder made,
    [add_approval] returns, and the compliance record the validator then
    computes says [workflow_approved] exactly when the status of the added
    step is [approved]; before the step is added it says that the
    workflow is not approved. *)
Theorem approval_decides_workflow_approved :
  forall uuid t wid cid cname c dept proj now_step now_update m
         approver_id approver_name role status comments,
    get_assertion m "org.enterprise.workflow"
    = Some (build_workflow_assertion uuid t wid cid cname c dept proj) ->
    (exists record,
       _check_organizational_compliance m = Ok record ∧
       dict_get "workflow_approved" record = Some (PBool false)) ∧
    (exists m' record,
       ManifestCreator_add_approval now_step now_update m approver_id approver_name role
         status comments = Ok m' ∧
       _check_organizational_compliance m' = Ok record ∧
       dict_get "workflow_approved" record = Some (PBool (String.eqb status "approved"))).
Proof.
  intros uuid t wid cid cname c dept proj now_step now_update m
         approver_id approver_name role status comments Hw.
  split.
  - unfold _check_organizational_compliance. rewrite Hw.
    unfold build_workflow_assertion, Assertion_new, organizational_context.
    destruct (opt_str dept || opt_str proj); eexists; (split; [reflexivity|reflexivity]).
  - unfold ManifestCreator_add_approval. rewrite Hw.
    unfold add_approval_to_workflow, build_workflow_assertion, Assertion_new.
    cbn [label String.eqb Ascii.eqb Bool.eqb negb data dict_get app mbind result_bind
         dict_set with_data].
    unfold organizational_context.
    destruct (status =? "approved")%string eqn:E;
      destruct (opt_str dept || opt_str proj) eqn:Ho;
      eexists _, _; (split; [reflexivity|]);
      unfold _check_organizational_compliance;
      rewrite get_assertion_replace_first by reflexivity; rewrite Hw;
      unfold build_workflow_assertion, Assertion_new, organizational_context;
      rewrite ?Ho; cbn; rewrite E; (split; reflexivity).
Qed.

Lemma approval_decides_workflow_approved_witness :
  exists m' record,
    ManifestCreator_add_approval (Datetime 1) (Datetime 2)
      (with_assertions acme_manifest
         [build_workflow_assertion "u1" (Datetime 0) "wf-1" "alice" "Alice" INTERNAL None None])
      "bob" "Bob" "approver" "approved" None = Ok m' ∧
    _check_organizational_compliance m' = Ok record ∧
    dict_get "workflow_approved" record = Some (PBool true).
Proof.
  apply (approval_decides_workflow_approved "u1" (Datetime 0) "wf-1" "alice" "Alice" INTERNAL
           None None (Datetime 1) (Datetime 2)
           (with_assertions acme_manifest
              [build_workflow_assertion "u1" (Datetime 0) "wf-1" "alice" "Alice" INTERNAL
                 None None])
           "bob" "Bob" "approver" "approved" None).
  reflexivity.
Defined.

(** X24. On a manifest whose workflow assertion the builder made,
    [update_compliance] returns, and what it was given is what the
    validator and the compliance engine then read: the PDPA and trademark
    entries are the given flags, false when none was given, and the legal
    review counts as passed exactly when the given text is [passed]. *)
Theorem compliance_update_is_read :
  forall uuid t wid cid cname c dept proj now m pdpa_approved trademark_cleared legal_review
         at_time by_user,
    get_assertion m "org.enterprise.workflow"
    = Some (build_workflow_assertion uuid t wid cid cname c dept proj) ->
    let pdpa := default false pdpa_approved in
    let trademark := default false trademark_cleared in
    let legal := from_option (fun s => String.eqb s "passed") false legal_review in
    exists m' record,
      ManifestCreator_update_compliance now m pdpa_approved trademark_cleared legal_review
      = Ok m' ∧
      _check_organizational_compliance m' = Ok record ∧
      dict_get "pdpa_compliant" record = Some (PBool pdpa) ∧
      dict_get "trademark_cleared" record = Some (PBool trademark) ∧
      dict_get "legal_review_passed" record = Some (PBool legal) ∧
      (exists r, _check_pdpa_consent m' at_time by_user = Ok r ∧
                 check_status r = if pdpa then STATUS_PASSED else STATUS_FAILED) ∧
      (exists r, _check_trademark m' at_time by_user = Ok r ∧
                 check_status r = if trademark then STATUS_PASSED else STATUS_FAILED) ∧
      (exists r, _check_legal_review m' at_time by_user = Ok r ∧
                 check_status r = if legal then STATUS_PASSED else STATUS_PENDING).
Proof.
  intros uuid t wid cid cname c dept proj now m pdpa_approved trademark_cleared legal_review
         at_time by_user Hw pdpa trademark legal.
  subst pdpa trademark legal.
  unfold ManifestCreator_update_compliance. rewrite Hw.
  unfold update_compliance_check, build_workflow_assertion, Assertion_new,
    organizational_context.
  cbn [label String.eqb Ascii.eqb Bool.eqb negb data dict_get app].
  assert (forall s, legal_review = Some s ->
            exists b, String.eqb s "passed" = b) as Hs by eauto.
  destruct (opt_str dept || opt_str proj) eqn:Ho;
    destruct pdpa_approved as [[|]|], trademark_cleared as [[|]|], legal_review as [s|];
    try (destruct (Hs s eq_refl) as [[|] E]);
    eexists _, _; (split; [reflexivity|]);
    unfold _check_organizational_compliance, _check_pdpa_consent, _check_trademark,
      _check_legal_review, workflow_payload;
    rewrite get_assertion_replace_first by reflexivity; rewrite Hw;
    cbn; rewrite ?E;
    repeat (split; [reflexivity|]); repeat split; eexists; (split; reflexivity).
Qed.

Lemma compliance_update_is_read_witness :
  exists m' r,
    ManifestCreator_update_compliance (Datetime 1)
      (with_assertions acme_manifest
         [build_workflow_assertion "u1" (Datetime 0) "wf-1" "alice" "Alice" INTERNAL None None])
      (Some true) None (Some "passed") = Ok m' ∧
    _check_pdpa_consent m' (Datetime 2) None = Ok r ∧ check_status r = STATUS_PASSED.
Proof.
  destruct (compliance_update_is_read "u1" (Datetime 0) "wf-1" "alice" "Alice" INTERNAL
              None None (Datetime 1)
              (with_assertions acme_manifest
                 [build_workflow_assertion "u1" (Datetime 0) "wf-1" "alice" "Alice" INTERNAL
                    None None])
              (Some true) None (Some "passed") (Datetime 2) None eq_refl)
    as (m' & record & Hm & _ & _ & _ & _ & (r & Hr & Hs) & _).
  exists m', r. split; [exact Hm|]. split; [exact Hr|exact Hs].
Defined.

(** ** Compliance engine *)

Section ComplianceProperties.

Variable py_format : pyval -> string.

Lemma _check_rule_rule m rule now by_user r :
  _check_rule py_format m rule now by_user = Ok r -> check_rule r = rule.
Proof.
  unfold _check_rule, _check_pdpa_consent, _check_trademark, _check_legal_review,
    _check_classification.
  intros H. destruct rule; destruct (workflow_payload m) as [d|];
    try (destruct (py_get _ _ _) as [v|]; [|discriminate]; cbn [mbind result_bind] in H);
    try (destruct (py_truthy v)); try (destruct (py_eq_str v "passed"));
    try (destruct (existsb _ _));
    by injection H as <-.
Qed.

Lemma update_overall_status_of acc r :
  update_overall (status_of acc) r = status_of (acc ++ [r]).
Proof.
  unfold update_overall, status_of. rewrite !existsb_app. simpl. rewrite !orb_false_r.
  destruct (existsb _ acc), (existsb _ acc); destruct (check_status r); done.
Qed.

Lemma compliance_loop_spec m clock by_user rules : forall i acc res ov,
  compliance_loop py_format m clock i by_user rules acc (status_of acc) = Ok (res, ov) ->
  ov = status_of res ∧ exists new, res = acc ++ new ∧ check_rule <$> new = rules.
Proof.
  induction rules as [|rule rules IH]; intros i acc res ov H; simpl in H.
  - injection H as <- <-. split; [done|]. exists []. by rewrite app_nil_r.
  - destruct (_check_rule py_format m rule (clock i) by_user) as [r|] eqn:Hr; [|discriminate].
    cbn [mbind result_bind] in H. rewrite update_overall_status_of in H.
    apply IH in H as (-> & new & -> & <-). split; [done|].
    exists (r :: new). rewrite <- app_assoc. split; [done|]. simpl.
    by rewrite (_check_rule_rule _ _ _ _ _ Hr).
Qed.

(** X25. A report of [check_compliance] has one result for each rule of
    the policy, in the order of the rules.  Its overall status is FAILED
    exactly when some check failed, WARNING exactly when none failed and
    some gave a warning, and PASSED otherwise: it never is PENDING, and a
    pending check does not lower it. *)
Theorem overall_status_of_report :
  forall self clock m name by_user report self',
    check_compliance py_format self clock m name by_user = (Ok report, self') ->
    (exists policy, compliance_policies self !! name = Some policy ∧
                    check_rule <$> results report = compliance_rules policy) ∧
    (overall_status report = STATUS_FAILED <-> Exists check_failed (results report)) ∧
    (overall_status report = STATUS_WARNING <->
     ¬ Exists check_failed (results report) ∧ Exists check_warned (results report)) ∧
    (overall_status report = STATUS_PASSED <->
     ¬ Exists check_failed (results report) ∧ ¬ Exists check_warned (results report)) ∧
    overall_status report ≠ STATUS_PENDING.
Proof.
  intros self clock m name by_user report self' H. unfold check_compliance in H.
  destruct (compliance_policies self !! name) as [policy|] eqn:Hp; [|discriminate].
  destruct (compliance_loop _ _ _ _ _ _ _ _) as [[res ov]|] eqn:Hl; [|discriminate].
  injection H as <- _. cbn [results overall_status].
  apply (compliance_loop_spec m clock by_user (compliance_rules policy) 0 []) in Hl
    as (-> & new & -> & Hr).
  split; [by exists policy|]. simpl. unfold status_of.
  assert (forall s, existsb (fun r => bool_decide (check_status r = s)) new = true
                    <-> Exists (fun r => check_status r = s) new) as He.
  { intros s. rewrite existsb_exists, Exists_exists.
    split; intros (r & Hin & Hs); exists r.
    - split; [by apply list_elem_of_In|by apply bool_decide_eq_true in Hs].
    - split; [by apply list_elem_of_In|by apply bool_decide_eq_true]. }
  pose proof (He STATUS_FAILED) as Hf. pose proof (He STATUS_WARNING) as Hw.
  unfold check_failed, check_warned.
  destruct (existsb _ new), (existsb _ new); intuition congruence.
Qed.

(** X26. [check_compliance] raises [ValueError] for a name under which no
    policy is kept, and a call that raises leaves the engine as it was.  A
    report it returns is kept under the identifier of the manifest, where
    [get_report] finds it, in place of an earlier one; the reports of
    other manifests and the policies are untouched. *)
Theorem report_is_kept :
  forall self clock m name by_user,
    (compliance_policies self !! name = None ->
     (check_compliance py_format self clock m name by_user).1
     = Raise (ValueError ("Policy not found: " +:+ name))) ∧
    (is_ok (check_compliance py_format self clock m name by_user).1 = false ->
     (check_compliance py_format self clock m name by_user).2 = self) ∧
    (forall report self',
       check_compliance py_format self clock m name by_user = (Ok report, self') ->
       report_manifest_id report = instance_id m ∧
       get_report self' (instance_id m) = Some report ∧
       (forall other, other ≠ instance_id m -> get_report self' other = get_report self other) ∧
       compliance_policies self' = compliance_policies self).
Proof.
  intros self clock m name by_user. unfold check_compliance, get_report.
  destruct (compliance_policies self !! name) as [policy|]; simpl.
  2:{ split; [done|]. split; [done|]. by intros report self'. }
  destruct (compliance_loop _ _ _ _ _ _ _ _) as [[res ov]|]; simpl.
  2:{ split; [done|]. split; [done|]. by intros report self'. }
  split; [done|]. split; [done|].
  intros report self' [= <- <-]. simpl. split; [done|].
  split; [by rewrite lookup_insert_eq|]. split; [|done].
  intros other Hne. by rewrite lookup_insert_ne.
Qed.

End ComplianceProperties.

Lemma overall_status_of_report_witness :
  exists report self',
    check_compliance plain_format ComplianceEngine_new (fun _ => Datetime 0) acme_manifest
      "public_content" None = (Ok report, self') ∧
    (overall_status report = STATUS_FAILED <-> Exists check_failed (results report)).
Proof.
  eexists _, _. split; [vm_compute; reflexivity|].
  eapply (overall_status_of_report plain_format ComplianceEngine_new (fun _ => Datetime 0)
            acme_manifest "public_content" None).
  vm_compute. reflexivity.
Defined.

(** ** Hash of a file *)

Section FileHashProperties.

Variable hash_state : Type.
Variable hash_update : hash_state -> bytes -> hash_state.
Variable hash_hexdigest : hash_state -> string.

(** The law of a hash object: feeding chunks one after the other is
    feeding their concatenation, and feeding nothing changes nothing. *)
Hypothesis update_nil : forall h, hash_update h [] = h.
Hypothesis update_app : forall h a b, hash_update (hash_update h a) b = hash_update h (a ++ b).

Lemma read_loop_spec chunk_size : 0 < chunk_size -> forall fuel rest h,
  length rest < fuel ->
  read_loop hash_state hash_update fuel chunk_size rest h = Some (hash_update h rest).
Proof using update_nil update_app.
  intros Hc. induction fuel as [|fuel IH]; intros rest h Hf; [lia|]. simpl.
  destruct (take chunk_size rest) as [|x chunk] eqn:Ht.
  - destruct rest as [|y rest]; [by rewrite update_nil|].
    destruct chunk_size; [lia|discriminate].
  - rewrite IH.
    + by rewrite update_app, <- Ht, take_drop.
    + rewrite length_drop. destruct rest; [by destruct chunk_size|].
      simpl in Hf |- *. lia.
Qed.

(** X27. For a hash object that obeys the law of hash objects,
    [_compute_file_hash] returns, for a content of any length, the digest
    of the content fed at once: reading in chunks of 8192 bytes changes
    nothing. *)
Theorem file_hash_is_one_shot :
  forall hash_new content,
    _compute_file_hash hash_state hash_update hash_hexdigest hash_new content
    = Some (hash_hexdigest (hash_update hash_new content)).
Proof using update_nil update_app.
  intros hash_new content. unfold _compute_file_hash.
  rewrite read_loop_spec; [done|apply Nat.lt_0_succ|lia].
Qed.

End FileHashProperties.

Lemma file_hash_is_one_shot_witness :
  _compute_file_hash bytes keep_update keep_hexdigest [] (b_lit "abc")
  = Some (keep_hexdigest (keep_update [] (b_lit "abc"))).
Proof.
  apply (file_hash_is_one_shot bytes keep_update keep_hexdigest).
  - intros h. apply app_nil_r.
  - intros h a b. symmetry. apply app_assoc.
Defined.

(** ** Workflow engine *)

Section WorkflowProperties.

Variable invalid_transition_message : WorkflowAction -> WorkflowState -> string.
Variable role_message : string -> WorkflowAction -> string -> string.

Lemma find_transition_initial state action t :
  find_transition state action initial_transitions = Some t <->
  t ∈ initial_transitions ∧ from_state t = state ∧ transition_action t = action.
Proof.
  split.
  - destruct state, action; cbn; intros [= <-];
      (split; [apply list_elem_of_In; simpl; tauto|done]).
  - intros (Hin & <- & <-). unfold initial_transitions in Hin.
    repeat (apply elem_of_cons in Hin as [->|Hin]); [..|by apply elem_of_nil in Hin];
      reflexivity.
Qed.

Lemma available_from_draft user_role :
  transition_action <$>
    filter (fun t => from_state t = DRAFT ∧
                     (user_role = required_role t ∨ user_role = "administrator"))
      initial_transitions
  = if bool_decide (user_role = "creator" ∨ user_role = "administrator")
    then [SUBMIT] else [].
Proof.
  unfold initial_transitions.
  destruct (bool_decide_reflect (user_role = "creator" ∨ user_role = "administrator"))
    as [Hr|Hr].
  - rewrite filter_cons_True by done.
    by repeat (rewrite filter_cons_False by (by intros [? _])).
  - by repeat (rewrite filter_cons_False by (by intros [? ?])).
Qed.

(** X28. With the transitions of a new engine, the actions
    [get_available_actions] lists for a role are exactly those [transition]
    performs for that role.  A workflow in the draft state, as
    [create_workflow] makes it, offers SUBMIT to the creator and the
    administrator and nothing to anyone else; an archived one offers
    nothing. *)
Theorem available_actions_are_possible :
  forall self now now' wid w user_role,
    transitions self = initial_transitions ->
    workflows self !! wid = Some w ->
    (forall action user_id user_name comments,
       action ∈ get_available_actions self wid user_role <->
       is_ok (transition invalid_transition_message role_message self now now' wid action
                user_id user_name user_role comments).1 = true) ∧
    (current_state w = DRAFT ->
     get_available_actions self wid user_role
     = if bool_decide (user_role = "creator" ∨ user_role = "administrator")
       then [SUBMIT] else []) ∧
    (forall m creator_id creator_name,
       get_available_actions (create_workflow self now now' m creator_id creator_name).2
         (instance_id m) user_role
       = if bool_decide (user_role = "creator" ∨ user_role = "administrator")
         then [SUBMIT] else []) ∧
    (current_state w = ARCHIVED -> get_available_actions self wid user_role = []).
Proof.
  intros self now now' wid w user_role Ht Hw.
  unfold get_available_actions, transition. rewrite Hw, Ht. split; [|split; [|split]].
  - intros action user_id user_name comments.
    rewrite list_elem_of_fmap. setoid_rewrite list_elem_of_filter. split.
    + intros (t & -> & (Hfrom & Hrole) & Hin).
      rewrite (proj2 (find_transition_initial (current_state w) (transition_action t) t))
        by done.
      destruct Hrole as [-> | ->]; rewrite String.eqb_refl; simpl;
        by rewrite ?andb_false_r.
    + destruct (find_transition (current_state w) action initial_transitions) as [t|] eqn:Hf;
        [|discriminate].
      apply find_transition_initial in Hf as (Hin & Hfrom & Hact).
      destruct (String.eqb_spec user_role (required_role t)) as [Hr|Hr]; simpl.
      * intros _. exists t. by auto.
      * destruct (String.eqb_spec user_role "administrator") as [Ha|Ha]; simpl;
          [|discriminate].
        intros _. exists t. by auto.
  - intros ->. apply available_from_draft.
  - intros m creator_id creator_name. unfold create_workflow.
    cbn [snd workflows transitions workflow_id]. rewrite lookup_insert_eq, Ht.
    apply available_from_draft.
  - intros ->. unfold initial_transitions.
    by repeat (rewrite filter_cons_False by (by intros [? _])).
Qed.

(** X29. A transition that succeeds is the first one of the table from
    the current state by the action, and the role is the one it requires
    or the administrator.  Afterwards the instance is in the target state,
    its history is the old one with one entry for the step at its end, and
    [get_workflow] finds it; the other instances and the table are
    untouched.  A transition that raises leaves the engine as it was. *)
Theorem transition_records_history :
  forall self now now' wid action user_id user_name user_role comments,
    (forall w' self',
       transition invalid_transition_message role_message self now now' wid action
         user_id user_name user_role comments = (Ok w', self') ->
       exists w t,
         workflows self !! wid = Some w ∧
         find_transition (current_state w) action (transitions self) = Some t ∧
         (user_role = required_role t ∨ user_role = "administrator") ∧
         get_workflow self' wid = Some w' ∧
         current_state w' = to_state t ∧
         history w' = history w
                      ++ [history_entry now user_id user_name (current_state w) (to_state t)
                            action comments] ∧
         workflow_id w' = workflow_id w ∧ created_by w' = created_by w ∧
         (forall other, other ≠ wid -> get_workflow self' other = get_workflow self other) ∧
         transitions self' = transitions self) ∧
    (forall e self',
       transition invalid_transition_message role_message self now now' wid action
         user_id user_name user_role comments = (Raise e, self') ->
       self' = self).
Proof.
  intros self now now' wid action user_id user_name user_role comments.
  unfold transition, get_workflow.
  destruct (workflows self !! wid) as [w|] eqn:Hw;
    [|split; [done|by intros e self' [= _ <-]]].
  destruct (find_transition (current_state w) action (transitions self)) as [t|] eqn:Hf;
    [|split; [done|by intros e self' [= _ <-]]].
  destruct (String.eqb_spec user_role (required_role t)) as [Hr|Hr]; simpl.
  - split; [|done]. intros w' self' [= <- <-]. exists w, t.
    cbn [workflows transitions current_state history workflow_id created_by].
    rewrite lookup_insert_eq.
    split; [done|]. split; [done|]. split; [by left|]. split; [done|]. split; [done|].
    split; [reflexivity|]. split; [done|]. split; [done|]. split; [|done].
    intros other Hne. by rewrite lookup_insert_ne.
  - destruct (String.eqb_spec user_role "administrator") as [Ha|Ha]; simpl.
    + split; [|done]. intros w' self' [= <- <-]. exists w, t.
      cbn [workflows transitions current_state history workflow_id created_by].
      rewrite lookup_insert_eq.
      split; [done|]. split; [done|]. split; [by right|]. split; [done|]. split; [done|].
      split; [reflexivity|]. split; [done|]. split; [done|]. split; [|done].
      intros other Hne. by rewrite lookup_insert_ne.
    + split; [done|]. by intros e self' [= _ <-].
Qed.

End WorkflowProperties.

(** ** Access control *)

Lemma foldl_add_parent_permissions self parents : forall perms p,
  p ∈ foldl (add_parent_permissions self) perms parents <->
  p ∈ perms ∨
  exists parent_name parent,
    parent_name ∈ parents ∧ roles self !! parent_name = Some parent ∧
    p ∈ permissions parent.
Proof.
  induction parents as [|name parents IH]; intros perms p; simpl.
  - split; [by left|]. intros [H|(? & ? & H & _)]; [done|]. by apply elem_of_nil in H.
  - rewrite IH. unfold add_parent_permissions. split.
    + intros [H|(pn & parent & Hin & Hl & Hp)].
      * destruct (roles self !! name) as [parent|] eqn:Hl; [|by left].
        apply elem_of_union in H as [H|H]; [by left|].
        right. exists name, parent. split; [by left|done].
      * right. exists pn, parent. split; [by right|done].
    + intros [H|(pn & parent & Hin & Hl & Hp)].
      * left. destruct (roles self !! name); [|done]. apply elem_of_union. by left.
      * apply elem_of_cons in Hin as [->|Hin].
        -- left. rewrite Hl. apply elem_of_union. by right.
        -- right. by exists pn, parent.
Qed.

Lemma add_role_permissions_spec self perms name p :
  p ∈ add_role_permissions self perms name <->
  p ∈ perms ∨ exists role, roles self !! name = Some role ∧ role_gives self role p.
Proof.
  unfold add_role_permissions, role_gives.
  destruct (roles self !! name) as [role|]; [|split; [by left|by intros [?|(? & ? & _)]]].
  assert (p ∈ perms ∪ permissions role ∨
          (exists parents parent_name parent,
             inherits_from role = Some parents ∧ parent_name ∈ parents ∧
             roles self !! parent_name = Some parent ∧ p ∈ permissions parent)
          <-> p ∈ perms ∨
              exists role0, Some role = Some role0 ∧
                (p ∈ permissions role0 ∨
                 exists parents parent_name parent,
                   inherits_from role0 = Some parents ∧ parent_name ∈ parents ∧
                   roles self !! parent_name = Some parent ∧ p ∈ permissions parent))
    as <-.
  { rewrite elem_of_union. split.
    - intros [[H|H]|H]; [by left| |]; right; exists role; (split; [done|]);
        [by left|by right].
    - intros [H|(role0 & Hr & [H|H])]; [by left; left| |];
        injection Hr as <-; [by left; right|by right]. }
  destruct (inherits_from role) as [[|x parents]|].
  - split; [by left|]. intros [H|(ps & pn & parent & Hps & Hin & _)]; [done|].
    injection Hps as <-. by apply elem_of_nil in Hin.
  - rewrite foldl_add_parent_permissions. split.
    + intros [H|(pn & parent & Hin & Hl & Hp)]; [by left|].
      right. by exists (x :: parents), pn, parent.
    + intros [H|(ps & pn & parent & Hps & Hin & Hl & Hp)]; [by left|].
      injection Hps as <-. right. by exists pn, parent.
  - split; [by left|]. by intros [H|(ps & pn & parent & Hps & _)].
Qed.

Lemma foldl_add_role_permissions self names : forall perms p,
  p ∈ foldl (add_role_permissions self) perms names <->
  p ∈ perms ∨
  exists name role, name ∈ names ∧ roles self !! name = Some role ∧ role_gives self role p.
Proof.
  induction names as [|name names IH]; intros perms p; simpl.
  - split; [by left|]. intros [H|(? & ? & H & _)]; [done|]. by apply elem_of_nil in H.
  - rewrite IH, add_role_permissions_spec. split.
    + intros [[H|(role & Hl & Hg)]|(n & role & Hin & Hl & Hg)].
      * by left.
      * right. exists name, role. split; [by left|done].
      * right. exists n, role. split; [by right|done].
    + intros [H|(n & role & Hin & Hl & Hg)]; [by left; left|].
      apply elem_of_cons in Hin as [->|Hin].
      * left. right. by exists role.
      * right. by exists n, role.
Qed.

(** X30. A user has a permission exactly when the user is known and
    active and one of the roles of the user is known and gives it, by
    itself or through a role it names as a parent; the parents of a parent
    give nothing.  [check_permissions] asks this of every permission of
    its list, and [authorize] raises [PermissionError] exactly when the
    user has not the permission. *)
Theorem permission_comes_from_a_role :
  forall self uid p,
    (p ∈ get_user_permissions self uid <->
     exists user name role,
       users self !! uid = Some user ∧ is_active user = true ∧
       name ∈ user_roles user ∧ roles self !! name = Some role ∧ role_gives self role p) ∧
    (forall perms,
       check_permissions self uid perms = true <->
       forall perm, perm ∈ perms -> perm ∈ get_user_permissions self uid) ∧
    (authorize self uid p = Ok tt <-> p ∈ get_user_permissions self uid) ∧
    (p ∉ get_user_permissions self uid ->
     exists msg, authorize self uid p = Raise (OtherException "PermissionError" msg)).
Proof.
  intros self uid p. split; [|split; [|split]].
  - unfold get_user_permissions.
    destruct (users self !! uid) as [user|];
      [|split; [by intros ?%elem_of_empty|by intros (? & ? & ? & ? & _)]].
    destruct (is_active user) eqn:Ha; simpl.
    + rewrite foldl_add_role_permissions. split.
      * intros [H|(name & role & Hin & Hl & Hg)]; [by apply elem_of_empty in H|].
        by exists user, name, role.
      * intros (user' & name & role & [= <-] & _ & Hin & Hl & Hg).
        right. by exists name, role.
    + split; [by intros ?%elem_of_empty|].
      intros (user' & name & role & [= <-] & Ha' & _). congruence.
  - intros perms. unfold check_permissions. rewrite forallb_forall. split.
    + intros H perm Hin. apply list_elem_of_In, H in Hin.
      by apply bool_decide_eq_true in Hin.
    + intros H perm Hin. apply bool_decide_eq_true_2, H. by apply list_elem_of_In.
  - unfold authorize, check_permission.
    destruct (bool_decide_reflect (p ∈ get_user_permissions self uid)); simpl;
      split; done.
  - intros Hn. unfold authorize, check_permission.
    rewrite bool_decide_eq_false_2 by done. by eexists.
Qed.

Lemma available_actions_are_possible_witness :
  get_available_actions
    (create_workflow WorkflowEngine_new (Datetime 0) (Datetime 0) acme_manifest
       "alice" "Alice").2
    "xmp:iid:acme-0001" "creator"
  = [SUBMIT].
Proof.
  apply (proj1 (proj2 (available_actions_are_possible (fun _ _ => "invalid transition")
                         (fun _ _ _ => "role not allowed")
                         (create_workflow WorkflowEngine_new (Datetime 0) (Datetime 0)
                            acme_manifest "alice" "Alice").2
                         (Datetime 1) (Datetime 1) "xmp:iid:acme-0001"
                         (create_workflow WorkflowEngine_new (Datetime 0) (Datetime 0)
                            acme_manifest "alice" "Alice").1
                         "creator" eq_refl eq_refl))).
  reflexivity.
Defined.

Lemma permission_comes_from_a_role_witness :
  MANIFEST_SIGN ∈ get_user_permissions
                    (add_user AccessControl_new (sample_user ["approver"] true)) "u-17".
Proof.
  apply (proj1 (permission_comes_from_a_role
                  (add_user AccessControl_new (sample_user ["approver"] true))
                  "u-17" MANIFEST_SIGN)).
  exists (sample_user ["approver"] true), "approver",
    (default_role "approver" "Content approver with approval permissions"
       {[ MANIFEST_READ; MANIFEST_SIGN; WORKFLOW_APPROVE; WORKFLOW_REJECT;
          COMPLIANCE_CHECK ]}).
  split; [reflexivity|]. split; [reflexivity|]. split; [by left|].
  split; [reflexivity|]. left. simpl. set_solver.
Defined.
